(** * libfreespace, win32/freespace_device.c: the send and receive engine

    A shallow embedding of the Windows device layer of libfreespace and the
    properties of it that the design document states.

    The C file works on one [FreespaceDeviceStruct] reached through
    [freespace_private_getDeviceById], on the process-wide
    [freespace_instance_], and on the Win32 overlapped I/O calls.  Here the
    device record, the instance hooks and the operating system are the three
    parts of an explicit [State]; every C function becomes an action of the
    monad [M], which threads that state and can stop in [Fault] where the C
    code has undefined behaviour (a call through a NULL function pointer, a
    store outside a buffer).

    The operating system is an oracle: each call kind has a queue of scripted
    answers, consumed in call order, and every call, callback invocation and
    hook invocation is appended to a chronological [trace]. *)

From Stdlib Require Import ZArith Lia.
From Stdlib Require Strings.Byte.
From stdpp Require Import base numbers list option.

Open Scope Z_scope.

(** ** Platform constants (winerror.h, winbase.h) *)

Definition ERROR_IO_INCOMPLETE : Z := 996.
Definition ERROR_IO_PENDING : Z := 997.
Definition ERROR_DEVICE_NOT_CONNECTED : Z := 1167.
Definition WAIT_OBJECT_0 : Z := 0.
Definition WAIT_TIMEOUT : Z := 258.
Definition WAIT_FAILED : Z := 4294967295.

(** ** The send timeout of the file, in milliseconds *)

Definition SEND_TIMEOUT : Z := 1000.

(** ** Result codes (the enumeration of freespace.h; only distinctness of the
    constants matters to this file) *)

Inductive rc : Set :=
| FREESPACE_SUCCESS
| FREESPACE_ERROR_IO
| FREESPACE_ERROR_BUSY
| FREESPACE_ERROR_NO_DEVICE
| FREESPACE_ERROR_NOT_FOUND
| FREESPACE_ERROR_TIMEOUT
| FREESPACE_ERROR_SEND_TOO_LARGE
| FREESPACE_ERROR_INTERRUPTED
| FREESPACE_ERROR_NO_DATA
| FREESPACE_ERROR_UNEXPECTED.

#[global] Instance rc_eq_dec : EqDecision rc.
Proof. solve_decision. Defined.

(** ** Data model *)

Definition byte : Set := Byte.byte.
Definition x00 : byte := Byte.x00.

(** An OS handle; [None] is NULL. *)
Definition HANDLE : Set := Z.

(** A function pointer of the application is its address; calling it is an
    event of the trace.  [None] is NULL. *)
Definition freespace_sendCallback : Set := Z.

(** The receive callback is the one callback whose re-entrant behaviour the
    engine reacts to: [rcb_unregisters payload code] tells whether this
    invocation calls [freespace_setReceiveCallback(id, NULL, NULL)] before it
    returns. *)
Record freespace_receiveCallback : Type := mkReceiveCallback {
  rcb_addr : Z;
  rcb_unregisters : option (list byte) -> rc -> bool
}.

(** The metadata of a channel.  freespace_device.h declares the integer
    types of the struct fields; the values are taken here as the integers
    they denote, and report lengths of a real channel are not negative. *)
Record FreespaceSubStructInfo : Set := mkInfo {
  idVendor_ : Z;
  idProduct_ : Z;
  inputReportByteLength_ : Z;
  outputReportByteLength_ : Z
}.

(** One physical report channel.  [devicePath] is used by open and destroy
    only and is left out. *)
Record FreespaceSubStruct : Set := mkSub {
  handle_ : option HANDLE;
  info_ : FreespaceSubStructInfo;
  readStatus_ : bool;
  readBuffer : list byte;
  readBufferSize : Z;
  readOverlapped_hEvent : option HANDLE
}.

(** One send slot.  [interface_] points into the device's channel table: it
    is the index of the channel, [None] for NULL. *)
Record FreespaceSendStruct : Type := mkSend {
  interface_ : option nat;
  report_ : list byte;
  numBytes_ : Z;
  rc_ : rc;
  error_ : rc;
  callback_ : option freespace_sendCallback;
  cookie_ : Z;
  timeoutMs_ : Z;
  overlapped_hEvent : option HANDLE
}.

(** The logical device.  [handles_] is the C array [handle_] (the channel
    record already owns the name [handle_]), [handleCount_] the number of
    attached channels; [send_] is the slot array, whose length is
    FREESPACE_MAXIMUM_SEND_MESSAGE_COUNT. *)
Record FreespaceDeviceStruct : Type := mkDevice {
  id_ : Z;
  isOpened_ : bool;
  handleCount_ : nat;
  handles_ : list FreespaceSubStruct;
  send_ : list FreespaceSendStruct;
  receiveCallback_ : option freespace_receiveCallback;
  receiveCookie_ : Z
}.

(** The hooks of the event-loop bridge held by [freespace_instance_]. *)
Record FreespaceInstance : Set := mkInstance {
  fdAddedCallback_ : option Z;
  fdRemovedCallback_ : option Z
}.

(** ** The operating system *)

(** The answer of an overlapped I/O call: TRUE with what was transferred, or
    FALSE with the value [GetLastError] then reports. *)
Inductive IoResult (A : Type) : Type :=
| IoTrue (a : A)
| IoFalse (err : Z).
Arguments IoTrue {A} a.
Arguments IoFalse {A} err.

Inductive Event : Type :=
| EvCreateEvent (r : option HANDLE)
| EvWriteFile (h : option HANDLE) (buf : list byte) (n : Z) (r : IoResult Z)
| EvReadFile (h : option HANDLE) (n : Z) (r : IoResult (list byte))
| EvSendResult (h ev : option HANDLE) (bWait : bool) (r : IoResult Z)
| EvReadResult (h ev : option HANDLE) (bWait : bool) (r : IoResult (list byte))
| EvWaitForSingleObject (ev : option HANDLE) (ms : Z) (r : Z)
| EvWaitForMultipleObjects (evs : list (option HANDLE)) (ms : Z) (r : Z)
| EvCancelIo (h : option HANDLE)
| EvCloseHandle (h : option HANDLE)
| EvSleep
| EvSendCallback (fn : freespace_sendCallback) (id cookie : Z) (code : rc)
| EvReceiveCallback (fn : Z) (id : Z) (payload : option (list byte))
                    (len cookie : Z) (code : rc)
| EvFdAdded (ev : option HANDLE)
| EvFdRemoved (ev : option HANDLE).

Record State : Type := mkState {
  device : FreespaceDeviceStruct;
  freespace_instance_ : FreespaceInstance;
  lastError : Z;
  q_CreateEvent : list (option HANDLE);
  q_WriteFile : list (IoResult Z);
  q_ReadFile : list (IoResult (list byte));
  q_SendResult : list (IoResult Z);
  q_ReadResult : list (IoResult (list byte));
  q_Wait : list Z;
  trace : list Event
}.

(** ** The monad *)

Inductive Outcome (A : Type) : Type :=
| Done (a : A) (st : State)
| Fault.
Arguments Done {A} a st.
Arguments Fault {A}.

Definition M (A : Type) : Type := State -> Outcome A.

Definition ret {A} (a : A) : M A := fun st => Done a st.

Definition bind {A B} (m : M A) (k : A -> M B) : M B :=
  fun st => match m st with
            | Done a st' => k a st'
            | Fault => Fault
            end.

Definition fault {A} : M A := fun _ => Fault.

Notation "x <- m ;; k" := (bind m (fun x => k))
  (at level 100, m at next level, right associativity).
Notation "m ;;; k" := (bind m (fun _ => k))
  (at level 100, right associativity).

Definition gets {A} (f : State -> A) : M A := fun st => Done (f st) st.

(** A C [for] loop over [count] consecutive indices from [idx] whose body can
    leave the function: the body answers [Some r] for [return r]. *)
Fixpoint for_loop {R} (idx count : nat) (body : nat -> M (option R))
  : M (option R) :=
  match count with
  | O => ret None
  | S n => r <- body idx ;;
           match r with
           | Some x => ret (Some x)
           | None => for_loop (S idx) n body
           end
  end.

(** The same loop when the body never leaves the function. *)
Fixpoint for_each (idx count : nat) (body : nat -> M unit) : M unit :=
  match count with
  | O => ret tt
  | S n => body idx ;;; for_each (S idx) n body
  end.

(** ** Field updates *)

Definition set_readStatus_ (b : bool) (s : FreespaceSubStruct) : FreespaceSubStruct :=
  mkSub (handle_ s) (info_ s) b (readBuffer s) (readBufferSize s)
        (readOverlapped_hEvent s).

(** What a completed read leaves in the channel: the payload at the front of
    [readBuffer], its size in [readBufferSize]. *)
Definition set_readData (data : list byte) (s : FreespaceSubStruct) : FreespaceSubStruct :=
  mkSub (handle_ s) (info_ s) (readStatus_ s)
        (data ++ drop (length data) (readBuffer s)) (Z.of_nat (length data))
        (readOverlapped_hEvent s).

Definition set_interface_ (i : option nat) (s : FreespaceSendStruct) : FreespaceSendStruct :=
  mkSend i (report_ s) (numBytes_ s) (rc_ s) (error_ s) (callback_ s)
         (cookie_ s) (timeoutMs_ s) (overlapped_hEvent s).

Definition set_report_ (r : list byte) (s : FreespaceSendStruct) : FreespaceSendStruct :=
  mkSend (interface_ s) r (numBytes_ s) (rc_ s) (error_ s) (callback_ s)
         (cookie_ s) (timeoutMs_ s) (overlapped_hEvent s).

Definition set_numBytes_ (n : Z) (s : FreespaceSendStruct) : FreespaceSendStruct :=
  mkSend (interface_ s) (report_ s) n (rc_ s) (error_ s) (callback_ s)
         (cookie_ s) (timeoutMs_ s) (overlapped_hEvent s).

Definition set_rc_ (c : rc) (s : FreespaceSendStruct) : FreespaceSendStruct :=
  mkSend (interface_ s) (report_ s) (numBytes_ s) c (error_ s) (callback_ s)
         (cookie_ s) (timeoutMs_ s) (overlapped_hEvent s).

Definition set_error_ (c : rc) (s : FreespaceSendStruct) : FreespaceSendStruct :=
  mkSend (interface_ s) (report_ s) (numBytes_ s) (rc_ s) c (callback_ s)
         (cookie_ s) (timeoutMs_ s) (overlapped_hEvent s).

Definition set_async (cb : option freespace_sendCallback) (cookie timeoutMs : Z)
    (s : FreespaceSendStruct) : FreespaceSendStruct :=
  mkSend (interface_ s) (report_ s) (numBytes_ s) (rc_ s) (error_ s) cb
         cookie timeoutMs (overlapped_hEvent s).

Definition set_overlapped_hEvent (h : option HANDLE) (s : FreespaceSendStruct)
  : FreespaceSendStruct :=
  mkSend (interface_ s) (report_ s) (numBytes_ s) (rc_ s) (error_ s)
         (callback_ s) (cookie_ s) (timeoutMs_ s) h.

Definition set_handles_ (hs : list FreespaceSubStruct) (d : FreespaceDeviceStruct)
  : FreespaceDeviceStruct :=
  mkDevice (id_ d) (isOpened_ d) (handleCount_ d) hs (send_ d)
           (receiveCallback_ d) (receiveCookie_ d).

Definition set_send_ (ss : list FreespaceSendStruct) (d : FreespaceDeviceStruct)
  : FreespaceDeviceStruct :=
  mkDevice (id_ d) (isOpened_ d) (handleCount_ d) (handles_ d) ss
           (receiveCallback_ d) (receiveCookie_ d).

Definition set_receive (cb : option freespace_receiveCallback) (cookie : Z)
    (d : FreespaceDeviceStruct) : FreespaceDeviceStruct :=
  mkDevice (id_ d) (isOpened_ d) (handleCount_ d) (handles_ d) (send_ d)
           cb cookie.

Definition set_device (d : FreespaceDeviceStruct) (st : State) : State :=
  mkState d (freespace_instance_ st) (lastError st) (q_CreateEvent st)
          (q_WriteFile st) (q_ReadFile st) (q_SendResult st) (q_ReadResult st)
          (q_Wait st) (trace st).

Definition add_event (e : Event) (st : State) : State :=
  mkState (device st) (freespace_instance_ st) (lastError st)
          (q_CreateEvent st) (q_WriteFile st) (q_ReadFile st)
          (q_SendResult st) (q_ReadResult st) (q_Wait st) (trace st ++ [e]).

(** A failed call leaves its error code for [GetLastError]; a call that
    succeeds leaves the previous one. *)
Definition error_after {A} (r : IoResult A) (old : Z) : Z :=
  match r with
  | IoTrue _ => old
  | IoFalse e => e
  end.

(** ** Access to the device record *)

(** The zeroed record that [freespace_private_createDevice] leaves in every
    entry of the channel table (memset). *)
Definition zeroSub : FreespaceSubStruct :=
  mkSub None (mkInfo 0 0 0 0) false [] 0 None.

(** [device->handle_[idx]]. *)
Definition sub_at (d : FreespaceDeviceStruct) (idx : nat) : FreespaceSubStruct :=
  default zeroSub (handles_ d !! idx).

Definition getSub (idx : nat) : M FreespaceSubStruct :=
  gets (fun st => sub_at (device st) idx).

Definition modifySub (idx : nat) (f : FreespaceSubStruct -> FreespaceSubStruct)
  : M unit :=
  fun st =>
    let d := device st in
    Done tt (set_device (set_handles_ (<[idx := f (sub_at d idx)]> (handles_ d)) d) st).

(** [*send] for a slot pointer; a slot pointer is the index of the slot in
    [send_], and reading through a pointer outside the array is a fault. *)
Definition getSend (i : nat) : M FreespaceSendStruct :=
  fun st => match send_ (device st) !! i with
            | Some s => Done s st
            | None => Fault
            end.

Definition modifySend (i : nat) (f : FreespaceSendStruct -> FreespaceSendStruct)
  : M unit :=
  fun st =>
    let d := device st in
    match send_ d !! i with
    | Some s => Done tt (set_device (set_send_ (<[i := f s]> (send_ d)) d) st)
    | None => Fault
    end.

Definition modifyDevice (f : FreespaceDeviceStruct -> FreespaceDeviceStruct)
  : M unit :=
  fun st => Done tt (set_device (f (device st)) st).

(** [send->interface_], dereferenced: the channel a slot targets.  A slot
    whose [interface_] is NULL has none, and going through it is a fault. *)
Definition getInterface (i : nat) : M nat :=
  s <- getSend i ;;
  match interface_ s with
  | Some idx => ret idx
  | None => fault
  end.

(** ** Operating-system calls *)

Definition emit (e : Event) : M unit := fun st => Done tt (add_event e st).

Definition GetLastError : M Z := gets lastError.

Definition CreateEvent : M (option HANDLE) :=
  fun st =>
    let r := default None (head (q_CreateEvent st)) in
    Done r (mkState (device st) (freespace_instance_ st) (lastError st)
                    (tail (q_CreateEvent st)) (q_WriteFile st) (q_ReadFile st)
                    (q_SendResult st) (q_ReadResult st) (q_Wait st)
                    (trace st ++ [EvCreateEvent r])).

(** An exhausted script answers "in flight" to every further read or write
    and "not complete yet" to every further completion query. *)
Definition WriteFile (h : option HANDLE) (buf : list byte) (n : Z)
  : M (IoResult Z) :=
  fun st =>
    let r := default (IoFalse ERROR_IO_PENDING) (head (q_WriteFile st)) in
    Done r (mkState (device st) (freespace_instance_ st)
                    (error_after r (lastError st))
                    (q_CreateEvent st) (tail (q_WriteFile st)) (q_ReadFile st)
                    (q_SendResult st) (q_ReadResult st) (q_Wait st)
                    (trace st ++ [EvWriteFile h buf n r])).

Definition ReadFile (h : option HANDLE) (n : Z) : M (IoResult (list byte)) :=
  fun st =>
    let r := default (IoFalse ERROR_IO_PENDING) (head (q_ReadFile st)) in
    Done r (mkState (device st) (freespace_instance_ st)
                    (error_after r (lastError st))
                    (q_CreateEvent st) (q_WriteFile st) (tail (q_ReadFile st))
                    (q_SendResult st) (q_ReadResult st) (q_Wait st)
                    (trace st ++ [EvReadFile h n r])).

(** [GetOverlappedResult] on the overlapped structure of a send slot. *)
Definition GetOverlappedResult_send (h ev : option HANDLE) (bWait : bool)
  : M (IoResult Z) :=
  fun st =>
    let r := default (IoFalse ERROR_IO_INCOMPLETE) (head (q_SendResult st)) in
    Done r (mkState (device st) (freespace_instance_ st)
                    (error_after r (lastError st))
                    (q_CreateEvent st) (q_WriteFile st) (q_ReadFile st)
                    (tail (q_SendResult st)) (q_ReadResult st) (q_Wait st)
                    (trace st ++ [EvSendResult h ev bWait r])).

(** [GetOverlappedResult] on the read overlapped structure of a channel. *)
Definition GetOverlappedResult_read (h ev : option HANDLE) (bWait : bool)
  : M (IoResult (list byte)) :=
  fun st =>
    let r := default (IoFalse ERROR_IO_INCOMPLETE) (head (q_ReadResult st)) in
    Done r (mkState (device st) (freespace_instance_ st)
                    (error_after r (lastError st))
                    (q_CreateEvent st) (q_WriteFile st) (q_ReadFile st)
                    (q_SendResult st) (tail (q_ReadResult st)) (q_Wait st)
                    (trace st ++ [EvReadResult h ev bWait r])).

Definition next_wait (st : State) : State :=
  mkState (device st) (freespace_instance_ st) (lastError st)
          (q_CreateEvent st) (q_WriteFile st) (q_ReadFile st)
          (q_SendResult st) (q_ReadResult st) (tail (q_Wait st)) (trace st).

Definition WaitForSingleObject (ev : option HANDLE) (ms : Z) : M Z :=
  fun st =>
    let r := default WAIT_TIMEOUT (head (q_Wait st)) in
    Done r (add_event (EvWaitForSingleObject ev ms r) (next_wait st)).

Definition WaitForMultipleObjects (evs : list (option HANDLE)) (ms : Z) : M Z :=
  fun st =>
    let r := default WAIT_TIMEOUT (head (q_Wait st)) in
    Done r (add_event (EvWaitForMultipleObjects evs ms r) (next_wait st)).

Definition CancelIo (h : option HANDLE) : M unit := emit (EvCancelIo h).
Definition CloseHandle (h : option HANDLE) : M unit := emit (EvCloseHandle h).
Definition Sleep0 : M unit := emit EvSleep.

(** [p != NULL] on a pointer. *)
Definition is_Some_bool {A} (o : option A) : bool :=
  match o with
  | Some _ => true
  | None => false
  end.

(** freespace_deviceMgr.c keeps the registry that
    [freespace_private_getDeviceById] searches; here the registry holds the
    one device of the state, found under its own id and under no other. *)
Definition freespace_private_getDeviceById (id : Z) : M bool :=
  gets (fun st => bool_decide (id_ (device st) = id)).

(** ** Buffers and C integer conversions *)

(** [buf[idx] = v] and [buf[idx]]; outside the buffer both are undefined
    behaviour, here [None]. *)
Definition store (buf : list byte) (idx : Z) (v : byte) : option (list byte) :=
  if bool_decide (0 <= idx < Z.of_nat (length buf))
  then Some (<[Z.to_nat idx := v]> buf)
  else None.

Definition load (buf : list byte) (idx : Z) : option byte :=
  if bool_decide (0 <= idx) then buf !! Z.to_nat idx else None.

(** [(unsigned long) z] and the conversion of an unsigned long to [int], on
    the 32-bit [long] of Windows. *)
Definition to_ulong (z : Z) : Z := z mod 2 ^ 32.

Definition to_int (z : Z) : Z :=
  let w := z mod 2 ^ 32 in
  if w <? 2 ^ 31 then w else w - 2 ^ 32.

(** [memcpy(dst, src, n)] for an [int] count [n]: a negative [n] converts to
    a [size_t] beyond every buffer, so it is outside the buffers like any
    count larger than [src] or [dst]. *)
Definition memcpy (dst src : list byte) (n : Z) : option (list byte) :=
  if bool_decide (0 <= n <= Z.of_nat (length src) /\ n <= Z.of_nat (length dst))
  then Some (take (Z.to_nat n) src ++ drop (Z.to_nat n) dst)
  else None.

(** ** The functions of freespace_device.c *)

Definition convertGetLastError : M rc :=
  lastError <- GetLastError ;;
  ret (if bool_decide (lastError = ERROR_DEVICE_NOT_CONNECTED)
       then FREESPACE_ERROR_NOT_FOUND
       else FREESPACE_ERROR_UNEXPECTED).

(** First slot of [send_] whose [interface_] is NULL, as a slot pointer. *)
Definition getNextSendBuffer (d : FreespaceDeviceStruct) : option nat :=
  fst <$> list_find (fun s => interface_ s = None) (send_ d).

Definition initializeSendStruct (send : option nat) : M rc :=
  match send with
  | None => ret FREESPACE_ERROR_BUSY
  | Some i =>
      modifySend i (fun s => set_error_ FREESPACE_SUCCESS (set_interface_ None s)) ;;;
      s <- getSend i ;;
      match overlapped_hEvent s with
      | Some _ => ret FREESPACE_SUCCESS
      | None =>
          h <- CreateEvent ;;
          modifySend i (set_overlapped_hEvent h) ;;;
          match h with
          | None => ret FREESPACE_ERROR_UNEXPECTED
          | Some _ => ret FREESPACE_SUCCESS
          end
      end
  end.

Definition finalizeSendStruct (send : nat) (doClose : bool) : M rc :=
  modifySend send (set_interface_ None) ;;;
  (if doClose
   then s <- getSend send ;;
        CloseHandle (overlapped_hEvent s) ;;;
        modifySend send (set_overlapped_hEvent None)
   else ret tt) ;;;
  s <- getSend send ;;
  ret (rc_ s).

(** The channel search of [prepareSend]: start at [handle_[0]], move to a
    channel only when its output report is strictly longer. *)
Definition select_output (d : FreespaceDeviceStruct) : nat :=
  fold_left
    (fun s idx =>
       if outputReportByteLength_ (info_ (sub_at d idx))
          >? outputReportByteLength_ (info_ (sub_at d s))
       then idx else s)
    (seq 0 (handleCount_ d)) 0%nat.

(** [for (idx = 0; idx < length; idx++) send->report_[idx] = report[idx];]
    run from [idx] for [count] rounds. *)
Fixpoint copy_report (report : list byte) (idx : Z) (count : nat)
    (buf : list byte) : option (list byte) :=
  match count with
  | O => Some buf
  | S n =>
      match load report idx with
      | None => None
      | Some v =>
          match store buf idx v with
          | None => None
          | Some buf' => copy_report report (idx + 1) n buf'
          end
      end
  end.

(** [for (idx = length; idx < out; idx++) send->report_[idx] = 0;] *)
Fixpoint zero_fill (idx : Z) (count : nat) (buf : list byte)
  : option (list byte) :=
  match count with
  | O => Some buf
  | S n =>
      match store buf idx x00 with
      | None => None
      | Some buf' => zero_fill (idx + 1) n buf'
      end
  end.

Section Engine.

(** The size limit of an outgoing report, a constant of freespace.h. *)
Variable FREESPACE_MAX_OUTPUT_MESSAGE_SIZE : Z.

(** The result is the return code and the slot pointer left in [*sendOut]
    ([None] also where the C code returns before writing it). *)
Definition prepareSend (id : Z) (report : list byte) (length : Z)
  : M (rc * option nat) :=
  found <- freespace_private_getDeviceById id ;;
  if negb found then ret (FREESPACE_ERROR_NO_DEVICE, None) else
  d <- gets device ;;
  if negb (isOpened_ d) then ret (FREESPACE_ERROR_IO, None) else
  match getNextSendBuffer d with
  | None => ret (FREESPACE_ERROR_BUSY, None)
  | Some send =>
      retVal <- initializeSendStruct (Some send) ;;
      if bool_decide (retVal <> FREESPACE_SUCCESS) then ret (retVal, Some send) else
      d <- gets device ;;
      let s := select_output d in
      let out := outputReportByteLength_ (info_ (sub_at d s)) in
      modifySend send (set_interface_ (Some s)) ;;;
      if length >? out then
        modifySend send (set_rc_ FREESPACE_ERROR_SEND_TOO_LARGE) ;;;
        ret (FREESPACE_ERROR_SEND_TOO_LARGE, Some send)
      else if out >? FREESPACE_MAX_OUTPUT_MESSAGE_SIZE then
        modifySend send (set_rc_ FREESPACE_ERROR_UNEXPECTED) ;;;
        ret (FREESPACE_ERROR_UNEXPECTED, Some send)
      else
        sl <- getSend send ;;
        match copy_report report 0 (Z.to_nat length) (report_ sl) with
        | None => fault
        | Some copied =>
            match zero_fill length (Z.to_nat (out - length)) copied with
            | None => fault
            | Some padded =>
                modifySend send
                  (fun x => set_rc_ FREESPACE_SUCCESS (set_report_ padded x)) ;;;
                ret (FREESPACE_SUCCESS, Some send)
            end
        end
  end.

(** [FREESPACE_ERROR_IO] is the "still in flight" answer of this function. *)
Definition freespace_send_activate (send : nat) : M rc :=
  idx <- getInterface send ;;
  s <- getSend send ;;
  ch <- getSub idx ;;
  let out := outputReportByteLength_ (info_ ch) in
  retVal <- WriteFile (handle_ ch) (take (Z.to_nat out) (report_ s)) out ;;
  match retVal with
  | IoTrue n =>
      modifySend send (fun x => set_rc_ FREESPACE_SUCCESS (set_numBytes_ n x)) ;;;
      finalizeSendStruct send false
  | IoFalse _ =>
      lastError <- GetLastError ;;
      if bool_decide (lastError <> ERROR_IO_PENDING) then
        CancelIo (handle_ ch) ;;;
        modifySub idx (set_readStatus_ false) ;;;
        modifySend send (set_rc_ FREESPACE_ERROR_UNEXPECTED) ;;;
        finalizeSendStruct send false
      else ret FREESPACE_ERROR_IO
  end.

(** The second half of [freespace_send], entered when the write was left
    in flight: wait for the slot's event, classify, release the slot. *)
Definition await_send (send : nat) : M rc :=
  s <- getSend send ;;
  lastError <- WaitForSingleObject (overlapped_hEvent s) SEND_TIMEOUT ;;
  idx <- getInterface send ;;
  ch <- getSub idx ;;
  (if bool_decide (lastError <> WAIT_OBJECT_0) then
     overlappedResult <-
       GetOverlappedResult_send (handle_ ch) (overlapped_hEvent s) false ;;
     CancelIo (handle_ ch) ;;;
     modifySub idx (set_readStatus_ false) ;;;
     match overlappedResult with
     | IoTrue n =>
         modifySend send
           (fun x => set_rc_ FREESPACE_ERROR_TIMEOUT (set_numBytes_ n x))
     | IoFalse _ => modifySend send (set_rc_ FREESPACE_ERROR_IO)
     end
   else
     overlappedResult <-
       GetOverlappedResult_send (handle_ ch) (overlapped_hEvent s) true ;;
     match overlappedResult with
     | IoFalse _ => modifySend send (set_rc_ FREESPACE_ERROR_IO)
     | IoTrue n =>
         modifySend send (set_numBytes_ n) ;;;
         if bool_decide (n <> outputReportByteLength_ (info_ ch))
         then modifySend send (set_rc_ FREESPACE_ERROR_IO)
         else modifySend send (set_rc_ FREESPACE_SUCCESS)
     end) ;;;
  finalizeSendStruct send false.

Definition freespace_send (id : Z) (report : list byte) (length : Z) : M rc :=
  p <- prepareSend id report length ;;
  if bool_decide (p.1 <> FREESPACE_SUCCESS) then ret p.1 else
  match p.2 with
  | None => fault
  | Some send =>
      retVal <- freespace_send_activate send ;;
      if bool_decide (retVal <> FREESPACE_ERROR_IO) then ret retVal
      else await_send send
  end.

Definition freespace_sendAsync (id : Z) (report : list byte) (length : Z)
    (timeoutMs : Z) (callback : option freespace_sendCallback) (cookie : Z)
  : M rc :=
  p <- prepareSend id report length ;;
  if bool_decide (p.1 <> FREESPACE_SUCCESS) then ret p.1 else
  match p.2 with
  | None => fault
  | Some send =>
      modifySend send (set_async callback cookie timeoutMs) ;;;
      retVal <- freespace_send_activate send ;;
      if bool_decide (retVal <> FREESPACE_ERROR_IO) then ret retVal
      else ret FREESPACE_SUCCESS
  end.

End Engine.

(** ** The receive engine *)

(** A C [for] loop whose body updates a local variable [acc] and can leave
    the function with [inr r]. *)
Fixpoint for_acc {Acc R} (idx count : nat) (body : nat -> Acc -> M (Acc + R))
    (acc : Acc) : M (Acc + R) :=
  match count with
  | O => ret (inl acc)
  | S n => r <- body idx acc ;;
           match r with
           | inl acc' => for_acc (S idx) n body acc'
           | inr x => ret (inr x)
           end
  end.

Definition terminateAsyncReceives : M rc :=
  d <- gets device ;;
  for_each 0 (handleCount_ d) (fun idx =>
    s <- getSub idx ;;
    if readStatus_ s then
      CancelIo (handle_ s) ;;;
      modifySub idx (set_readStatus_ false)
    else ret tt) ;;;
  ret FREESPACE_SUCCESS.

(** [freespace_instance_->fdAddedCallback_(ev, 1)] and
    [freespace_instance_->fdRemovedCallback_(ev)], called without a NULL
    test where the C code has none. *)
Definition call_fdAddedCallback (ev : option HANDLE) : M unit :=
  inst <- gets freespace_instance_ ;;
  match fdAddedCallback_ inst with
  | None => fault
  | Some _ => emit (EvFdAdded ev)
  end.

Definition call_fdRemovedCallback (ev : option HANDLE) : M unit :=
  inst <- gets freespace_instance_ ;;
  match fdRemovedCallback_ inst with
  | None => fault
  | Some _ => emit (EvFdRemoved ev)
  end.

Definition freespace_private_fdSyncAddFilter : M bool :=
  d <- gets device ;;
  (if is_Some_bool (receiveCallback_ d) && isOpened_ d then
     for_each 0 (handleCount_ d) (fun idx =>
       s <- getSub idx ;;
       call_fdAddedCallback (readOverlapped_hEvent s))
   else ret tt) ;;;
  ret false.

Definition fdSyncRemoveFilter : M bool :=
  d <- gets device ;;
  for_each 0 (handleCount_ d) (fun idx =>
    s <- getSub idx ;;
    call_fdRemovedCallback (readOverlapped_hEvent s)) ;;;
  ret false.

(** The body of [freespace_setReceiveCallback].  The function starts the
    receive engine, and the receive engine runs the callback that may call
    the function again; [initiate] is the engine entry it starts, so that
    the re-entrant call can be defined before the engine. *)
Definition setReceiveCallback_body (initiate : M rc) (id : Z)
    (callback : option freespace_receiveCallback) (cookie : Z) : M rc :=
  found <- freespace_private_getDeviceById id ;;
  if negb found then ret FREESPACE_ERROR_NO_DEVICE else
  d <- gets device ;;
  if isOpened_ d && is_Some_bool (receiveCallback_ d) && negb (is_Some_bool callback)
  then
    modifyDevice (set_receive None 0) ;;;
    fdSyncRemoveFilter ;;;
    terminateAsyncReceives
  else if isOpened_ d && negb (is_Some_bool (receiveCallback_ d)) && is_Some_bool callback
  then
    modifyDevice (set_receive callback cookie) ;;;
    freespace_private_fdSyncAddFilter ;;;
    initiate
  else
    modifyDevice (set_receive callback cookie) ;;;
    ret FREESPACE_SUCCESS.

(** [freespace_setReceiveCallback(id, NULL, NULL)] called from inside the
    receive callback; with a NULL callback the registering branch, the only
    one that uses [initiate], is not taken. *)
Definition unregister_from_callback (id : Z) : M rc :=
  setReceiveCallback_body (ret FREESPACE_SUCCESS) id None 0.

(** [device->receiveCallback_(device->id_, payload, len,
    device->receiveCookie_, code)]: a call through NULL is a fault; the
    application code then runs, and unregisters when it is written to. *)
Definition call_receiveCallback (payload : option (list byte)) (len : Z)
    (code : rc) : M unit :=
  d <- gets device ;;
  match receiveCallback_ d with
  | None => fault
  | Some cb =>
      emit (EvReceiveCallback (rcb_addr cb) (id_ d) payload len
                              (receiveCookie_ d) code) ;;;
      if rcb_unregisters cb payload code
      then unregister_from_callback (id_ d) ;;; ret tt
      else ret tt
  end.

(** The bytes a callback sees behind [(char* ) s->readBuffer] with length
    [s->readBufferSize]. *)
Definition payload_of (s : FreespaceSubStruct) : list byte :=
  take (Z.to_nat (readBufferSize s)) (readBuffer s).

(** The [for (;;)] of [initiateAsyncReceives] on channel [idx]: [Some r] is
    [return r], [None] is [break].  Every further round has consumed one
    scripted TRUE answer of [ReadFile], so [fuel] one above the length of
    that script is never used up. *)
Fixpoint drain_reads (fuel idx : nat) : M (option rc) :=
  match fuel with
  | O => fault
  | S fuel' =>
      s <- getSub idx ;;
      bResult <- ReadFile (handle_ s) (inputReportByteLength_ (info_ s)) ;;
      match bResult with
      | IoTrue data =>
          modifySub idx (set_readData data) ;;;
          d <- gets device ;;
          if is_Some_bool (receiveCallback_ d) then
            s <- getSub idx ;;
            call_receiveCallback (Some (payload_of s)) (readBufferSize s)
                                 FREESPACE_SUCCESS ;;;
            drain_reads fuel' idx
          else ret (Some FREESPACE_SUCCESS)
      | IoFalse _ => ret None
      end
  end.

(** The body of the channel loop of [initiateAsyncReceives]; [funcRc] is
    the local variable of that name, [inr r] is [return r]. *)
Definition rearm_channel (idx : nat) (funcRc : rc) : M (rc + rc) :=
  s <- getSub idx ;;
  if readStatus_ s then ret (inl funcRc) else
  fuel <- gets (fun st => S (length (q_ReadFile st))) ;;
  r <- drain_reads fuel idx ;;
  match r with
  | Some x => ret (inr x)
  | None =>
      e <- GetLastError ;;
      if bool_decide (e = ERROR_IO_PENDING) then
        modifySub idx (set_readStatus_ true) ;;;
        ret (inl funcRc)
      else
        code <- convertGetLastError ;;
        call_receiveCallback None 0 code ;;;
        Sleep0 ;;;
        ret (inl FREESPACE_ERROR_INTERRUPTED)
  end.

Definition initiateAsyncReceives : M rc :=
  d <- gets device ;;
  if negb (isOpened_ d) || negb (is_Some_bool (receiveCallback_ d))
  then ret FREESPACE_SUCCESS else
  r <- for_acc 0 (handleCount_ d) rearm_channel FREESPACE_SUCCESS ;;
  ret (match r with inl funcRc => funcRc | inr x => x end).

(** The send pass of [freespace_private_devicePerform] on slot [idx]. *)
Definition perform_send (idx : nat) : M unit :=
  send <- getSend idx ;;
  match interface_ send with
  | None => ret tt
  | Some i =>
      ch <- getSub i ;;
      overlappedResult <-
        GetOverlappedResult_send (handle_ ch) (overlapped_hEvent send) false ;;
      match overlappedResult with
      | IoFalse _ => ret tt
      | IoTrue n =>
          modifySend idx (set_numBytes_ n) ;;;
          d <- gets device ;;
          (if bool_decide (n <> outputReportByteLength_ (info_ ch)) then
             match callback_ send with
             | Some fn => emit (EvSendCallback fn (id_ d) (cookie_ send)
                                               FREESPACE_ERROR_IO)
             | None => ret tt
             end
           else
             match callback_ send with
             | Some fn => emit (EvSendCallback fn (id_ d) (cookie_ send)
                                               FREESPACE_SUCCESS)
             | None => ret tt
             end) ;;;
          finalizeSendStruct idx false ;;;
          ret tt
      end
  end.

(** The poll pass of [freespace_private_devicePerform] on channel [idx]. *)
Definition perform_receive (idx : nat) : M unit :=
  s <- getSub idx ;;
  if readStatus_ s then
    bResult <-
      GetOverlappedResult_read (handle_ s) (readOverlapped_hEvent s) false ;;
    match bResult with
    | IoTrue data =>
        modifySub idx (set_readData data) ;;;
        d <- gets device ;;
        (if is_Some_bool (receiveCallback_ d) then
           s <- getSub idx ;;
           call_receiveCallback (Some (payload_of s)) (readBufferSize s)
                                FREESPACE_SUCCESS
         else ret tt) ;;;
        modifySub idx (set_readStatus_ false)
    | IoFalse _ =>
        e <- GetLastError ;;
        if bool_decide (e <> ERROR_IO_INCOMPLETE) then
          call_receiveCallback None 0 FREESPACE_ERROR_NO_DATA ;;;
          Sleep0 ;;;
          modifySub idx (set_readStatus_ false)
        else ret tt
    end
  else ret tt.

Definition freespace_private_devicePerform : M rc :=
  d <- gets device ;;
  for_each 0 (length (send_ d)) perform_send ;;;
  for_each 0 (handleCount_ d) perform_receive ;;;
  initiateAsyncReceives.

Definition freespace_setReceiveCallback (id : Z)
    (callback : option freespace_receiveCallback) (cookie : Z) : M rc :=
  setReceiveCallback_body initiateAsyncReceives id callback cookie.

(** ** Synchronous read and flush *)

(** [*actualLength = min(s->readBufferSize, (unsigned long) maxLength);
    memcpy(message, s->readBuffer, *actualLength);] *)
Definition read_out (s : FreespaceSubStruct) (message : list byte)
    (maxLength : Z) : option (list byte * Z) :=
  let actualLength := to_int (Z.min (readBufferSize s) (to_ulong maxLength)) in
  match memcpy message (readBuffer s) actualLength with
  | None => None
  | Some message' => Some (message', actualLength)
  end.

(** The first loop of [freespace_read] on channel [idx]. *)
Definition read_start (message : list byte) (maxLength actualLength : Z)
    (idx : nat) : M (option (rc * (list byte * Z))) :=
  s <- getSub idx ;;
  if readStatus_ s then ret None else
  bResult <- ReadFile (handle_ s) (inputReportByteLength_ (info_ s)) ;;
  match bResult with
  | IoTrue data =>
      modifySub idx (set_readData data) ;;;
      s <- getSub idx ;;
      match read_out s message maxLength with
      | None => fault
      | Some out => ret (Some (FREESPACE_SUCCESS, out))
      end
  | IoFalse _ =>
      e <- GetLastError ;;
      if bool_decide (e <> ERROR_IO_PENDING) then
        convertGetLastError ;;;
        Sleep0 ;;;
        ret (Some (FREESPACE_ERROR_INTERRUPTED, (message, actualLength)))
      else
        modifySub idx (set_readStatus_ true) ;;;
        ret None
  end.

(** The second loop of [freespace_read] on channel [idx]. *)
Definition read_check (message : list byte) (maxLength actualLength : Z)
    (idx : nat) : M (option (rc * (list byte * Z))) :=
  s <- getSub idx ;;
  bResult <-
    GetOverlappedResult_read (handle_ s) (readOverlapped_hEvent s) false ;;
  match bResult with
  | IoTrue data =>
      modifySub idx (set_readData data) ;;;
      s <- getSub idx ;;
      match read_out s message maxLength with
      | None => fault
      | Some out =>
          modifySub idx (set_readStatus_ false) ;;;
          ret (Some (FREESPACE_SUCCESS, out))
      end
  | IoFalse _ =>
      e <- GetLastError ;;
      if bool_decide (e <> ERROR_IO_INCOMPLETE) then
        convertGetLastError ;;;
        Sleep0 ;;;
        modifySub idx (set_readStatus_ false) ;;;
        ret (Some (FREESPACE_ERROR_INTERRUPTED, (message, actualLength)))
      else ret None
  end.

(** [message] and [actualLength] are what the caller's buffer and
    [*actualLength] hold before the call; the result is the return code
    with what they hold after it. *)
Definition freespace_read (id : Z) (message : list byte) (maxLength : Z)
    (timeoutMs : Z) (actualLength : Z) : M (rc * (list byte * Z)) :=
  let unchanged := (message, actualLength) in
  found <- freespace_private_getDeviceById id ;;
  if negb found then ret (FREESPACE_ERROR_NO_DEVICE, unchanged) else
  d <- gets device ;;
  r <- for_loop 0 (handleCount_ d) (read_start message maxLength actualLength) ;;
  match r with
  | Some x => ret x
  | None =>
      d <- gets device ;;
      let waitEvents :=
        map (fun idx => readOverlapped_hEvent (sub_at d idx))
            (seq 0 (handleCount_ d)) in
      bResult <- WaitForMultipleObjects waitEvents timeoutMs ;;
      if bool_decide (bResult = WAIT_FAILED)
      then ret (FREESPACE_ERROR_INTERRUPTED, unchanged)
      else if bool_decide (bResult = WAIT_TIMEOUT)
      then ret (FREESPACE_ERROR_TIMEOUT, unchanged)
      else
        r <- for_loop 0 (handleCount_ d)
               (read_check message maxLength actualLength) ;;
        match r with
        | Some x => ret x
        | None => ret (FREESPACE_ERROR_INTERRUPTED, unchanged)
        end
  end.

Definition freespace_flush (id : Z) : M rc :=
  found <- freespace_private_getDeviceById id ;;
  if negb found then ret FREESPACE_ERROR_NO_DEVICE else
  d <- gets device ;;
  for_each 0 (handleCount_ d) (fun idx =>
    s <- getSub idx ;;
    CancelIo (handle_ s) ;;;
    modifySub idx (set_readStatus_ false)) ;;;
  ret FREESPACE_SUCCESS.

(** ** Open and close *)

(** [INVALID_HANDLE_VALUE] of winbase.h, the failure answer of [CreateFile];
    it is not NULL. *)
Definition INVALID_HANDLE_VALUE : HANDLE := -1.

Definition set_handle_ (h : option HANDLE) (s : FreespaceSubStruct) : FreespaceSubStruct :=
  mkSub h (info_ s) (readStatus_ s) (readBuffer s) (readBufferSize s)
        (readOverlapped_hEvent s).

Definition set_readOverlapped_hEvent (ev : option HANDLE) (s : FreespaceSubStruct)
  : FreespaceSubStruct :=
  mkSub (handle_ s) (info_ s) (readStatus_ s) (readBuffer s) (readBufferSize s) ev.

Definition set_isOpened_ (b : bool) (d : FreespaceDeviceStruct) : FreespaceDeviceStruct :=
  mkDevice (id_ d) b (handleCount_ d) (handles_ d) (send_ d)
           (receiveCallback_ d) (receiveCookie_ d).

(** [if (freespace_instance_->fdAddedCallback_)
       freespace_instance_->fdAddedCallback_(ev, 1);] and the same for the
    removed hook. *)
Definition fdAdded_if_set (ev : option HANDLE) : M unit :=
  inst <- gets freespace_instance_ ;;
  if is_Some_bool (fdAddedCallback_ inst) then emit (EvFdAdded ev) else ret tt.

Definition fdRemoved_if_set (ev : option HANDLE) : M unit :=
  inst <- gets freespace_instance_ ;;
  if is_Some_bool (fdRemovedCallback_ inst) then emit (EvFdRemoved ev) else ret tt.

(** What [freespace_openDevice] is given beside the state: [hasPath idx]
    tells whether [handle_[idx].devicePath] is not NULL (the paths are set
    by the discovery layer and changed by no function of this file), and the
    two scripts are the answers of [CreateFile] and of
    [HidD_SetNumInputBuffers], in call order.  An exhausted script answers
    failure.  These two calls are not recorded in the trace. *)
Definition OpenScript : Type := (list HANDLE * list bool)%type.

(** The body of the channel loop of [freespace_openDevice]; [inr r] is
    [return r]. *)
Definition open_channel (hasPath : nat -> bool) (idx : nat) (script : OpenScript)
  : M (OpenScript + rc) :=
  s <- getSub idx ;;
  if is_Some_bool (handle_ s) then ret (inr FREESPACE_ERROR_BUSY) else
  if negb (hasPath idx) then ret (inr FREESPACE_ERROR_NO_DEVICE) else
  let h := default INVALID_HANDLE_VALUE (head script.1) in
  modifySub idx (set_handle_ (Some h)) ;;;
  if bool_decide (h = INVALID_HANDLE_VALUE)
  then ret (inr FREESPACE_ERROR_NO_DEVICE) else
  if negb (default false (head script.2)) then
    CloseHandle (Some h) ;;;
    modifySub idx (set_handle_ None) ;;;
    ret (inr FREESPACE_ERROR_NO_DEVICE)
  else
    ev <- CreateEvent ;;
    modifySub idx (set_readOverlapped_hEvent ev) ;;;
    if negb (is_Some_bool ev) then ret (inr FREESPACE_ERROR_UNEXPECTED) else
    modifySub idx (set_readStatus_ false) ;;;
    fdAdded_if_set ev ;;;
    ret (inl (tail script.1, tail script.2)).

(** The body of the slot loop of [freespace_openDevice]. *)
Definition open_slot (idx : nat) : M (option rc) :=
  modifySend idx (set_overlapped_hEvent None) ;;;
  r <- initializeSendStruct (Some idx) ;;
  if bool_decide (r <> FREESPACE_SUCCESS)
  then ret (Some FREESPACE_ERROR_UNEXPECTED) else
  s <- getSend idx ;;
  fdAdded_if_set (overlapped_hEvent s) ;;;
  ret None.

Definition freespace_openDevice (hasPath : nat -> bool) (script : OpenScript)
    (id : Z) : M rc :=
  found <- freespace_private_getDeviceById id ;;
  if negb found then ret FREESPACE_ERROR_NO_DEVICE else
  d <- gets device ;;
  if isOpened_ d then ret FREESPACE_ERROR_BUSY else
  r <- for_acc 0 (handleCount_ d) (open_channel hasPath) script ;;
  match r with
  | inr code => ret code
  | inl _ =>
      modifyDevice (set_isOpened_ true) ;;;
      d <- gets device ;;
      r <- for_loop 0 (length (send_ d)) open_slot ;;
      match r with
      | Some code => ret code
      | None =>
          inst <- gets freespace_instance_ ;;
          if is_Some_bool (fdAddedCallback_ inst)
          then initiateAsyncReceives
          else ret FREESPACE_SUCCESS
      end
  end.

(** The body of the slot loop of [freespace_closeDevice]. *)
Definition close_slot (idx : nat) : M unit :=
  s <- getSend idx ;;
  fdRemoved_if_set (overlapped_hEvent s) ;;;
  finalizeSendStruct idx true ;;;
  ret tt.

(** The body of the channel loop of [freespace_closeDevice]. *)
Definition close_channel (idx : nat) : M unit :=
  s <- getSub idx ;;
  (if is_Some_bool (handle_ s) then
     CloseHandle (handle_ s) ;;;
     modifySub idx (set_handle_ None)
   else ret tt) ;;;
  fdRemoved_if_set (readOverlapped_hEvent s) ;;;
  if is_Some_bool (readOverlapped_hEvent s) then
    modifySub idx (set_readStatus_ false) ;;;
    CloseHandle (readOverlapped_hEvent s) ;;;
    modifySub idx (set_readOverlapped_hEvent None)
  else ret tt.

Definition freespace_closeDevice (id : Z) : M unit :=
  found <- freespace_private_getDeviceById id ;;
  if negb found then ret tt else
  d <- gets device ;;
  if negb (isOpened_ d) then ret tt else
  for_each 0 (length (send_ d)) close_slot ;;;
  for_each 0 (handleCount_ d) close_channel ;;;
  modifyDevice (set_isOpened_ false).

(** ** Concrete devices for the scenarios *)

Definition byte_of (n : Z) : byte := default x00 (Byte.of_N (Z.to_N n)).

(** An opened channel with handle [h], read event [h + 100], 8-byte input
    reports and [out]-byte output reports. *)
Definition channel (h out : Z) : FreespaceSubStruct :=
  mkSub (Some h) (mkInfo 7511 49152 8 out) false (replicate 8 x00) 0
        (Some (h + 100)).

(** A free slot with a 40-byte report buffer and completion event [ev]. *)
Definition free_slot (ev : Z) : FreespaceSendStruct :=
  mkSend None (replicate 40 x00) 0 FREESPACE_SUCCESS FREESPACE_SUCCESS None 0 0
         (Some ev).

(** A slot in flight towards channel [idx]. *)
Definition busy_slot (idx : nat) (ev : Z) : FreespaceSendStruct :=
  set_interface_ (Some idx) (free_slot ev).

Definition quiet_os (d : FreespaceDeviceStruct) : State :=
  mkState d (mkInstance (Some 900) (Some 901)) 0 [] [] [] [] [] [] [].

(** Device 1, opened, with two channels of output lengths 7 and 31 and two
    free slots. *)
Definition device_7_31 : FreespaceDeviceStruct :=
  mkDevice 1 true 2 [channel 10 7; channel 11 31] [free_slot 50; free_slot 51]
           None 0.

Definition ten_bytes : list byte := map byte_of [1; 2; 3; 4; 5; 6; 7; 8; 9; 10].

(** Device 1 before any open: one attached channel whose handle and read
    event are still NULL, two untouched slots. *)
Definition closed_channel (out : Z) : FreespaceSubStruct :=
  mkSub None (mkInfo 7511 49152 8 out) false (replicate 8 x00) 0 None.

Definition closed_device : FreespaceDeviceStruct :=
  mkDevice 1 false 1 [closed_channel 31]
           [set_overlapped_hEvent None (free_slot 0);
            set_overlapped_hEvent None (free_slot 0)] None 0.

(** The state [st] with the oracle scripts replaced. *)
Definition scripted (writes : list (IoResult Z))
    (reads : list (IoResult (list byte)))
    (send_results : list (IoResult Z))
    (read_results : list (IoResult (list byte)))
    (waits : list Z) (st : State) : State :=
  mkState (device st) (freespace_instance_ st) (lastError st)
          (q_CreateEvent st) writes reads send_results read_results waits
          (trace st).

(** Device 1, opened, with one channel of output length 7 and two free
    slots. *)
Definition device_7 : FreespaceDeviceStruct :=
  mkDevice 1 true 1 [channel 10 7] [free_slot 50; free_slot 51] None 0.

(** Device 1, opened, both slots in flight. *)
Definition device_busy : FreespaceDeviceStruct :=
  mkDevice 1 true 2 [channel 10 7; channel 11 31] [busy_slot 1 50; busy_slot 1 51]
           None 0.

(** A receive callback that unregisters itself, through
    [freespace_setReceiveCallback(id, NULL, NULL)], on the first payload it
    is given. *)
Definition once : freespace_receiveCallback :=
  mkReceiveCallback 700 (fun payload _ => is_Some_bool payload).

(** A receive callback that only looks at what it is given. *)
Definition listener : freespace_receiveCallback :=
  mkReceiveCallback 701 (fun _ _ => false).

Definition with_receiver (cb : freespace_receiveCallback) (cookie : Z)
    (d : FreespaceDeviceStruct) : FreespaceDeviceStruct :=
  set_receive (Some cb) cookie d.

(** Reading off an outcome. *)
Definition returned {A} (o : Outcome A) : option A :=
  match o with
  | Done a _ => Some a
  | Fault => None
  end.

Definition events {A} (o : Outcome A) : list Event :=
  match o with
  | Done _ st => trace st
  | Fault => []
  end.

Definition slots_after {A} (o : Outcome A) : list (option nat) :=
  match o with
  | Done _ st => map interface_ (send_ (device st))
  | Fault => []
  end.

Definition pending_after {A} (o : Outcome A) : list bool :=
  match o with
  | Done _ st => map readStatus_ (handles_ (device st))
  | Fault => []
  end.

Definition receiver_after {A} (o : Outcome A) : option Z :=
  match o with
  | Done _ st => rcb_addr <$> receiveCallback_ (device st)
  | Fault => None
  end.

Definition is_SendCallback (e : Event) : bool :=
  match e with
  | EvSendCallback _ _ _ _ => true
  | _ => false
  end.

Definition is_ReadFile (e : Event) : bool :=
  match e with
  | EvReadFile _ _ _ => true
  | _ => false
  end.

Definition is_ReceiveCallback (e : Event) : bool :=
  match e with
  | EvReceiveCallback _ _ _ _ _ _ => true
  | _ => false
  end.

(** The events of a trace that come after the first receive callback. *)
Fixpoint after_first_callback (tr : list Event) : list Event :=
  match tr with
  | [] => []
  | e :: rest => if is_ReceiveCallback e then rest else after_first_callback rest
  end.

(** Device 1 with a read in flight on every channel of its table. *)
Definition all_pending (d : FreespaceDeviceStruct) : FreespaceDeviceStruct :=
  set_handles_ (map (set_readStatus_ true) (handles_ d)) d.

(** The two-channel device over which the send scenarios run, with the
    scripts of the oracle given. *)
Definition send_world (writes send_results : list (IoResult Z)) (waits : list Z)
  : State :=
  scripted writes [] send_results [] waits (quiet_os device_7_31).

(** The same device with receive callback [cb] (cookie 9). *)
Definition receive_world (cb : freespace_receiveCallback)
    (reads read_results : list (IoResult (list byte)))
    (d : FreespaceDeviceStruct) : State :=
  scripted [] reads [] read_results [] (quiet_os (with_receiver cb 9 d)).

(** An asynchronous send of [ten_bytes] with callback 77 and cookie 5, and a
    synchronous send of the same report. *)
Definition async_send : M rc :=
  freespace_sendAsync 40 1 ten_bytes 10 1000 (Some 77) 5.

Definition sync_send : M rc := freespace_send 40 1 ten_bytes 10.

(** A five-byte payload, and the worlds of the read scenarios: a listener
    registered on the two-channel device, with a first [ReadFile] that fails
    on a disconnected device, or that completes at once with the payload. *)
Definition five_bytes : list byte := map byte_of [1; 2; 3; 4; 5].

Definition world_disconnected : State :=
  receive_world listener [IoFalse ERROR_DEVICE_NOT_CONNECTED] [] device_7_31.

Definition world_five_bytes : State :=
  receive_world listener [IoTrue five_bytes] [] device_7_31.

(** The state [st] when no event-loop bridge has installed its hooks, and
    when [CreateEvent] is going to answer the events [evs], in this order. *)
Definition no_bridge (st : State) : State :=
  mkState (device st) (mkInstance None None) (lastError st) (q_CreateEvent st)
          (q_WriteFile st) (q_ReadFile st) (q_SendResult st) (q_ReadResult st)
          (q_Wait st) (trace st).

Definition granting (evs : list HANDLE) (st : State) : State :=
  mkState (device st) (freespace_instance_ st) (lastError st) (map Some evs)
          (q_WriteFile st) (q_ReadFile st) (q_SendResult st) (q_ReadResult st)
          (q_Wait st) (trace st).

(** Device 1 after the open of [closed_device] that was given handle 10 and
    the events 110, 50 and 51. *)
Definition device_31 : FreespaceDeviceStruct :=
  mkDevice 1 true 1 [channel 10 31] [free_slot 50; free_slot 51] None 0.

(** ** Vocabulary of the properties *)

(** A slot is in use when its channel reference is not NULL. *)
Definition in_use (s : FreespaceSendStruct) : bool := is_Some_bool (interface_ s).

(** The number of slots in use. *)
Definition in_use_count (d : FreespaceDeviceStruct) : nat :=
  length (filter (fun s => in_use s = true) (send_ d)).

(** [device->handle_[idx].info_.outputReportByteLength_]. *)
Definition out_len (d : FreespaceDeviceStruct) (idx : nat) : Z :=
  outputReportByteLength_ (info_ (sub_at d idx)).

(** One round of the channel search: the choice [s] after looking at [idx]. *)
Definition longer (d : FreespaceDeviceStruct) (s idx : nat) : nat :=
  if out_len d idx >? out_len d s then idx else s.

(** The report as [prepareSend] frames it: the caller's [len] bytes, then
    zeros up to [out] bytes. *)
Definition framed (report : list byte) (len out : Z) : list byte :=
  take (Z.to_nat len) report ++ replicate (Z.to_nat (out - len)) x00.

(** The device of the state is the one asked for, it is opened, slot [send]
    is the first free one, and its completion event exists (as after a
    successful open). *)
Definition send_ready (st : State) (id : Z) (send : nat)
    (sl : FreespaceSendStruct) : Prop :=
  id_ (device st) = id /\
  isOpened_ (device st) = true /\
  getNextSendBuffer (device st) = Some send /\
  send_ (device st) !! send = Some sl /\
  is_Some_bool (overlapped_hEvent sl) = true.

(** The state in which slot [send] of the device has been replaced. *)
Definition with_slot (send : nat) (sl : FreespaceSendStruct) (st : State) : State :=
  set_device (set_send_ (<[send := sl]> (send_ (device st))) (device st)) st.

(** A slot after [initializeSendStruct] and the channel choice. *)
Definition chosen (sel : nat) (sl : FreespaceSendStruct) : FreespaceSendStruct :=
  set_interface_ (Some sel) (set_error_ FREESPACE_SUCCESS (set_interface_ None sl)).

(** The answer the oracle gives to the next [WriteFile]. *)
Definition next_write (st : State) : IoResult Z :=
  default (IoFalse ERROR_IO_PENDING) (head (q_WriteFile st)).

(** The event is a call of [WriteFile]. *)
Definition is_WriteFile (e : Event) : bool :=
  match e with
  | EvWriteFile _ _ _ _ => true
  | _ => false
  end.

(** The writes of a trace, in order. *)
Definition writes_of (tr : list Event) : list Event := List.filter is_WriteFile tr.

(** The answer the oracle gives to the next wait. *)
Definition next_wait_result (st : State) : Z :=
  default WAIT_TIMEOUT (head (q_Wait st)).

(** The answer to the next completion query on a send slot. *)
Definition next_send_result (st : State) : IoResult Z :=
  default (IoFalse ERROR_IO_INCOMPLETE) (head (q_SendResult st)).

(** The event is [CancelIo] on handle [h]. *)
Definition is_CancelIo_on (h : option HANDLE) (e : Event) : bool :=
  match e with
  | EvCancelIo h' => bool_decide (h' = h)
  | _ => false
  end.

(** Whenever [m] returns, the states before and after are related by [R]. *)
Definition respects (R : State -> State -> Prop) {A} (m : M A) : Prop :=
  forall st a st', m st = Done a st' -> R st st'.

(** The slot pool has the same size in both states. *)
Definition same_pool (st st' : State) : Prop :=
  length (send_ (device st')) = length (send_ (device st)).

(** The script of [ReadFile] answers is the same in both states. *)
Definition same_reads (st st' : State) : Prop := q_ReadFile st' = q_ReadFile st.

(** The payload of the event, when the event is a read that completed. *)
Definition completed_read (e : Event) : option (list byte) :=
  match e with
  | EvReadFile _ _ (IoTrue p) => Some p
  | EvReadResult _ _ _ (IoTrue p) => Some p
  | _ => None
  end.

(** The payload of the read that completed as the last event of a trace. *)
Definition last_completed (tr : list Event) : option (list byte) :=
  match list.last tr with
  | Some e => completed_read e
  | None => None
  end.

(** The events a call added to the trace: those after the first [L]. *)
Definition added (L : nat) (st : State) : list Event := drop L (trace st).

(** What the caller gets for payload [p]: the first min(|p|, maxLength)
    bytes over the front of its buffer, and their number. *)
Definition copy_of (message : list byte) (maxLength : Z) (p : list byte)
  : list byte * Z :=
  let k := Z.min (Z.of_nat (length p)) maxLength in
  (take (Z.to_nat k) p ++ drop (Z.to_nat k) message, k).

(** The channel table has room for the [n] attached channels. *)
Definition table_holds (n : nat) (st : State) : Prop :=
  handleCount_ (device st) = n /\ (n <= length (handles_ (device st)))%nat.

(** Between two rounds of the loops of [freespace_read]: no read has
    completed since the call began. *)
Definition read_inv (L n : nat) (st : State) : Prop :=
  table_holds n st /\ (L <= length (trace st))%nat /\
  last_completed (added L st) = None.

(** When [freespace_read] returns [x]: SUCCESS with the copy of the payload
    exactly when the call ended on a completed read. *)
Definition read_post (L : nat) (message : list byte) (maxLength : Z)
    (x : rc * (list byte * Z)) (st' : State) : Prop :=
  (L <= length (trace st'))%nat /\
  match last_completed (added L st') with
  | Some p => x.1 = FREESPACE_SUCCESS /\ x.2 = copy_of message maxLength p
  | None => x.1 <> FREESPACE_SUCCESS
  end.

(** [f] applied to the first [n] elements of a list: what a loop over the
    indices below [n] that rewrites each element leaves of an array. *)
Definition map_first {A} (f : A -> A) (n : nat) (l : list A) : list A :=
  map f (take n l) ++ drop n l.

(** The state [st] with another channel table, and with another trace. *)
Definition with_handles (hs : list FreespaceSubStruct) (st : State) : State :=
  set_device (set_handles_ hs (device st)) st.

Definition with_trace (tr : list Event) (st : State) : State :=
  mkState (device st) (freespace_instance_ st) (lastError st)
          (q_CreateEvent st) (q_WriteFile st) (q_ReadFile st)
          (q_SendResult st) (q_ReadResult st) (q_Wait st) tr.

(** The attached channels of a device, in table order. *)
Definition attached (d : FreespaceDeviceStruct) : list FreespaceSubStruct :=
  take (handleCount_ d) (handles_ d).

(** The channel table has room for the attached channels. *)
Definition table_ok (d : FreespaceDeviceStruct) : Prop :=
  (handleCount_ d <= length (handles_ d))%nat.

(** The events of the sweeps: a cancellation of the I/O of a channel,
    issued always or only when a read is pending, and the removal of its
    read event from the bridge. *)
Definition cancel_of (s : FreespaceSubStruct) : list Event := [EvCancelIo (handle_ s)].

Definition cancel_if_pending (s : FreespaceSubStruct) : list Event :=
  if readStatus_ s then [EvCancelIo (handle_ s)] else [].

Definition removal_of (s : FreespaceSubStruct) : list Event :=
  [EvFdRemoved (readOverlapped_hEvent s)].

(** The channel table of a device after every attached channel lost its
    pending-read flag. *)
Definition all_idle (d : FreespaceDeviceStruct) : list FreespaceSubStruct :=
  map_first (set_readStatus_ false) (handleCount_ d) (handles_ d).

(** The read that a rearm pass issues on a channel without a pending read
    when the OS leaves the read in flight, and the registration of the read
    event of a channel with the bridge. *)
Definition read_if_idle (s : FreespaceSubStruct) : list Event :=
  if readStatus_ s then []
  else [EvReadFile (handle_ s) (inputReportByteLength_ (info_ s))
                   (IoFalse ERROR_IO_PENDING)].

Definition addition_of (s : FreespaceSubStruct) : list Event :=
  [EvFdAdded (readOverlapped_hEvent s)].

(** The channel table of a device after every attached channel got a
    pending read. *)
Definition all_armed (d : FreespaceDeviceStruct) : list FreespaceSubStruct :=
  map_first (set_readStatus_ true) (handleCount_ d) (handles_ d).

(** Every scripted answer of [ReadFile] is "in flight". *)
Definition reads_go_in_flight (st : State) : Prop :=
  Forall (fun r => r = IoFalse ERROR_IO_PENDING) (q_ReadFile st).

(** The receive callback never unregisters itself. *)
Definition stays_registered (cb : freespace_receiveCallback) : Prop :=
  forall payload code, rcb_unregisters cb payload code = false.

(** A read on channel [x] that completes at once with payload [p], and its
    delivery to the callback [cb] of device [d]. *)
Definition delivery (d : FreespaceDeviceStruct) (cb : freespace_receiveCallback)
    (x : FreespaceSubStruct) (p : list byte) : list Event :=
  [EvReadFile (handle_ x) (inputReportByteLength_ (info_ x)) (IoTrue p);
   EvReceiveCallback (rcb_addr cb) (id_ d) (Some p) (Z.of_nat (length p))
                     (receiveCookie_ d) FREESPACE_SUCCESS].

(** Channel [x] after the payloads [ps] arrived in it one after the other. *)
Definition received (ps : list (list byte)) (x : FreespaceSubStruct) : FreespaceSubStruct :=
  fold_left (fun x p => set_readData p x) ps x.




(** Every slot but slot [send] is the same in both states. *)
Definition only_slot (send : nat) (st st' : State) : Prop :=
  forall j, j <> send -> send_ (device st') !! j = send_ (device st) !! j.

(** What [freespace_sendAsync] returns for an accepted send, by the answer
    of [WriteFile]. *)
Definition async_code (r : IoResult Z) : rc :=
  match r with
  | IoTrue _ => FREESPACE_SUCCESS
  | IoFalse e => if bool_decide (e = ERROR_IO_PENDING)
                 then FREESPACE_SUCCESS else FREESPACE_ERROR_UNEXPECTED
  end.

(** The state [st] with another slot pool. *)
Definition with_pool (ss : list FreespaceSendStruct) (st : State) : State :=
  set_device (set_send_ ss (device st)) st.

(** Whether the bridge has installed its hooks. *)
Definition added_hook (st : State) : bool :=
  is_Some_bool (fdAddedCallback_ (freespace_instance_ st)).

Definition removed_hook (st : State) : bool :=
  is_Some_bool (fdRemovedCallback_ (freespace_instance_ st)).

(** A slot and a channel as [freespace_closeDevice] leaves them, and the
    events of closing each. *)
Definition released (s : FreespaceSendStruct) : FreespaceSendStruct :=
  set_overlapped_hEvent None (set_interface_ None s).

Definition release_of (hook : bool) (s : FreespaceSendStruct) : list Event :=
  (if hook then [EvFdRemoved (overlapped_hEvent s)] else []) ++
  [EvCloseHandle (overlapped_hEvent s)].

Definition detached (x : FreespaceSubStruct) : FreespaceSubStruct :=
  if is_Some_bool (readOverlapped_hEvent x)
  then set_readOverlapped_hEvent None (set_readStatus_ false (set_handle_ None x))
  else set_handle_ None x.

Definition detach_of (hook : bool) (x : FreespaceSubStruct) : list Event :=
  (if is_Some_bool (handle_ x) then [EvCloseHandle (handle_ x)] else []) ++
  (if hook then [EvFdRemoved (readOverlapped_hEvent x)] else []) ++
  (if is_Some_bool (readOverlapped_hEvent x)
   then [EvCloseHandle (readOverlapped_hEvent x)] else []).

(** The device record after [freespace_closeDevice]. *)
Definition closed (d : FreespaceDeviceStruct) : FreespaceDeviceStruct :=
  mkDevice (id_ d) false (handleCount_ d)
           (map_first detached (handleCount_ d) (handles_ d))
           (map released (send_ d))
           (receiveCallback_ d) (receiveCookie_ d).

(** A channel and a slot as a successful [freespace_openDevice] leaves
    them, given the handle [CreateFile] answered and the event [CreateEvent]
    answered; the tables they make; and the events of one [CreateEvent]
    whose result is reported to the bridge when its hook is installed. *)
Definition opened_channel (h ev : HANDLE) (x : FreespaceSubStruct) : FreespaceSubStruct :=
  set_readStatus_ false (set_readOverlapped_hEvent (Some ev) (set_handle_ (Some h) x)).

Definition opened_slot (ev : HANDLE) (s : FreespaceSendStruct) : FreespaceSendStruct :=
  set_overlapped_hEvent (Some ev)
    (set_error_ FREESPACE_SUCCESS (set_interface_ None (set_overlapped_hEvent None s))).

Fixpoint open_table (hs evs : list HANDLE) (l : list FreespaceSubStruct)
  : list FreespaceSubStruct :=
  match hs, evs, l with
  | h :: hs', e :: evs', x :: l' => opened_channel h e x :: open_table hs' evs' l'
  | _, _, _ => l
  end.

Fixpoint open_pool (evs : list HANDLE) (l : list FreespaceSendStruct)
  : list FreespaceSendStruct :=
  match evs, l with
  | e :: evs', s :: l' => opened_slot e s :: open_pool evs' l'
  | _, _ => l
  end.

Definition announce (hook : bool) (ev : HANDLE) : list Event :=
  EvCreateEvent (Some ev) :: (if hook then [EvFdAdded (Some ev)] else []).

(** The state after [CreateEvent] calls: the device record replaced, the
    answers used taken off the script, the events appended. *)
Definition after_events (d : FreespaceDeviceStruct) (rq : list (option HANDLE))
    (evs : list Event) (st : State) : State :=
  mkState d (freespace_instance_ st) (lastError st) rq (q_WriteFile st)
          (q_ReadFile st) (q_SendResult st) (q_ReadResult st) (q_Wait st)
          (trace st ++ evs).

(** The device record after a successful [freespace_openDevice]. *)
Definition opened (hs chEvs slEvs : list HANDLE) (d : FreespaceDeviceStruct)
  : FreespaceDeviceStruct :=
  mkDevice (id_ d) true (handleCount_ d)
           (open_table hs chEvs (handles_ d))
           (open_pool slEvs (send_ d))
           (receiveCallback_ d) (receiveCookie_ d).




Definition woken (w : Z) : bool :=
  negb (bool_decide (w = WAIT_FAILED)) && negb (bool_decide (w = WAIT_TIMEOUT)).



(** The answer to the next completion query on a read, and the query. *)
Definition next_read_result (st : State) : IoResult (list byte) :=
  default (IoFalse ERROR_IO_INCOMPLETE) (head (q_ReadResult st)).

Definition poll_of (st : State) (x : FreespaceSubStruct) : Event :=
  EvReadResult (handle_ x) (readOverlapped_hEvent x) false (next_read_result st).

(** The answers of the OS under which the first loop of [freespace_read]
    goes past a list of channels: "in flight" to the [ReadFile] on every
    channel without a pending read, in table order (no [ReadFile] is issued
    on the others). *)
Definition answer_of (x : FreespaceSubStruct) : list (IoResult (list byte)) :=
  if readStatus_ x then [] else [IoFalse ERROR_IO_PENDING].

Definition in_flight_answers (l : list FreespaceSubStruct)
  : list (IoResult (list byte)) :=
  flat_map answer_of l.

(** The code [convertGetLastError] gives for the OS error [e]. *)
Definition mapped (e : Z) : rc :=
  if bool_decide (e = ERROR_DEVICE_NOT_CONNECTED)
  then FREESPACE_ERROR_NOT_FOUND else FREESPACE_ERROR_UNEXPECTED.

(** The receive callback stays registered when it is given each of the
    payloads [ps]. *)
Definition stays_through (cb : freespace_receiveCallback) (ps : list (list byte))
  : Prop :=
  Forall (fun p => rcb_unregisters cb (Some p) FREESPACE_SUCCESS = false) ps.

(** The events of an unregistration from inside the receive callback, on
    device [d]. *)
Definition unregistration (d : FreespaceDeviceStruct) : list Event :=
  flat_map removal_of (attached d) ++ flat_map cancel_if_pending (attached d).

(** What an unregistration from inside the receive callback needs in order
    to return: the device opened, room in the channel table, and the removed
    hook of the bridge installed. *)
Definition can_unregister (st : State) : Prop :=
  isOpened_ (device st) = true /\
  table_ok (device st) /\
  is_Some_bool (fdRemovedCallback_ (freespace_instance_ st)) = true.

(** The device record after an unregistration. *)
Definition unregistered (d : FreespaceDeviceStruct) : FreespaceDeviceStruct :=
  set_handles_ (all_idle d) (set_receive None 0 d).

(** * Properties *)

(** ** The slot scan *)

Lemma in_use_false s : in_use s = false <-> interface_ s = None.
Proof. unfold in_use. destruct (interface_ s); simpl; split; congruence. Qed.

Lemma getNextSendBuffer_Some d i :
  getNextSendBuffer d = Some i <->
  exists s, send_ d !! i = Some s /\ interface_ s = None /\
            forall j t, send_ d !! j = Some t -> (j < i)%nat -> interface_ t <> None.
Proof.
  unfold getNextSendBuffer. split.
  - intros H. apply fmap_Some in H as [[k s] [H ->]].
    apply list_find_Some in H. exists s. exact H.
  - intros [s H]. apply fmap_Some. exists (i, s). split; [|reflexivity].
    apply list_find_Some. exact H.
Qed.

Lemma getNextSendBuffer_None d :
  getNextSendBuffer d = None <-> Forall (fun s => in_use s = true) (send_ d).
Proof.
  unfold getNextSendBuffer. rewrite fmap_None, list_find_None.
  apply Forall_proper; [|reflexivity]. intros s. unfold in_use.
  destruct (interface_ s); simpl; split; congruence.
Qed.

(** ** The channel search *)

Lemma select_output_fold d :
  select_output d = fold_left (longer d) (seq 0 (handleCount_ d)) 0%nat.
Proof. reflexivity. Qed.

(** Scanning [n] channels from [a] with current choice [s] ends on [s] or on
    a scanned channel, never on a shorter one than [s] or than any scanned
    one. *)
Lemma scan_longest d n : forall a s,
  let r := fold_left (longer d) (seq a n) s in
  (r = s \/ (a <= r < a + n)%nat) /\
  out_len d s <= out_len d r /\
  forall k, (a <= k < a + n)%nat -> out_len d k <= out_len d r.
Proof.
  induction n as [|n IH]; intros a s; simpl.
  - split; [left; reflexivity|]. split; [lia|]. intros k Hk. lia.
  - destruct (IH (S a) (longer d s a)) as (Hr & Hle & Hall).
    assert (Hs : out_len d s <= out_len d (longer d s a) /\
                 out_len d a <= out_len d (longer d s a)).
    { unfold longer. destruct (Z.gtb_spec (out_len d a) (out_len d s)); lia. }
    split; [|split].
    + destruct Hr as [Hr|Hr]; [|right; lia].
      rewrite Hr. unfold longer. destruct (_ >? _); [right; lia | left; reflexivity].
    + lia.
    + intros k Hk. destruct (decide (k = a)) as [->|Hne]; [lia|].
      apply Hall. lia.
Qed.

Lemma select_output_longest d :
  (1 <= handleCount_ d)%nat ->
  (select_output d < handleCount_ d)%nat /\
  forall k, (k < handleCount_ d)%nat ->
            out_len d k <= out_len d (select_output d).
Proof.
  intros Hc. rewrite select_output_fold.
  destruct (scan_longest d (handleCount_ d) 0%nat 0%nat) as (Hr & _ & Hall).
  split.
  - destruct Hr as [Hr|Hr]; [rewrite Hr|]; lia.
  - intros k Hk. apply Hall. lia.
Qed.

(** The search keeps the first of the longest channels: every channel before
    the chosen one is strictly shorter. *)
Lemma scan_first d n : forall a s,
  (s <= a)%nat ->
  (forall k, (s < k < a)%nat -> out_len d k <= out_len d s) ->
  let r := fold_left (longer d) (seq a n) s in
  forall k, (s <= k < r)%nat -> out_len d k < out_len d r.
Proof.
  induction n as [|n IH]; intros a s Hsa Hbetween; simpl.
  - intros k Hk. lia.
  - destruct (Z.gtb_spec (out_len d a) (out_len d s)) as [Hgt|Hle].
    + replace (longer d s a) with a
        by (unfold longer; destruct (Z.gtb_spec (out_len d a) (out_len d s));
            [reflexivity | lia]).
      intros k Hk.
      pose proof (IH (S a) a ltac:(lia) ltac:(intros; lia)) as Hin.
      simpl in Hin.
      destruct (scan_longest d n (S a) a) as (_ & Hge & _).
      destruct (decide (k < a)%nat) as [Hlt|Hnlt]; [|apply Hin; lia].
      destruct (decide (k = s)) as [->|Hne]; [lia|].
      specialize (Hbetween k ltac:(lia)). lia.
    + replace (longer d s a) with s
        by (unfold longer; destruct (Z.gtb_spec (out_len d a) (out_len d s));
            [lia | reflexivity]).
      apply IH; [lia|].
      intros k Hk. destruct (decide (k = a)) as [->|Hne]; [lia|].
      apply Hbetween. lia.
Qed.

Lemma select_output_first d k :
  (k < select_output d)%nat -> out_len d k < out_len d (select_output d).
Proof.
  intros Hk. rewrite select_output_fold in *.
  apply (scan_first d (handleCount_ d) 0%nat 0%nat); [lia | intros; lia | lia].
Qed.

(** ** Report framing *)

Lemma store_Some buf (i : nat) v :
  (i < length buf)%nat ->
  store buf (Z.of_nat i) v = Some (<[i := v]> buf).
Proof.
  intros Hi. unfold store. rewrite bool_decide_eq_true_2 by lia.
  rewrite Nat2Z.id. reflexivity.
Qed.

(** After copying [count] bytes from position [i] on, the buffer holds them
    in those positions and is unchanged elsewhere. *)
Lemma copy_report_spec report count : forall (i : nat) buf,
  (i + count <= length report)%nat ->
  (i + count <= length buf)%nat ->
  copy_report report (Z.of_nat i) count buf =
  Some (take i buf ++ take count (drop i report) ++ drop (i + count) buf).
Proof.
  induction count as [|n IH]; intros i buf Hr Hb; simpl.
  - rewrite Nat.add_0_r, take_drop. reflexivity.
  - unfold load. rewrite bool_decide_eq_true_2 by lia. rewrite Nat2Z.id.
    destruct (lookup_lt_is_Some_2 report i ltac:(lia)) as [v Hv].
    rewrite Hv, store_Some by lia.
    replace (Z.of_nat i + 1) with (Z.of_nat (S i)) by lia.
    rewrite IH by (rewrite ?length_insert; lia).
    f_equal.
    rewrite (drop_S _ _ _ Hv). simpl.
    rewrite (take_S_r (<[i:=v]> buf) i v)
      by (apply list_lookup_insert_eq; lia).
    rewrite take_insert_ge by lia.
    rewrite drop_insert_lt by lia.
    rewrite <- app_assoc. simpl.
    replace (i + S n)%nat with (S (i + n)) by lia. reflexivity.
Qed.

Lemma zero_fill_spec count : forall (i : nat) buf,
  (i + count <= length buf)%nat ->
  zero_fill (Z.of_nat i) count buf =
  Some (take i buf ++ replicate count x00 ++ drop (i + count) buf).
Proof.
  induction count as [|n IH]; intros i buf Hb; simpl.
  - rewrite Nat.add_0_r, take_drop. reflexivity.
  - rewrite store_Some by lia.
    replace (Z.of_nat i + 1) with (Z.of_nat (S i)) by lia.
    rewrite IH by (rewrite ?length_insert; lia).
    f_equal.
    rewrite (take_S_r (<[i:=x00]> buf) i x00)
      by (apply list_lookup_insert_eq; lia).
    rewrite take_insert_ge by lia.
    rewrite drop_insert_lt by lia.
    rewrite <- app_assoc. simpl.
    replace (i + S n)%nat with (S (i + n)) by lia. reflexivity.
Qed.

Lemma length_framed report len out :
  0 <= len <= out -> len <= Z.of_nat (length report) ->
  Z.of_nat (length (framed report len out)) = out.
Proof.
  intros H1 H2. unfold framed.
  rewrite length_app, length_take, length_replicate. lia.
Qed.

(** The two loops of [prepareSend] leave the framed report at the front of
    the slot buffer. *)
Lemma frame_loops report len out buf :
  0 <= len <= out -> len <= Z.of_nat (length report) ->
  out <= Z.of_nat (length buf) ->
  exists padded,
    copy_report report 0 (Z.to_nat len) buf = Some (take (Z.to_nat len) report
        ++ drop (Z.to_nat len) buf) /\
    zero_fill len (Z.to_nat (out - len))
      (take (Z.to_nat len) report ++ drop (Z.to_nat len) buf) = Some padded /\
    take (Z.to_nat out) padded = framed report len out /\
    length padded = length buf.
Proof.
  intros H1 H2 H3.
  pose proof (copy_report_spec report (Z.to_nat len) 0%nat buf) as Hc.
  change (Z.of_nat 0) with 0 in Hc. simpl in Hc. rewrite drop_0 in Hc.
  set (copied := take (Z.to_nat len) report ++ drop (Z.to_nat len) buf).
  assert (Hlen : length copied = length buf).
  { unfold copied. rewrite length_app, length_take, length_drop. lia. }
  pose proof (zero_fill_spec (Z.to_nat (out - len)) (Z.to_nat len) copied) as Hz.
  rewrite Z2Nat.id in Hz by lia.
  assert (Htk : take (Z.to_nat len) copied = take (Z.to_nat len) report).
  { unfold copied. rewrite take_app_le by (rewrite length_take; lia).
    rewrite take_take. f_equal. lia. }
  eexists. split; [apply Hc; lia|]. split; [apply Hz; lia|]. split.
  - rewrite Htk. unfold framed.
    replace (Z.to_nat out)
      with (length (take (Z.to_nat len) report
                    ++ replicate (Z.to_nat (out - len)) x00) + 0)%nat
      by (rewrite length_app, length_take, length_replicate; lia).
    rewrite app_assoc, take_app_add. simpl. rewrite take_0, app_nil_r.
    reflexivity.
  - rewrite !length_app, length_take, length_replicate, length_drop. lia.
Qed.

(** ** Symbolic execution of the send engine *)

Ltac run :=
  unfold getInterface, GetLastError, CancelIo, Sleep0, CloseHandle,
         freespace_private_getDeviceById, getSub;
  unfold bind, ret, gets, fault, getSend, modifySend, modifySub,
         modifyDevice, emit; simpl.

Lemma lookup_insert_same {A} (l : list A) i x y :
  l !! i = Some y -> <[i := x]> l !! i = Some x.
Proof. intros H. apply list_lookup_insert_eq. eapply lookup_lt_Some, H. Qed.

Lemma sub_cleared (hs : list FreespaceSubStruct) idx s :
  readStatus_ (default zeroSub (<[idx := set_readStatus_ false s]> hs !! idx)) = false.
Proof.
  destruct (decide (idx < length hs)%nat) as [Hlt|Hge].
  - rewrite list_lookup_insert_eq by exact Hlt. reflexivity.
  - rewrite list_insert_ge by lia. rewrite lookup_ge_None_2 by lia. reflexivity.
Qed.

(** Reads of the slot just written, and writes over writes. *)
Ltac look H :=
  repeat progress
    (rewrite ?list_insert_insert_eq, ?(lookup_insert_same _ _ _ _ H), ?H; simpl).

Section SendProofs.

Variable MAX : Z.

(** [prepareSend] on a ready device, path by path. *)
Lemma prepareSend_ready st id send sl report len :
  send_ready st id send sl ->
  let sel := select_output (device st) in
  let out := out_len (device st) sel in
  prepareSend MAX id report len st =
  if len >? out then
    Done (FREESPACE_ERROR_SEND_TOO_LARGE, Some send)
         (with_slot send (set_rc_ FREESPACE_ERROR_SEND_TOO_LARGE (chosen sel sl)) st)
  else if out >? MAX then
    Done (FREESPACE_ERROR_UNEXPECTED, Some send)
         (with_slot send (set_rc_ FREESPACE_ERROR_UNEXPECTED (chosen sel sl)) st)
  else
    match copy_report report 0 (Z.to_nat len) (report_ sl) with
    | None => Fault
    | Some copied =>
        match zero_fill len (Z.to_nat (out - len)) copied with
        | None => Fault
        | Some padded =>
            Done (FREESPACE_SUCCESS, Some send)
                 (with_slot send
                    (set_rc_ FREESPACE_SUCCESS (set_report_ padded (chosen sel sl)))
                    st)
        end
    end.
Proof.
  intros (Hid & Hop & Hnext & Hsl & Hev) sel out.
  unfold prepareSend. run.
  rewrite bool_decide_eq_true_2 by exact Hid. simpl.
  rewrite Hop, Hnext. simpl.
  unfold initializeSendStruct. run.
  rewrite Hsl. simpl.
  rewrite (lookup_insert_same _ _ _ _ Hsl). simpl.
  destruct (overlapped_hEvent sl) as [ev|] eqn:Hev'; [|discriminate]. simpl.
  rewrite (lookup_insert_same _ _ _ _ Hsl). simpl.
  rewrite !list_insert_insert_eq.
  change (select_output _) with sel.
  change (outputReportByteLength_ (info_ (sub_at _ sel))) with out.
  destruct (len >? out); simpl.
  { rewrite (lookup_insert_same _ _ _ _ Hsl). simpl.
    rewrite !list_insert_insert_eq. reflexivity. }
  destruct (out >? MAX); simpl.
  { rewrite (lookup_insert_same _ _ _ _ Hsl). simpl.
    rewrite !list_insert_insert_eq. reflexivity. }
  rewrite (lookup_insert_same _ _ _ _ Hsl). simpl.
  destruct (copy_report _ _ _ _) as [copied|]; [|reflexivity].
  destruct (zero_fill _ _ _) as [padded|]; [|reflexivity].
  run. rewrite (lookup_insert_same _ _ _ _ Hsl). simpl.
  rewrite !list_insert_insert_eq. reflexivity.
Qed.

Lemma writes_of_app tr1 tr2 : writes_of (tr1 ++ tr2) = writes_of tr1 ++ writes_of tr2.
Proof. apply List.filter_app. Qed.

(** Activation of a slot that targets channel [idx]: one [WriteFile] of the
    first [out] bytes of the slot buffer, and nothing else written. *)
Lemma activate_writes st send s1 idx :
  send_ (device st) !! send = Some s1 ->
  interface_ s1 = Some idx ->
  let ch := sub_at (device st) idx in
  let out := outputReportByteLength_ (info_ ch) in
  let ev := EvWriteFile (handle_ ch) (take (Z.to_nat out) (report_ s1)) out
                        (next_write st) in
  exists code st',
    freespace_send_activate send st = Done code st' /\
    writes_of (trace st') = writes_of (trace st) ++ [ev] /\
    length (send_ (device st')) = length (send_ (device st)) /\
    (code = FREESPACE_ERROR_IO ->
       device st' = device st /\ exists e, next_write st = IoFalse e) /\
    (code <> FREESPACE_ERROR_IO ->
       exists s2, send_ (device st') !! send = Some s2 /\ interface_ s2 = None) /\
    code = match next_write st with
           | IoTrue _ => FREESPACE_SUCCESS
           | IoFalse e => if bool_decide (e <> ERROR_IO_PENDING)
                          then FREESPACE_ERROR_UNEXPECTED
                          else FREESPACE_ERROR_IO
           end.
Proof.
  intros Hs1 Hi ch out ev.
  unfold freespace_send_activate, WriteFile. run.
  rewrite Hs1. simpl. rewrite Hi. simpl. rewrite Hs1.
  fold (next_write st). fold ch. fold out.
  destruct (next_write st) as [n|e] eqn:Hr; simpl.
  - unfold finalizeSendStruct. run. look Hs1.
    eexists _, _. split; [reflexivity|]. simpl.
    rewrite writes_of_app, !length_insert. simpl.
    repeat split; try congruence.
    intros _. eexists. split; [apply (lookup_insert_same _ _ _ _ Hs1)|reflexivity].
  - destruct (bool_decide (e <> ERROR_IO_PENDING)) eqn:He; simpl.
    + unfold finalizeSendStruct. run. look Hs1.
      eexists _, _. split; [reflexivity|]. simpl.
      rewrite !writes_of_app, !length_insert. simpl. rewrite app_nil_r.
      repeat split; try congruence.
      intros _. eexists. split; [apply (lookup_insert_same _ _ _ _ Hs1)|reflexivity].
    + eexists _, _. split; [reflexivity|]. simpl.
      rewrite writes_of_app. simpl.
      repeat split; try congruence; eauto.
Qed.

(** The wait half of [freespace_send] on a slot in flight towards channel
    [idx]: it always returns, writes nothing, frees the slot, and
    - when the wait gives anything but WAIT_OBJECT_0, cancels the I/O of the
      channel, clears its pending-read flag and returns TIMEOUT exactly when
      the completion query reports the write complete, IO otherwise;
    - when the wait gives WAIT_OBJECT_0, returns SUCCESS exactly when the
      write is complete with [out] bytes, IO otherwise. *)
Lemma await_send_runs st send s1 idx :
  send_ (device st) !! send = Some s1 ->
  interface_ s1 = Some idx ->
  let ch := sub_at (device st) idx in
  let out := outputReportByteLength_ (info_ ch) in
  exists code st',
    await_send send st = Done code st' /\
    writes_of (trace st') = writes_of (trace st) /\
    length (send_ (device st')) = length (send_ (device st)) /\
    (exists s2, send_ (device st') !! send = Some s2 /\ interface_ s2 = None) /\
    (next_wait_result st <> WAIT_OBJECT_0 ->
       (code = match next_send_result st with
               | IoTrue _ => FREESPACE_ERROR_TIMEOUT
               | IoFalse _ => FREESPACE_ERROR_IO
               end) /\
       existsb (is_CancelIo_on (handle_ ch)) (drop (length (trace st)) (trace st')) = true /\
       readStatus_ (sub_at (device st') idx) = false) /\
    (next_wait_result st = WAIT_OBJECT_0 ->
       code = match next_send_result st with
              | IoTrue n => if bool_decide (n = out) then FREESPACE_SUCCESS
                            else FREESPACE_ERROR_IO
              | IoFalse _ => FREESPACE_ERROR_IO
              end).
Proof.
  intros Hs1 Hi ch out.
  unfold await_send, WaitForSingleObject, GetOverlappedResult_send,
    finalizeSendStruct. run.
  look Hs1. rewrite Hi. simpl.
  fold (next_wait_result st). fold (next_send_result st). fold ch. fold out.
  destruct (bool_decide (next_wait_result st <> WAIT_OBJECT_0)) eqn:Hw;
    [apply bool_decide_eq_true_1 in Hw | apply bool_decide_eq_false_1 in Hw];
    simpl; fold (next_send_result st);
    destruct (next_send_result st) as [n|e] eqn:Hq; simpl; look Hs1.
  - eexists _, _. split; [reflexivity|]. simpl.
    rewrite !writes_of_app, !length_insert. simpl. rewrite !app_nil_r.
    split; [reflexivity|]. split; [reflexivity|].
    split; [eexists; split; [apply (lookup_insert_same _ _ _ _ Hs1)|reflexivity]|].
    split; [|intros Hc; contradiction].
    intros _. split; [reflexivity|].
    rewrite <- !app_assoc, drop_app_length. simpl.
    rewrite bool_decide_eq_true_2 by reflexivity.
    split; [reflexivity|]. apply sub_cleared.
  - eexists _, _. split; [reflexivity|]. simpl.
    rewrite !writes_of_app, !length_insert. simpl. rewrite !app_nil_r.
    split; [reflexivity|]. split; [reflexivity|].
    split; [eexists; split; [apply (lookup_insert_same _ _ _ _ Hs1)|reflexivity]|].
    split; [|intros Hc; contradiction].
    intros _. split; [reflexivity|].
    rewrite <- !app_assoc, drop_app_length. simpl.
    rewrite bool_decide_eq_true_2 by reflexivity.
    split; [reflexivity|]. apply sub_cleared.
  - destruct (bool_decide (n <> out)) eqn:Hn; simpl; look Hs1;
      (eexists _, _; split; [reflexivity|]; simpl;
       rewrite !writes_of_app, !length_insert; simpl; rewrite !app_nil_r;
       split; [reflexivity|]; split; [reflexivity|];
       split; [eexists; split; [apply (lookup_insert_same _ _ _ _ Hs1)|reflexivity]|];
       split; [intros Hc; contradiction|]; intros _).
    + apply bool_decide_eq_true_1 in Hn.
      rewrite bool_decide_eq_false_2 by exact Hn. reflexivity.
    + apply bool_decide_eq_false_1 in Hn.
      rewrite bool_decide_eq_true_2 by (destruct (decide (n = out)); tauto).
      reflexivity.
  - eexists _, _. split; [reflexivity|]. simpl.
    rewrite !writes_of_app, !length_insert. simpl. rewrite !app_nil_r.
    split; [reflexivity|]. split; [reflexivity|].
    split; [eexists; split; [apply (lookup_insert_same _ _ _ _ Hs1)|reflexivity]|].
    split; [intros Hc; contradiction|]. intros _. reflexivity.
Qed.

(** An accepted [prepareSend]: the slot targets the chosen channel and its
    buffer starts with the framed report. *)
Lemma prepareSend_accept st id send sl report len :
  send_ready st id send sl ->
  let sel := select_output (device st) in
  let out := out_len (device st) sel in
  0 <= len <= out -> out <= MAX ->
  len <= Z.of_nat (length report) ->
  MAX <= Z.of_nat (length (report_ sl)) ->
  exists padded,
    prepareSend MAX id report len st =
      Done (FREESPACE_SUCCESS, Some send)
           (with_slot send
              (set_rc_ FREESPACE_SUCCESS (set_report_ padded (chosen sel sl))) st) /\
    take (Z.to_nat out) padded = framed report len out.
Proof.
  intros Hready sel out Hlen Hmax Hrep Hbuf.
  rewrite (prepareSend_ready _ _ _ _ _ _ Hready). fold sel. fold out.
  destruct (Z.gtb_spec len out); [lia|].
  destruct (Z.gtb_spec out MAX); [lia|].
  destruct (frame_loops report len out (report_ sl)) as (padded & Hc & Hz & Ht & _);
    [lia..|].
  rewrite Hc, Hz. exists padded. split; [reflexivity | exact Ht].
Qed.

(** A send longer than the output report of the chosen channel: the code
    returns SEND_TOO_LARGE from [prepareSend] and from [freespace_send] with
    nothing traced, and in the state it returns in the slot still targets
    the chosen channel. *)
Lemma oversize_send_keeps_slot st id send sl report len :
  send_ready st id send sl ->
  out_len (device st) (select_output (device st)) < len ->
  exists st' s',
    prepareSend MAX id report len st
      = Done (FREESPACE_ERROR_SEND_TOO_LARGE, Some send) st' /\
    freespace_send MAX id report len st
      = Done FREESPACE_ERROR_SEND_TOO_LARGE st' /\
    send_ (device st') !! send = Some s' /\
    in_use s' = true /\
    trace st' = trace st.
Proof.
  intros Hready Hbig.
  pose proof Hready as (_ & _ & _ & Hsl & _).
  unfold freespace_send, bind.
  rewrite (prepareSend_ready _ _ _ _ _ _ Hready).
  destruct (Z.gtb_spec len (out_len (device st) (select_output (device st))));
    [|lia].
  simpl. eexists _, _. split; [reflexivity|]. split; [reflexivity|].
  split; [apply (lookup_insert_same _ _ _ _ Hsl)|]. split; reflexivity.
Qed.

(** An asynchronous send whose write completes during activation: the code
    returns SUCCESS with the slot released, and the write is the only event
    of the call; no callback is called. *)
Lemma sendAsync_completed_at_once
    st id send sl report len timeoutMs callback cookie n rest :
  send_ready st id send sl ->
  let ch := sub_at (device st) (select_output (device st)) in
  let out := outputReportByteLength_ (info_ ch) in
  0 <= len <= out -> out <= MAX ->
  len <= Z.of_nat (length report) ->
  MAX <= Z.of_nat (length (report_ sl)) ->
  q_WriteFile st = IoTrue n :: rest ->
  exists st' s',
    freespace_sendAsync MAX id report len timeoutMs callback cookie st
      = Done FREESPACE_SUCCESS st' /\
    trace st' = trace st ++
      [EvWriteFile (handle_ ch) (framed report len out) out (IoTrue n)] /\
    send_ (device st') !! send = Some s' /\
    interface_ s' = None /\
    callback_ s' = callback.
Proof.
  intros Hready ch out Hlen Hmax Hrep Hbuf Hq.
  pose proof Hready as (_ & _ & _ & Hsl & _).
  destruct (prepareSend_accept st id send sl report len Hready Hlen Hmax Hrep Hbuf)
    as (padded & Hprep & Htake).
  change (take (Z.to_nat out) padded = framed report len out) in Htake.
  unfold freespace_sendAsync. unfold bind at 1. rewrite Hprep. simpl.
  unfold freespace_send_activate, WriteFile, finalizeSendStruct. run.
  look Hsl. rewrite Hq. simpl. look Hsl.
  eexists _, _. split; [reflexivity|]. simpl. split.
  { change (trace st ++ [EvWriteFile (handle_ ch) (take (Z.to_nat out) padded)
                                     out (IoTrue n)]
            = trace st ++ [EvWriteFile (handle_ ch) (framed report len out)
                                       out (IoTrue n)]).
    rewrite Htake. reflexivity. }
  split; [apply (lookup_insert_same _ _ _ _ Hsl)|]. split; reflexivity.
Qed.

End SendProofs.

(** ** Relations kept by every step

    [respects R m]: whenever [m] returns, the states before and after are
    related by [R].  For a reflexive and transitive [R] this passes through
    sequencing and loops, so it is enough to check the primitive steps. *)

Section Respects.

Context (R : State -> State -> Prop) `{!PreOrder R}.

Lemma respects_ret {A} (a : A) : respects R (ret a).
Proof. intros st a' st' H. injection H as _ <-. reflexivity. Qed.

Lemma respects_gets {A} (f : State -> A) : respects R (gets f).
Proof. intros st a' st' H. injection H as _ <-. reflexivity. Qed.

Lemma respects_fault {A} : respects R (@fault A).
Proof. intros st a st' H. discriminate. Qed.

Lemma respects_bind {A B} (m : M A) (k : A -> M B) :
  respects R m -> (forall a, respects R (k a)) -> respects R (bind m k).
Proof.
  intros Hm Hk st b st' H. unfold bind in H.
  destruct (m st) as [a st1|] eqn:E; [|discriminate].
  transitivity st1; [eapply Hm, E | eapply Hk, H].
Qed.

Lemma respects_for_each body :
  (forall i, respects R (body i)) ->
  forall n i, respects R (for_each i n body).
Proof.
  intros Hb n. induction n as [|n IH]; intros i; simpl.
  - apply respects_ret.
  - apply respects_bind; [apply Hb | intros _; apply IH].
Qed.

Lemma respects_for_loop {X} (body : nat -> M (option X)) :
  (forall i, respects R (body i)) ->
  forall n i, respects R (for_loop i n body).
Proof.
  intros Hb n. induction n as [|n IH]; intros i; simpl.
  - apply respects_ret.
  - apply respects_bind; [apply Hb|].
    intros [x|]; [apply respects_ret | apply IH].
Qed.

Lemma respects_for_acc {Acc X} (body : nat -> Acc -> M (Acc + X)) :
  (forall i acc, respects R (body i acc)) ->
  forall n i acc, respects R (for_acc i n body acc).
Proof.
  intros Hb n. induction n as [|n IH]; intros i acc; simpl.
  - apply respects_ret.
  - apply respects_bind; [apply Hb|].
    intros [acc'|x]; [apply IH | apply respects_ret].
Qed.

End Respects.

(** Goals [respects R m] by the structure of [m]; [prim] closes the
    primitive steps. *)
Ltac respects_with prim :=
  repeat first
    [ match goal with |- PreOrder _ => exact _ end
    | prim
    | apply respects_ret | apply respects_gets | apply respects_fault
    | apply respects_bind; [exact _ | | intros ?]
    | apply respects_for_each; [exact _ | intros ?]
    | apply respects_for_loop; [exact _ | intros ?]
    | apply respects_for_acc; [exact _ | intros ? ?]
    | match goal with
      | |- respects _ (if ?b then _ else _) => destruct b
      | |- respects _ (match ?x with _ => _ end) => destruct x
      end ].

(** *** The size of the slot pool is fixed *)

#[local] Instance same_pool_preorder : PreOrder same_pool.
Proof.
  split.
  - intros st. reflexivity.
  - intros a b c Hab Hbc. unfold same_pool in *. congruence.
Qed.

Lemma pool_modifySend i f : respects same_pool (modifySend i f).
Proof.
  intros st a st' H. unfold modifySend in H.
  destruct (send_ (device st) !! i); [|discriminate].
  injection H as _ <-. unfold same_pool. simpl. apply length_insert.
Qed.

Lemma pool_getSend i : respects same_pool (getSend i).
Proof.
  intros st a st' H. unfold getSend in H.
  destruct (send_ (device st) !! i); [|discriminate].
  injection H as _ <-. reflexivity.
Qed.

Lemma pool_step {A} (m : M A) :
  (forall st a st', m st = Done a st' -> send_ (device st') = send_ (device st)) ->
  respects same_pool m.
Proof. intros H st a st' E. unfold same_pool. rewrite (H _ _ _ E). reflexivity. Qed.

Ltac pool_prim :=
  first
    [ apply pool_modifySend | apply pool_getSend
    | apply pool_step; intros ? ? ? E; injection E as _ <-; reflexivity ].

Ltac pool := respects_with pool_prim.

Lemma pool_getInterface i : respects same_pool (getInterface i).
Proof. unfold getInterface. pool. Qed.

Lemma pool_initializeSendStruct send : respects same_pool (initializeSendStruct send).
Proof. unfold initializeSendStruct. pool. Qed.

Lemma pool_finalizeSendStruct send b : respects same_pool (finalizeSendStruct send b).
Proof. unfold finalizeSendStruct. pool. Qed.

Lemma pool_prepareSend MAX id report len :
  respects same_pool (prepareSend MAX id report len).
Proof. unfold prepareSend. respects_with ltac:(first [apply pool_initializeSendStruct | pool_prim]). Qed.

Lemma pool_activate send : respects same_pool (freespace_send_activate send).
Proof.
  unfold freespace_send_activate.
  respects_with ltac:(first [apply pool_getInterface | apply pool_finalizeSendStruct | pool_prim]).
Qed.

Lemma pool_await_send send : respects same_pool (await_send send).
Proof.
  unfold await_send.
  respects_with ltac:(first [apply pool_getInterface | apply pool_finalizeSendStruct | pool_prim]).
Qed.

Lemma pool_freespace_send MAX id report len :
  respects same_pool (freespace_send MAX id report len).
Proof.
  unfold freespace_send.
  respects_with ltac:(first [apply pool_prepareSend | apply pool_activate
                            | apply pool_await_send | pool_prim]).
Qed.

Lemma pool_freespace_sendAsync MAX id report len t cb cookie :
  respects same_pool (freespace_sendAsync MAX id report len t cb cookie).
Proof.
  unfold freespace_sendAsync.
  respects_with ltac:(first [apply pool_prepareSend | apply pool_activate | pool_prim]).
Qed.

Lemma pool_perform_send idx : respects same_pool (perform_send idx).
Proof.
  unfold perform_send.
  respects_with ltac:(first [apply pool_finalizeSendStruct | pool_prim]).
Qed.

Lemma pool_call_receiveCallback payload len code :
  respects same_pool (call_receiveCallback payload len code).
Proof.
  unfold call_receiveCallback, unregister_from_callback, setReceiveCallback_body,
    fdSyncRemoveFilter, freespace_private_fdSyncAddFilter, terminateAsyncReceives,
    call_fdRemovedCallback, call_fdAddedCallback.
  pool.
Qed.

Lemma pool_drain_reads fuel idx : respects same_pool (drain_reads fuel idx).
Proof.
  induction fuel as [|fuel IH]; simpl.
  - apply respects_fault.
  - respects_with ltac:(first [apply IH | apply pool_call_receiveCallback | pool_prim]).
Qed.

Lemma pool_initiateAsyncReceives : respects same_pool initiateAsyncReceives.
Proof.
  unfold initiateAsyncReceives, rearm_channel, convertGetLastError.
  respects_with ltac:(first [apply pool_drain_reads | apply pool_call_receiveCallback
                            | pool_prim]).
Qed.

Lemma pool_devicePerform : respects same_pool freespace_private_devicePerform.
Proof.
  unfold freespace_private_devicePerform, perform_receive.
  respects_with ltac:(first [apply pool_perform_send | apply pool_initiateAsyncReceives
                            | apply pool_call_receiveCallback | pool_prim]).
Qed.

(** *** The fuel of the drain loop is never used up *)

#[local] Instance same_reads_preorder : PreOrder same_reads.
Proof.
  split.
  - intros st. reflexivity.
  - intros a b c Hab Hbc. unfold same_reads in *. congruence.
Qed.

Ltac reads_prim := intros ? ? ? E; injection E as _ <-; reflexivity.

Lemma reads_call_receiveCallback payload len code :
  respects same_reads (call_receiveCallback payload len code).
Proof.
  unfold call_receiveCallback, unregister_from_callback, setReceiveCallback_body,
    fdSyncRemoveFilter, freespace_private_fdSyncAddFilter, terminateAsyncReceives,
    call_fdRemovedCallback, call_fdAddedCallback.
  respects_with reads_prim.
Qed.

(** Any two amounts of fuel above the number of scripted [ReadFile] answers
    give the same run of the drain loop: each further round has consumed
    one answer. *)
Lemma drain_reads_fuel idx : forall fuel1 fuel2 st,
  (length (q_ReadFile st) < fuel1)%nat ->
  (length (q_ReadFile st) < fuel2)%nat ->
  drain_reads fuel1 idx st = drain_reads fuel2 idx st.
Proof.
  induction fuel1 as [|f1 IH]; intros fuel2 st H1 H2; [lia|].
  destruct fuel2 as [|f2]; [lia|]. simpl.
  unfold ReadFile. run.
  destruct (q_ReadFile st) as [|r q] eqn:Hq; simpl; [reflexivity|].
  destruct r as [data|e]; simpl; [|reflexivity].
  destruct (is_Some_bool (receiveCallback_ (device st))); simpl; [|reflexivity].
  match goal with
  | |- context [call_receiveCallback ?a ?b ?c ?s] =>
      destruct (call_receiveCallback a b c s) as [[] st2|] eqn:E; [|reflexivity];
      pose proof (reads_call_receiveCallback a b c s tt st2 E) as Hsame
  end.
  unfold same_reads in Hsame. simpl in Hsame. simpl in H1, H2.
  apply IH; rewrite Hsame; lia.
Qed.

(** The perform pass on a slot in flight whose write is reported complete
    with [n] bytes: the callback, when there is one, is called once, with
    SUCCESS exactly when [n] is the output report length of the channel and
    with IO error otherwise, and the slot is released. *)
Lemma perform_send_resolves st idx s i fn n rest :
  send_ (device st) !! idx = Some s ->
  interface_ s = Some i ->
  callback_ s = Some fn ->
  q_SendResult st = IoTrue n :: rest ->
  let ch := sub_at (device st) i in
  exists st' s',
    perform_send idx st = Done tt st' /\
    trace st' = trace st ++
      [EvSendResult (handle_ ch) (overlapped_hEvent s) false (IoTrue n);
       EvSendCallback fn (id_ (device st)) (cookie_ s)
         (if bool_decide (n = outputReportByteLength_ (info_ ch))
          then FREESPACE_SUCCESS else FREESPACE_ERROR_IO)] /\
    send_ (device st') !! idx = Some s' /\ interface_ s' = None.
Proof.
  intros Hs Hi Hcb Hq ch.
  unfold perform_send, GetOverlappedResult_send, finalizeSendStruct. run.
  rewrite Hs. simpl. rewrite Hi, Hq. simpl. fold ch. look Hs. rewrite Hcb.
  destruct (decide (n = outputReportByteLength_ (info_ ch))) as [Heq|Hne].
  - rewrite bool_decide_eq_false_2 by tauto. rewrite bool_decide_eq_true_2 by exact Heq.
    simpl. look Hs. eexists _, _. split; [reflexivity|]. simpl.
    rewrite <- app_assoc. split; [reflexivity|].
    split; [apply (lookup_insert_same _ _ _ _ Hs) | reflexivity].
  - rewrite bool_decide_eq_true_2 by exact Hne. rewrite bool_decide_eq_false_2 by exact Hne.
    simpl. look Hs. eexists _, _. split; [reflexivity|]. simpl.
    rewrite <- app_assoc. split; [reflexivity|].
    split; [apply (lookup_insert_same _ _ _ _ Hs) | reflexivity].
Qed.

(** ** The synchronous read *)

Lemma sub_at_insert d idx s :
  (idx < length (handles_ d))%nat ->
  sub_at (set_handles_ (<[idx := s]> (handles_ d)) d) idx = s.
Proof.
  intros Hlt. unfold sub_at. simpl.
  rewrite list_lookup_insert_eq by exact Hlt. reflexivity.
Qed.

Lemma read_out_copy s p message maxLength :
  0 <= maxLength < 2 ^ 31 -> maxLength <= Z.of_nat (length message) ->
  read_out (set_readData p s) message maxLength = Some (copy_of message maxLength p).
Proof.
  intros Hmax Hmsg. unfold read_out, copy_of. simpl.
  assert (Hu : to_ulong maxLength = maxLength)
    by (unfold to_ulong; apply Z.mod_small; lia).
  rewrite Hu.
  set (k := Z.min (Z.of_nat (length p)) maxLength).
  assert (Hk : 0 <= k <= maxLength /\ k <= Z.of_nat (length p)) by lia.
  assert (Hi : to_int k = k).
  { unfold to_int. rewrite Z.mod_small by lia.
    destruct (Z.ltb_spec k (2 ^ 31)); [reflexivity | lia]. }
  rewrite Hi. unfold memcpy.
  rewrite bool_decide_eq_true_2 by (rewrite length_app; lia).
  rewrite take_app_le by lia. reflexivity.
Qed.

Lemma added_snoc L st e tr :
  (L <= length (trace st))%nat -> tr = trace st ++ [e] ->
  (L <= length tr)%nat /\ last_completed (drop L tr) = completed_read e.
Proof.
  intros HL ->. split; [rewrite length_app; lia|].
  rewrite drop_app_le by exact HL.
  unfold last_completed. rewrite last_snoc. reflexivity.
Qed.

(** A loop whose rounds all return, keeping [I] between rounds and ending in
    [Q] when they leave the function, returns likewise. *)
Lemma for_loop_total {X} (I : State -> Prop) (Q : X -> State -> Prop)
    (body : nat -> M (option X)) count : forall lo,
  (forall i st, (lo <= i < lo + count)%nat -> I st ->
     exists r st', body i st = Done r st' /\
                   match r with Some x => Q x st' | None => I st' end) ->
  forall st, I st ->
    exists r st', for_loop lo count body st = Done r st' /\
                  match r with Some x => Q x st' | None => I st' end.
Proof.
  induction count as [|c IH]; intros lo Hb st HI; simpl.
  - exists None, st. split; [reflexivity | exact HI].
  - destruct (Hb lo st ltac:(lia) HI) as ([x|] & st1 & E & H1);
      unfold bind; rewrite E.
    + exists (Some x), st1. split; [reflexivity | exact H1].
    + apply (IH (S lo)); [|exact H1].
      intros i s Hi. apply Hb. lia.
Qed.

Section ReadProofs.

Variables (message : list byte) (maxLength actual0 : Z) (L n : nat).
Hypothesis Hmax : 0 <= maxLength < 2 ^ 31.
Hypothesis Hmsg : maxLength <= Z.of_nat (length message).

Lemma read_start_total idx st :
  (idx < n)%nat -> read_inv L n st ->
  exists r st', read_start message maxLength actual0 idx st = Done r st' /\
    match r with
    | Some x => read_post L message maxLength x st'
    | None => read_inv L n st'
    end.
Proof.
  intros Hidx ((Hn & Hroom) & HL & Hnone).
  unfold read_start, ReadFile, convertGetLastError. run.
  destruct (readStatus_ (sub_at (device st) idx)).
  { exists None, st. split; [reflexivity|]. repeat split; assumption. }
  destruct (default _ (head (q_ReadFile st))) as [p|e] eqn:Hr; simpl.
  - rewrite sub_at_insert by lia.
    rewrite read_out_copy by assumption.
    eexists (Some _), _. split; [reflexivity|].
    unfold read_post, added. simpl.
    destruct (added_snoc L st (EvReadFile (handle_ (sub_at (device st) idx))
                (inputReportByteLength_ (info_ (sub_at (device st) idx))) (IoTrue p))
                _ HL eq_refl) as (HL' & ->).
    split; [exact HL'|]. simpl. split; reflexivity.
  - destruct (bool_decide (e <> ERROR_IO_PENDING)); simpl.
    + eexists (Some _), _. split; [reflexivity|].
      unfold read_post, added, add_event. simpl.
      destruct (added_snoc L st (EvReadFile (handle_ (sub_at (device st) idx))
                  (inputReportByteLength_ (info_ (sub_at (device st) idx))) (IoFalse e))
                  _ HL eq_refl) as (HL' & _).
      rewrite !length_app in *. simpl in *. split; [lia|].
      rewrite drop_app_le by (rewrite length_app; simpl; lia).
      unfold last_completed. rewrite last_snoc. simpl. discriminate.
    + eexists None, _. split; [reflexivity|].
      unfold read_inv, table_holds, added. simpl. rewrite length_insert.
      destruct (added_snoc L st (EvReadFile (handle_ (sub_at (device st) idx))
                  (inputReportByteLength_ (info_ (sub_at (device st) idx))) (IoFalse e))
                  _ HL eq_refl) as (HL' & ->).
      repeat split; assumption.
Qed.

Lemma read_check_total idx st :
  (idx < n)%nat -> read_inv L n st ->
  exists r st', read_check message maxLength actual0 idx st = Done r st' /\
    match r with
    | Some x => read_post L message maxLength x st'
    | None => read_inv L n st'
    end.
Proof.
  intros Hidx ((Hn & Hroom) & HL & Hnone).
  unfold read_check, GetOverlappedResult_read, convertGetLastError. run.
  destruct (default _ (head (q_ReadResult st))) as [p|e] eqn:Hr; simpl.
  - rewrite sub_at_insert by lia.
    rewrite read_out_copy by assumption. simpl.
    eexists (Some _), _. split; [reflexivity|].
    unfold read_post, added. simpl.
    destruct (added_snoc L st (EvReadResult (handle_ (sub_at (device st) idx))
                (readOverlapped_hEvent (sub_at (device st) idx)) false (IoTrue p))
                _ HL eq_refl) as (HL' & ->).
    split; [exact HL'|]. simpl. split; reflexivity.
  - destruct (bool_decide (e <> ERROR_IO_INCOMPLETE)); simpl.
    + eexists (Some _), _. split; [reflexivity|].
      unfold read_post, added, add_event. simpl.
      rewrite !length_app in *. simpl in *. split; [lia|].
      rewrite drop_app_le by (rewrite length_app; simpl; lia).
      unfold last_completed. rewrite last_snoc. simpl. discriminate.
    + eexists None, _. split; [reflexivity|].
      unfold read_inv, table_holds, added. simpl.
      destruct (added_snoc L st (EvReadResult (handle_ (sub_at (device st) idx))
                  (readOverlapped_hEvent (sub_at (device st) idx)) false (IoFalse e))
                  _ HL eq_refl) as (HL' & ->).
      repeat split; assumption.
Qed.

End ReadProofs.

(** [freespace_read] always returns, and returns SUCCESS with the copy of
    the payload exactly when it ended on a completed read. *)
Lemma freespace_read_total id message maxLength timeoutMs actual0 st :
  0 <= maxLength < 2 ^ 31 -> maxLength <= Z.of_nat (length message) ->
  (handleCount_ (device st) <= length (handles_ (device st)))%nat ->
  exists x st',
    freespace_read id message maxLength timeoutMs actual0 st = Done x st' /\
    read_post (length (trace st)) message maxLength x st'.
Proof.
  intros Hmax Hmsg Hroom.
  set (L := length (trace st)). set (n := handleCount_ (device st)).
  assert (Hinv : read_inv L n st).
  { split; [split; [reflexivity | exact Hroom]|]. split; [reflexivity|].
    unfold added, L. rewrite drop_all. reflexivity. }
  unfold freespace_read, WaitForMultipleObjects. run.
  destruct (bool_decide (id_ (device st) = id)); simpl.
  2:{ eexists _, _. split; [reflexivity|]. destruct Hinv as (_ & HL & Hnone).
      split; [exact HL|]. rewrite Hnone. simpl. discriminate. }
  fold n.
  destruct (for_loop_total (read_inv L n) (read_post L message maxLength)
              (read_start message maxLength actual0) n 0%nat) with (st := st)
    as ([x|] & st1 & E1 & H1); [|exact Hinv| |].
  { intros i s Hi. apply read_start_total; [assumption..|lia]. }
  { rewrite E1. eexists _, _. split; [reflexivity | exact H1]. }
  rewrite E1. simpl.
  destruct H1 as ((Hn1 & Hroom1) & HL1 & Hnone1).
  set (w := EvWaitForMultipleObjects _ _ _).
  destruct (added_snoc L (next_wait st1) w _ HL1 eq_refl) as (HLw & Hw).
  destruct (bool_decide (default WAIT_TIMEOUT (head (q_Wait st1)) = WAIT_FAILED)); simpl.
  { eexists _, _. split; [reflexivity|]. split; [exact HLw|].
    unfold added. simpl. simpl in Hw. rewrite Hw. simpl. discriminate. }
  destruct (bool_decide (default WAIT_TIMEOUT (head (q_Wait st1)) = WAIT_TIMEOUT)); simpl.
  { eexists _, _. split; [reflexivity|]. split; [exact HLw|].
    unfold added. simpl. simpl in Hw. rewrite Hw. simpl. discriminate. }
  rewrite Hn1.
  destruct (for_loop_total (read_inv L n) (read_post L message maxLength)
              (read_check message maxLength actual0) n 0%nat)
    with (st := add_event w (next_wait st1))
    as ([x|] & st2 & E2 & H2).
  { intros i s Hi. apply read_check_total; [assumption..|lia]. }
  { split; [split; assumption|]. split; [exact HLw | exact Hw]. }
  { rewrite E2. eexists _, _. split; [reflexivity | exact H2]. }
  rewrite E2. eexists _, _. split; [reflexivity|].
  destruct H2 as (_ & HL2 & Hnone2). split; [exact HL2|].
  rewrite Hnone2. simpl. discriminate.
Qed.

(** ** The claims *)

Section Claims.

Variable MAX : Z.

(** C2.  On every opened device with at least one attached channel (a free
    slot with its event, a report of [len] bytes, slot buffers of the size
    limit), [prepareSend] makes the slot target an attached channel whose output
    report is at least as long as that of every attached channel (the first
    such channel, not necessarily channel 0); with channels of output
    lengths 7 and 31 and a 10-byte report the slot targets the 31-byte
    channel. *)
Theorem C2_prepareSend_selects_longest_output :
  (forall st id send sl report len,
     send_ready st id send sl ->
     (1 <= handleCount_ (device st))%nat ->
     0 <= len <= Z.of_nat (length report) ->
     MAX <= Z.of_nat (length (report_ sl)) ->
     exists code st' s' sel,
       prepareSend MAX id report len st = Done (code, Some send) st' /\
       send_ (device st') !! send = Some s' /\
       interface_ s' = Some sel /\
       (sel < handleCount_ (device st))%nat /\
       handles_ (device st') = handles_ (device st) /\
       (forall k, (k < handleCount_ (device st))%nat ->
                  out_len (device st) k <= out_len (device st) sel) /\
       (forall k, (k < sel)%nat -> out_len (device st) k < out_len (device st) sel))
  /\
  (exists code st' s',
     prepareSend MAX 1 ten_bytes 10 (quiet_os device_7_31)
       = Done (code, Some 0%nat) st' /\
     send_ (device st') !! 0%nat = Some s' /\
     interface_ s' = Some 1%nat /\
     out_len device_7_31 1 = 31).
Proof.
  split.
  - intros st id send sl report len Hready Hcount Hlen Hbuf.
    pose proof Hready as (_ & _ & _ & Hsl & _).
    destruct (select_output_longest (device st) Hcount) as (Hsel & Hmaxi).
    pose proof (select_output_first (device st)) as Hfirst.
    rewrite (prepareSend_ready MAX _ _ _ _ _ _ Hready).
    set (sel := select_output (device st)) in *.
    destruct (Z.gtb_spec len (out_len (device st) sel)) as [Hgt|Hle].
    { eexists _, _, _, sel. split; [reflexivity|].
      split; [apply (lookup_insert_same _ _ _ _ Hsl)|]. simpl. auto. }
    destruct (Z.gtb_spec (out_len (device st) sel) MAX) as [Hbig|Hfit].
    { eexists _, _, _, sel. split; [reflexivity|].
      split; [apply (lookup_insert_same _ _ _ _ Hsl)|]. simpl. auto. }
    destruct (frame_loops report len (out_len (device st) sel) (report_ sl))
      as (padded & Hc & Hz & _); [lia..|].
    rewrite Hc, Hz.
    eexists _, _, _, sel. split; [reflexivity|].
    split; [apply (lookup_insert_same _ _ _ _ Hsl)|]. simpl. auto.
  - assert (Hready : send_ready (quiet_os device_7_31) 1 0 (free_slot 50))
      by (repeat split; reflexivity).
    rewrite (prepareSend_ready MAX _ _ _ _ _ _ Hready).
    change (select_output (device (quiet_os device_7_31))) with 1%nat.
    change (out_len (device (quiet_os device_7_31)) 1) with 31.
    change (10 >? 31) with false. cbv iota.
    destruct (31 >? MAX).
    + eexists _, _, _. split; [reflexivity|]. repeat split.
    + eexists _, _, _. split; [vm_compute; reflexivity|]. repeat split.
Qed.

(** C6.  The slots in use never outnumber the pool, whose size no send
    operation and no perform pass changes; allocation is first fit; and when
    every slot is in use [prepareSend] returns BUSY and leaves the whole
    state, every slot included, as it was. *)
Theorem C6_slot_pool_is_bounded_first_fit_busy :
  (forall d, (in_use_count d <= length (send_ d))%nat) /\
  (forall id report len t cb cookie,
     respects same_pool (prepareSend MAX id report len) /\
     respects same_pool (freespace_send MAX id report len) /\
     respects same_pool (freespace_sendAsync MAX id report len t cb cookie) /\
     respects same_pool freespace_private_devicePerform) /\
  (forall d i,
     getNextSendBuffer d = Some i <->
     exists s, send_ d !! i = Some s /\ in_use s = false /\
               forall j t, send_ d !! j = Some t -> (j < i)%nat -> in_use t = true) /\
  (forall st id report len,
     id_ (device st) = id ->
     isOpened_ (device st) = true ->
     Forall (fun s => in_use s = true) (send_ (device st)) ->
     prepareSend MAX id report len st = Done (FREESPACE_ERROR_BUSY, None) st).
Proof.
  split; [|split; [|split]].
  - intros d. unfold in_use_count. apply length_filter.
  - intros id report len t cb cookie.
    split; [apply pool_prepareSend|].
    split; [apply pool_freespace_send|].
    split; [apply pool_freespace_sendAsync | apply pool_devicePerform].
  - intros d i. rewrite getNextSendBuffer_Some.
    split; intros (s & Hs & Hfree & Hbefore); exists s; (split; [exact Hs|]).
    + split; [apply in_use_false, Hfree|].
      intros j t Hj Hlt. specialize (Hbefore j t Hj Hlt).
      unfold in_use. destruct (interface_ t); [reflexivity | congruence].
    + split; [apply in_use_false, Hfree|].
      intros j t Hj Hlt Hnone. specialize (Hbefore j t Hj Hlt).
      apply in_use_false in Hnone. congruence.
  - intros st id report len Hid Hop Hall.
    apply getNextSendBuffer_None in Hall.
    unfold prepareSend. run.
    rewrite bool_decide_eq_true_2 by exact Hid. simpl.
    rewrite Hop, Hall. reflexivity.
Qed.

(** C3.  For every send accepted by [prepareSend] (the length is at most the
    output report length of the chosen channel, which is at most the size
    limit, which the slot buffer holds), [freespace_send] and
    [freespace_sendAsync] each return and issue exactly one
    write, on the chosen channel; the bytes handed to it are the caller's
    [len] bytes followed by zeros, [out] bytes in all, and the write is
    issued for [out] bytes. *)
Theorem C3_write_is_zero_padded_report
    st id send sl report len timeoutMs callback cookie :
  send_ready st id send sl ->
  let ch := sub_at (device st) (select_output (device st)) in
  let out := outputReportByteLength_ (info_ ch) in
  0 <= len <= out -> out <= MAX ->
  len <= Z.of_nat (length report) ->
  MAX <= Z.of_nat (length (report_ sl)) ->
  let wire := take (Z.to_nat len) report ++ replicate (Z.to_nat (out - len)) x00 in
  let ev := EvWriteFile (handle_ ch) wire out (next_write st) in
  Z.of_nat (length wire) = out /\
  (exists code st',
     freespace_send MAX id report len st = Done code st' /\
     writes_of (trace st') = writes_of (trace st) ++ [ev]) /\
  (exists code st',
     freespace_sendAsync MAX id report len timeoutMs callback cookie st
       = Done code st' /\
     writes_of (trace st') = writes_of (trace st) ++ [ev]).
Proof.
  intros Hready ch out Hlen Hmax Hrep Hbuf wire ev.
  pose proof Hready as (_ & _ & _ & Hsl & _).
  destruct (prepareSend_accept MAX st id send sl report len Hready Hlen Hmax Hrep Hbuf)
    as (padded & Hprep & Htake).
  change (take (Z.to_nat out) padded = wire) in Htake.
  split; [apply length_framed; lia|]. split.
  - unfold freespace_send. unfold bind at 1. rewrite Hprep. simpl.
    set (s1 := set_rc_ FREESPACE_SUCCESS (set_report_ padded (chosen _ sl))).
    set (st1 := with_slot send s1 st).
    assert (Hs1 : send_ (device st1) !! send = Some s1)
      by apply (lookup_insert_same _ _ _ _ Hsl).
    destruct (activate_writes st1 send s1 _ Hs1 eq_refl)
      as (code & st2 & Hact & Hw & _ & Hpend & _ & _).
    change (writes_of (trace st2) = writes_of (trace st) ++
              [EvWriteFile (handle_ ch) (take (Z.to_nat out) padded) out
                           (next_write st)]) in Hw.
    rewrite Htake in Hw.
    unfold bind. rewrite Hact.
    destruct (bool_decide (code <> FREESPACE_ERROR_IO)) eqn:Hc; simpl.
    + exists code, st2. split; [reflexivity | exact Hw].
    + apply bool_decide_eq_false_1 in Hc.
      assert (Hcode : code = FREESPACE_ERROR_IO)
        by (destruct (decide (code = FREESPACE_ERROR_IO)); tauto).
      destruct (Hpend Hcode) as (Hdev & _).
      assert (Hs2 : send_ (device st2) !! send = Some s1) by (rewrite Hdev; exact Hs1).
      destruct (await_send_runs st2 send s1 _ Hs2 eq_refl)
        as (code' & st3 & Haw & Hw3 & _).
      exists code', st3. split; [exact Haw|]. rewrite Hw3. exact Hw.
  - unfold freespace_sendAsync. unfold bind at 1. rewrite Hprep. simpl.
    set (s1 := set_rc_ FREESPACE_SUCCESS (set_report_ padded (chosen _ sl))).
    run. look Hsl.
    set (s2 := set_async callback cookie timeoutMs s1).
    set (st1 := set_device _ _).
    assert (Hs2 : send_ (device st1) !! send = Some s2)
      by apply (lookup_insert_same _ _ _ _ Hsl).
    destruct (activate_writes st1 send s2 _ Hs2 eq_refl)
      as (code & st2 & Hact & Hw & _ & _ & _ & _).
    change (writes_of (trace st2) = writes_of (trace st) ++
              [EvWriteFile (handle_ ch) (take (Z.to_nat out) padded) out
                           (next_write st)]) in Hw.
    rewrite Htake in Hw.
    rewrite Hact.
    destruct (bool_decide (code <> FREESPACE_ERROR_IO)); simpl;
      eexists _, st2; (split; [reflexivity | exact Hw]).
Qed.

(** C8, as the code has it.  On a device that is not opened, [freespace_send]
    and [freespace_sendAsync] fail (IO error, or NO_DEVICE for an unknown
    id) and leave the whole state as it was: no slot is touched and nothing
    is added to the trace, so no device I/O is performed. *)
Theorem C8_closed_device_refuses_sends st id report len timeoutMs callback cookie :
  isOpened_ (device st) = false ->
  let code := if bool_decide (id_ (device st) = id)
              then FREESPACE_ERROR_IO else FREESPACE_ERROR_NO_DEVICE in
  code <> FREESPACE_SUCCESS /\
  freespace_send MAX id report len st = Done code st /\
  freespace_sendAsync MAX id report len timeoutMs callback cookie st
    = Done code st.
Proof.
  intros Hclosed code. subst code.
  unfold freespace_send, freespace_sendAsync, prepareSend. run.
  destruct (bool_decide (id_ (device st) = id)); simpl.
  - rewrite Hclosed. simpl. repeat split. discriminate.
  - repeat split. discriminate.
Qed.

End Claims.

(** ** The claims the code departs from, at concrete inputs *)

(** C1.  Claimed: every accepted asynchronous send calls its callback
    exactly once, before [freespace_sendAsync] returns when the write
    completes during activation.  The code: when [WriteFile] completes at
    once, [freespace_sendAsync] returns SUCCESS with the slot released and
    the callback never called, neither before the return nor by a later
    perform pass; the same send left in flight is answered by the next
    perform pass with exactly one callback. *)
Theorem C1_send_completed_at_once_never_calls_back :
  let at_once := send_world [IoTrue 31] [] [] in
  let in_flight := send_world [IoFalse ERROR_IO_PENDING] [IoTrue 31] [] in
  returned (async_send at_once) = Some FREESPACE_SUCCESS /\
  List.filter is_SendCallback (events (async_send at_once)) = [] /\
  slots_after (async_send at_once) = [None; None] /\
  returned ((async_send ;;; freespace_private_devicePerform) at_once)
    = Some FREESPACE_SUCCESS /\
  List.filter is_SendCallback
    (events ((async_send ;;; freespace_private_devicePerform) at_once)) = [] /\
  returned (async_send in_flight) = Some FREESPACE_SUCCESS /\
  List.filter is_SendCallback
    (events ((async_send ;;; freespace_private_devicePerform) in_flight))
    = [EvSendCallback 77 1 5 FREESPACE_SUCCESS].
Proof. vm_compute. repeat split. Qed.

(** C4.  Claimed: after SEND_TOO_LARGE the slot allocated for the call is
    FREE again.  The code: [prepareSend] returns SEND_TOO_LARGE with the
    slot still pointing at the chosen channel, [freespace_send] returns
    without releasing it, and two oversize sends leave a two-slot pool
    exhausted, so that a send that fits is refused with BUSY. *)
Theorem C4_oversize_send_leaves_slot_in_use :
  let st := quiet_os device_7 in
  let fitting := freespace_send 40 1 (take 3 ten_bytes) 3 in
  returned (prepareSend 40 1 ten_bytes 10 st)
    = Some (FREESPACE_ERROR_SEND_TOO_LARGE, Some 0%nat) /\
  slots_after (prepareSend 40 1 ten_bytes 10 st) = [Some 0%nat; None] /\
  returned (sync_send st) = Some FREESPACE_ERROR_SEND_TOO_LARGE /\
  slots_after (sync_send st) = [Some 0%nat; None] /\
  events (sync_send st) = [] /\
  slots_after ((sync_send ;;; sync_send) st) = [Some 0%nat; Some 0%nat] /\
  returned ((sync_send ;;; sync_send ;;; fitting) st) = Some FREESPACE_ERROR_BUSY.
Proof. vm_compute. repeat split. Qed.

(** C5.  Claimed: a synchronous send whose wait times out returns TIMEOUT
    when the write is still outstanding and IO error otherwise.  The code:
    the channel I/O is cancelled as claimed, but with the write still
    outstanding (the completion query answers FALSE, "incomplete") the send
    returns IO error, and it returns TIMEOUT when the query reports the
    write complete. *)
Theorem C5_timeout_classification_is_inverted :
  let outstanding :=
    send_world [IoFalse ERROR_IO_PENDING] [IoFalse ERROR_IO_INCOMPLETE] [WAIT_TIMEOUT] in
  let completed :=
    send_world [IoFalse ERROR_IO_PENDING] [IoTrue 31] [WAIT_TIMEOUT] in
  returned (sync_send outstanding) = Some FREESPACE_ERROR_IO /\
  returned (sync_send completed) = Some FREESPACE_ERROR_TIMEOUT /\
  existsb (is_CancelIo_on (Some 11)) (events (sync_send outstanding)) = true /\
  existsb (is_CancelIo_on (Some 11)) (events (sync_send completed)) = true /\
  slots_after (sync_send outstanding) = [None; None].
Proof. vm_compute. repeat split. Qed.

(** C7.  Claimed: once the receive callback is cleared from inside the
    callback, the pass issues no further read and delivers nothing more.
    The code, rearm pass: the callback is tested only after the next
    [ReadFile] has been issued and has returned TRUE, so after the callback
    cleared itself a read is issued on the same channel and, when that read
    stays in flight, on the next channel too, and both are left pending with
    no callback registered; when that next read fails hard the pass calls
    through the NULL callback.  The poll pass does stop: nothing is read or
    delivered after the callback cleared itself. *)
Theorem C7_rearm_issues_reads_after_callback_cleared :
  let payload := map byte_of [1; 2] in
  let rearm :=
    initiateAsyncReceives
      (receive_world once [IoTrue payload; IoFalse ERROR_IO_PENDING] [] device_7_31) in
  let rearm_hard :=
    initiateAsyncReceives
      (receive_world once [IoTrue payload; IoFalse 5] [] device_7_31) in
  let poll :=
    freespace_private_devicePerform
      (receive_world once [IoTrue payload] [IoTrue payload; IoTrue payload]
                     (all_pending device_7_31)) in
  returned rearm = Some FREESPACE_SUCCESS /\
  events rearm =
    [EvReadFile (Some 10) 8 (IoTrue payload);
     EvReceiveCallback 700 1 (Some payload) 2 9 FREESPACE_SUCCESS;
     EvFdRemoved (Some 110); EvFdRemoved (Some 111);
     EvReadFile (Some 10) 8 (IoFalse ERROR_IO_PENDING);
     EvReadFile (Some 11) 8 (IoFalse ERROR_IO_PENDING)] /\
  receiver_after rearm = None /\
  List.filter is_ReadFile (after_first_callback (events rearm)) =
    [EvReadFile (Some 10) 8 (IoFalse ERROR_IO_PENDING);
     EvReadFile (Some 11) 8 (IoFalse ERROR_IO_PENDING)] /\
  pending_after rearm = [true; true] /\
  returned rearm_hard = None /\
  returned poll = Some FREESPACE_SUCCESS /\
  events poll =
    [EvReadResult (Some 10) (Some 110) false (IoTrue payload);
     EvReceiveCallback 700 1 (Some payload) 2 9 FREESPACE_SUCCESS;
     EvFdRemoved (Some 110); EvFdRemoved (Some 111);
     EvCancelIo (Some 10); EvCancelIo (Some 11)] /\
  pending_after poll = [false; false].
Proof. vm_compute. repeat split. Qed.

(** ** Counterexamples to the claims restated above *)

(** C8 as stated fails: on a device that is not opened, [freespace_flush]
    does not fail; it calls [CancelIo] on the channel and returns SUCCESS. *)
Lemma C8_flush_on_closed_device_succeeds :
  isOpened_ closed_device = false /\
  returned (freespace_flush 1 (quiet_os closed_device)) = Some FREESPACE_SUCCESS /\
  events (freespace_flush 1 (quiet_os closed_device)) = [EvCancelIo None].
Proof. vm_compute. repeat split. Qed.

(** C9 as stated fails: a write that fails with the disconnect error makes
    [freespace_send] return UNEXPECTED, not NOT_FOUND. *)
Lemma C9_disconnect_on_write_is_UNEXPECTED :
  let st := send_world [IoFalse ERROR_DEVICE_NOT_CONNECTED] [] [] in
  returned (sync_send st) = Some FREESPACE_ERROR_UNEXPECTED /\
  returned (sync_send st) <> Some FREESPACE_ERROR_NOT_FOUND.
Proof. vm_compute. split; [reflexivity | discriminate]. Qed.

(** ** The theorems at concrete inputs *)

(** C2 at the device with channels of output lengths 7 and 31. *)
Lemma C2_witness :
  send_ready (quiet_os device_7_31) 1 0 (free_slot 50) /\
  exists code st' s' sel,
    prepareSend 40 1 ten_bytes 10 (quiet_os device_7_31)
      = Done (code, Some 0%nat) st' /\
    send_ (device st') !! 0%nat = Some s' /\
    interface_ s' = Some sel /\
    (sel < 2)%nat /\
    out_len device_7_31 0 <= out_len device_7_31 sel /\
    out_len device_7_31 1 <= out_len device_7_31 sel.
Proof.
  assert (H : send_ready (quiet_os device_7_31) 1 0 (free_slot 50))
    by (repeat split; reflexivity).
  split; [exact H|].
  destruct (proj1 (C2_prepareSend_selects_longest_output 40)
              (quiet_os device_7_31) 1 0%nat (free_slot 50) ten_bytes 10 H
              ltac:(simpl; lia) ltac:(simpl; lia) ltac:(simpl; lia))
    as (code & st' & s' & sel & Hp & Hs & Hi & Hlt & _ & Hmost & _).
  exists code, st', s', sel.
  repeat split; try assumption; apply Hmost; simpl; lia.
Defined.

(** C3 at a ten-byte synchronous send on the same device: 21 zeros follow
    the ten bytes. *)
Lemma C3_witness :
  send_ready (quiet_os device_7_31) 1 0 (free_slot 50) /\
  exists code st',
    freespace_send 40 1 ten_bytes 10 (quiet_os device_7_31) = Done code st' /\
    writes_of (trace st') =
      [EvWriteFile (Some 11) (ten_bytes ++ replicate 21 x00) 31
                   (IoFalse ERROR_IO_PENDING)].
Proof.
  assert (H : send_ready (quiet_os device_7_31) 1 0 (free_slot 50))
    by (repeat split; reflexivity).
  split; [exact H|].
  exact (proj1 (proj2
    (C3_write_is_zero_padded_report 40 (quiet_os device_7_31) 1 0%nat
       (free_slot 50) ten_bytes 10 1000 (Some 77) 5 H
       ltac:(simpl; lia) ltac:(simpl; lia) ltac:(simpl; lia) ltac:(simpl; lia)))).
Defined.

(** C6 at a device whose two slots are both in flight. *)
Lemma C6_witness :
  Forall (fun s => in_use s = true) (send_ (device (quiet_os device_busy))) /\
  prepareSend 40 1 ten_bytes 10 (quiet_os device_busy)
    = Done (FREESPACE_ERROR_BUSY, None) (quiet_os device_busy).
Proof.
  assert (H : Forall (fun s => in_use s = true) (send_ (device (quiet_os device_busy))))
    by (repeat constructor).
  split; [exact H|].
  apply (proj2 (proj2 (proj2 (C6_slot_pool_is_bounded_first_fit_busy 40))));
    [reflexivity | reflexivity | exact H].
Defined.

(** C8 at a device that was never opened. *)
Lemma C8_witness :
  isOpened_ (device (quiet_os closed_device)) = false /\
  freespace_send 40 1 ten_bytes 10 (quiet_os closed_device)
    = Done FREESPACE_ERROR_IO (quiet_os closed_device) /\
  freespace_sendAsync 40 1 ten_bytes 10 1000 (Some 77) 5 (quiet_os closed_device)
    = Done FREESPACE_ERROR_IO (quiet_os closed_device).
Proof.
  split; [reflexivity|].
  exact (proj2 (C8_closed_device_refuses_sends 40 (quiet_os closed_device) 1
                  ten_bytes 10 1000 (Some 77) 5 eq_refl)).
Defined.

(** * Further properties of the engine *)

(** ** Loops over the channel table *)

Lemma map_first_0 {A} (f : A -> A) (l : list A) : map_first f 0 l = l.
Proof. unfold map_first. rewrite take_0, drop_0. reflexivity. Qed.

Lemma length_map_first {A} (f : A -> A) n (l : list A) :
  length (map_first f n l) = length l.
Proof.
  unfold map_first. rewrite length_app, length_map, length_take, length_drop. lia.
Qed.

Lemma map_first_lookup_ge {A} (f : A -> A) n j (l : list A) :
  (n <= j)%nat -> map_first f n l !! j = l !! j.
Proof.
  intros Hle. unfold map_first.
  destruct (decide (n <= length l)%nat) as [Hn|Hn].
  - rewrite lookup_app_r by (rewrite length_map, length_take; lia).
    rewrite length_map, length_take, lookup_drop. f_equal. lia.
  - rewrite take_ge, drop_ge by lia. rewrite app_nil_r.
    rewrite !lookup_ge_None_2; [reflexivity | lia | rewrite length_map; lia].
Qed.


Lemma map_first_step {A} (f : A -> A) i (l : list A) x :
  l !! i = Some x ->
  <[i := f x]> (map_first f i l) = map_first f (S i) l.
Proof.
  intros Hx. pose proof (lookup_lt_Some _ _ _ Hx) as Hlt.
  unfold map_first.
  rewrite (take_S_r _ _ _ Hx), map_app, <- app_assoc. simpl.
  rewrite (drop_S _ _ _ Hx).
  replace i with (length (map f (take i l)) + 0)%nat at 1
    by (rewrite length_map, length_take; lia).
  rewrite insert_app_r. reflexivity.
Qed.

Lemma map_first_all {A} (f : A -> A) n (l : list A) :
  (length l <= n)%nat -> map_first f n l = map f l.
Proof.
  intros H. unfold map_first. rewrite take_ge, drop_ge by lia.
  apply app_nil_r.
Qed.

(** A loop whose every round returns and takes the invariant from its index
    to the next returns and takes it from the first index to the last. *)
Lemma for_each_inv (I : nat -> State -> Prop) (body : nat -> M unit) n :
  forall lo st,
    I lo st ->
    (forall i s, (lo <= i < lo + n)%nat -> I i s ->
                 exists s', body i s = Done tt s' /\ I (S i) s') ->
    exists st', for_each lo n body st = Done tt st' /\ I (lo + n)%nat st'.
Proof.
  induction n as [|n IH]; intros lo st HI Hb; simpl.
  - exists st. split; [reflexivity|]. rewrite Nat.add_0_r. exact HI.
  - destruct (Hb lo st ltac:(lia) HI) as (s1 & E & H1).
    unfold bind. rewrite E.
    destruct (IH (S lo) s1 H1) as (st' & E' & H').
    { intros i s Hi. apply Hb. lia. }
    exists st'. split; [exact E'|].
    replace (lo + S n)%nat with (S lo + n)%nat by lia. exact H'.
Qed.

Lemma set_readStatus_idle s : readStatus_ s = false -> set_readStatus_ false s = s.
Proof. destruct s. simpl. intros ->. reflexivity. Qed.

Lemma sub_at_with_handles hs st i x :
  hs !! i = Some x -> sub_at (device (with_handles hs st)) i = x.
Proof. intros H. unfold sub_at. simpl. rewrite H. reflexivity. Qed.

Lemma with_same st :
  with_trace (trace st) (with_handles (handles_ (device st)) st) = st.
Proof. destruct st as [[] ? ? ? ? ? ? ? ? ?]. reflexivity. Qed.

(** The state in which the first [i] channels have gone through a loop that
    rewrites each channel with [f] and emits [ev] of it. *)
Lemma swept_0 f ev st :
  with_trace (trace st ++ flat_map ev (take 0 (handles_ (device st))))
             (with_handles (map_first f 0 (handles_ (device st))) st) = st.
Proof. rewrite take_0, map_first_0. simpl. rewrite app_nil_r. apply with_same. Qed.

(** ** Flush and the end of asynchronous receiving *)

(** A sweep over the channel table.  When every round on channel [i],
    holding [x], emits [ev x] and leaves [f x] in the channel, the loop over
    the first [n] channels emits [ev] of each in table order and leaves [f]
    of each. *)
Lemma sweep (f : FreespaceSubStruct -> FreespaceSubStruct)
    (ev : FreespaceSubStruct -> list Event) (body : nat -> M unit) st n :
  (n <= length (handles_ (device st)))%nat ->
  (forall i x tr hs, hs !! i = Some x ->
     body i (with_trace tr (with_handles hs st))
     = Done tt (with_trace (tr ++ ev x) (with_handles (<[i := f x]> hs) st))) ->
  for_each 0 n body st
  = Done tt (with_trace (trace st ++ flat_map ev (take n (handles_ (device st))))
               (with_handles (map_first f n (handles_ (device st))) st)).
Proof.
  intros Hn Hbody.
  set (hs := handles_ (device st)) in *.
  destruct (for_each_inv
              (fun i s => s = with_trace (trace st ++ flat_map ev (take i hs))
                                (with_handles (map_first f i hs) st))
              body n 0%nat st) as (st' & E & H').
  - symmetry. apply swept_0.
  - intros i s Hi ->.
    destruct (lookup_lt_is_Some_2 hs i ltac:(lia)) as [x Hx].
    eexists. split.
    + apply (Hbody i x). rewrite map_first_lookup_ge by lia. exact Hx.
    + rewrite (map_first_step f i hs x Hx).
      rewrite (take_S_r hs i x Hx), flat_map_app. simpl.
      rewrite app_nil_r, <- app_assoc. reflexivity.
  - rewrite E, H'. reflexivity.
Qed.

Lemma sub_at_lookup d i x : handles_ d !! i = Some x -> sub_at d i = x.
Proof. intros H. unfold sub_at. rewrite H. reflexivity. Qed.

Lemma flush_round i x s :
  handles_ (device s) !! i = Some x ->
  (s0 <- getSub i ;; CancelIo (handle_ s0) ;;; modifySub i (set_readStatus_ false)) s
  = Done tt (with_trace (trace s ++ [EvCancelIo (handle_ x)])
               (with_handles (<[i := set_readStatus_ false x]> (handles_ (device s))) s)).
Proof.
  intros Hx. run. rewrite (sub_at_lookup _ _ _ Hx). reflexivity.
Qed.

Lemma terminate_round i x s :
  handles_ (device s) !! i = Some x ->
  (s0 <- getSub i ;;
   if readStatus_ s0
   then CancelIo (handle_ s0) ;;; modifySub i (set_readStatus_ false)
   else ret tt) s
  = Done tt (with_trace
               (trace s ++ (if readStatus_ x then [EvCancelIo (handle_ x)] else []))
               (with_handles (<[i := set_readStatus_ false x]> (handles_ (device s))) s)).
Proof.
  intros Hx. run. rewrite (sub_at_lookup _ _ _ Hx).
  destruct (readStatus_ x) eqn:Hp; simpl.
  - rewrite (sub_at_lookup _ _ _ Hx). reflexivity.
  - rewrite set_readStatus_idle by exact Hp.
    rewrite list_insert_id by exact Hx. rewrite app_nil_r.
    symmetry. f_equal. apply with_same.
Qed.

Lemma attached_all_idle d :
  table_ok d ->
  take (handleCount_ d) (all_idle d) = map (set_readStatus_ false) (attached d) /\
  Forall (fun s => readStatus_ s = false) (take (handleCount_ d) (all_idle d)).
Proof.
  intros Hok. unfold all_idle, map_first, attached.
  assert (E : take (handleCount_ d)
                (map (set_readStatus_ false) (take (handleCount_ d) (handles_ d))
                 ++ drop (handleCount_ d) (handles_ d))
              = map (set_readStatus_ false) (take (handleCount_ d) (handles_ d))).
  { rewrite take_app_le by (rewrite length_map, length_take; unfold table_ok in Hok; lia).
    apply take_ge. rewrite length_map, length_take. lia. }
  rewrite E. split; [reflexivity|].
  apply List.Forall_forall. intros s Hs.
  apply List.in_map_iff in Hs as (x & <- & _). reflexivity.
Qed.

(** [freespace_flush] on a known device, opened or not: it returns SUCCESS,
    calls [CancelIo] once on every attached channel, in table order, whether
    a read is pending on it or not, and leaves every attached channel
    without a pending read; nothing else of the state changes. *)
Theorem flush_cancels_every_channel st :
  table_ok (device st) ->
  freespace_flush (id_ (device st)) st
  = Done FREESPACE_SUCCESS
      (with_trace (trace st ++ flat_map cancel_of (attached (device st)))
                  (with_handles (all_idle (device st)) st)) /\
  Forall (fun s => readStatus_ s = false)
         (take (handleCount_ (device st)) (all_idle (device st))).
Proof.
  intros Hok. split; [|apply attached_all_idle, Hok].
  unfold freespace_flush. unfold bind at 1.
  unfold freespace_private_getDeviceById, gets at 1.
  rewrite bool_decide_eq_true_2 by reflexivity. simpl.
  unfold bind at 1, gets at 1. unfold bind at 1.
  rewrite (sweep (set_readStatus_ false) cancel_of); [reflexivity | exact Hok |].
  intros i x tr hs Hx.
  exact (flush_round i x (with_trace tr (with_handles hs st)) Hx).
Qed.

(** [terminateAsyncReceives]: [CancelIo] on exactly the channels with a
    pending read, in table order, and no attached channel is left pending. *)
Lemma terminate_cancels_pending st :
  table_ok (device st) ->
  terminateAsyncReceives st
  = Done FREESPACE_SUCCESS
      (with_trace (trace st ++ flat_map cancel_if_pending (attached (device st)))
                  (with_handles (all_idle (device st)) st)).
Proof.
  intros Hok. unfold terminateAsyncReceives.
  unfold bind at 1, gets at 1. unfold bind at 1.
  rewrite (sweep (set_readStatus_ false) cancel_if_pending); [reflexivity | exact Hok |].
  intros i x tr hs Hx.
  exact (terminate_round i x (with_trace tr (with_handles hs st)) Hx).
Qed.

(** ** Registering and unregistering the receive callback *)

Lemma map_first_id {A} n (l : list A) : map_first (fun x => x) n l = l.
Proof. unfold map_first. rewrite map_id. apply take_drop. Qed.

Lemma removeFilter_round hook i x s :
  fdRemovedCallback_ (freespace_instance_ s) = Some hook ->
  handles_ (device s) !! i = Some x ->
  (s0 <- getSub i ;; call_fdRemovedCallback (readOverlapped_hEvent s0)) s
  = Done tt (with_trace (trace s ++ removal_of x)
               (with_handles (<[i := x]> (handles_ (device s))) s)).
Proof.
  intros Hhook Hx. unfold call_fdRemovedCallback. run.
  rewrite Hhook, (sub_at_lookup _ _ _ Hx). simpl.
  rewrite list_insert_id by exact Hx.
  f_equal. unfold with_trace, with_handles, add_event, removal_of. simpl.
  destruct s as [[] ? ? ? ? ? ? ? ? ?]. reflexivity.
Qed.

Lemma fdSyncRemoveFilter_runs hook st :
  fdRemovedCallback_ (freespace_instance_ st) = Some hook ->
  table_ok (device st) ->
  fdSyncRemoveFilter st
  = Done false (with_trace (trace st ++ flat_map removal_of (attached (device st))) st).
Proof.
  intros Hhook Hok. unfold fdSyncRemoveFilter.
  unfold bind at 1, gets at 1. unfold bind at 1.
  rewrite (sweep (fun x => x) removal_of); [|exact Hok|].
  - simpl. rewrite map_first_id. f_equal.
    destruct st as [[] ? ? ? ? ? ? ? ? ?]. reflexivity.
  - intros i x tr hs Hx.
    exact (removeFilter_round hook i x (with_trace tr (with_handles hs st)) Hhook Hx).
Qed.

(** Unregistering the receive callback of an opened device, with the
    removed hook of the bridge installed: the callback and the cookie are
    cleared (the cookie argument is not stored), the read event of every
    attached channel is reported removed, then the I/O of exactly the
    channels with a pending read is cancelled, and no attached channel is
    left pending; the call returns SUCCESS and issues no read. *)
Theorem unregister_stops_receiving st cb hook cookie :
  isOpened_ (device st) = true ->
  receiveCallback_ (device st) = Some cb ->
  fdRemovedCallback_ (freespace_instance_ st) = Some hook ->
  table_ok (device st) ->
  freespace_setReceiveCallback (id_ (device st)) None cookie st
  = Done FREESPACE_SUCCESS
      (with_trace
         (trace st ++ flat_map removal_of (attached (device st))
                   ++ flat_map cancel_if_pending (attached (device st)))
         (with_handles (all_idle (device st))
            (set_device (set_receive None 0 (device st)) st))).
Proof.
  intros Hop Hcb Hhook Hok.
  unfold freespace_setReceiveCallback, setReceiveCallback_body.
  unfold bind at 1. unfold freespace_private_getDeviceById, gets at 1.
  rewrite bool_decide_eq_true_2 by reflexivity. simpl.
  unfold bind at 1, gets at 1. rewrite Hop, Hcb. simpl.
  unfold bind at 1, modifyDevice at 1.
  set (st1 := set_device (set_receive None 0 (device st)) st).
  unfold bind at 1.
  rewrite (fdSyncRemoveFilter_runs hook st1 Hhook Hok).
  rewrite terminate_cancels_pending by exact Hok.
  simpl. rewrite <- app_assoc. reflexivity.
Qed.

(** The two transitions of [freespace_setReceiveCallback] on an opened
    device call the hooks of the bridge without testing them: with at least
    one attached channel, unregistering without a removed hook and
    registering without an added hook both call through NULL. *)
Theorem callback_transitions_need_the_hooks st :
  isOpened_ (device st) = true ->
  (1 <= handleCount_ (device st))%nat ->
  (forall cb cookie,
     receiveCallback_ (device st) = Some cb ->
     fdRemovedCallback_ (freespace_instance_ st) = None ->
     freespace_setReceiveCallback (id_ (device st)) None cookie st = Fault) /\
  (forall cb cookie,
     receiveCallback_ (device st) = None ->
     fdAddedCallback_ (freespace_instance_ st) = None ->
     freespace_setReceiveCallback (id_ (device st)) (Some cb) cookie st = Fault).
Proof.
  intros Hop Hn.
  destruct (handleCount_ (device st)) as [|n] eqn:Hc; [lia|].
  split; intros cb cookie Hcb Hhook;
    unfold freespace_setReceiveCallback, setReceiveCallback_body,
      fdSyncRemoveFilter, freespace_private_fdSyncAddFilter,
      call_fdRemovedCallback, call_fdAddedCallback; run;
    rewrite bool_decide_eq_true_2 by reflexivity; simpl;
    rewrite Hop, Hcb; simpl.
  - rewrite Hc. simpl. run. rewrite Hhook. reflexivity.
  - rewrite Hop, Hc. simpl. run. rewrite Hhook. reflexivity.
Qed.

(** Every other call of [freespace_setReceiveCallback] only stores: on a
    device that is not opened, and on an opened device when a callback
    replaces a callback or NULL replaces NULL, the callback and the cookie
    are stored, SUCCESS is returned, and nothing else changes: no read is
    issued or cancelled and the bridge is not called. *)
Theorem setReceiveCallback_only_stores st callback cookie :
  isOpened_ (device st) = false \/
  is_Some_bool (receiveCallback_ (device st)) = is_Some_bool callback ->
  freespace_setReceiveCallback (id_ (device st)) callback cookie st
  = Done FREESPACE_SUCCESS (set_device (set_receive callback cookie (device st)) st).
Proof.
  intros H.
  unfold freespace_setReceiveCallback, setReceiveCallback_body. run.
  rewrite bool_decide_eq_true_2 by reflexivity. simpl.
  destruct H as [Hcl|Hsame].
  - rewrite Hcl. reflexivity.
  - rewrite Hsame.
    destruct (isOpened_ (device st)), (is_Some_bool callback); reflexivity.
Qed.

(** ** The rearm pass *)

Lemma for_acc_inv {Acc X} (I : nat -> Acc -> State -> Prop)
    (body : nat -> Acc -> M (Acc + X)) n :
  forall lo acc st,
    I lo acc st ->
    (forall i a s, (lo <= i < lo + n)%nat -> I i a s ->
                   exists a' s', body i a s = Done (inl a') s' /\ I (S i) a' s') ->
    exists a' st', for_acc lo n body acc st = Done (inl a') st' /\
                   I (lo + n)%nat a' st'.
Proof.
  induction n as [|n IH]; intros lo acc st HI Hb; simpl.
  - exists acc, st. split; [reflexivity|]. rewrite Nat.add_0_r. exact HI.
  - destruct (Hb lo acc st ltac:(lia) HI) as (a1 & s1 & E & H1).
    unfold bind. rewrite E.
    destruct (IH (S lo) a1 s1 H1) as (a' & st' & E' & H').
    { intros i a s Hi. apply Hb. lia. }
    exists a', st'. split; [exact E'|].
    replace (lo + S n)%nat with (S lo + n)%nat by lia. exact H'.
Qed.

Lemma set_readStatus_pending s : readStatus_ s = true -> set_readStatus_ true s = s.
Proof. destruct s. simpl. intros ->. reflexivity. Qed.

Lemma lookup_attached d i :
  table_ok d -> (i < handleCount_ d)%nat ->
  exists x, handles_ d !! i = Some x /\ attached d !! i = Some x.
Proof.
  intros Hok Hi. unfold table_ok in Hok.
  destruct (lookup_lt_is_Some_2 (handles_ d) i ltac:(lia)) as [x Hx].
  exists x. split; [exact Hx|]. unfold attached.
  rewrite lookup_take_lt by lia. exact Hx.
Qed.

Lemma state_eta st :
  mkState (device st) (freespace_instance_ st) (lastError st) (q_CreateEvent st)
          (q_WriteFile st) (q_ReadFile st) (q_SendResult st) (q_ReadResult st)
          (q_Wait st) (trace st) = st.
Proof. destruct st. reflexivity. Qed.

Lemma device_eta d : set_handles_ (handles_ d) d = d.
Proof. destruct d. reflexivity. Qed.

(** The loop of the rearm pass over channels that all have a read pending
    leaves the state as it is. *)
Lemma rearm_loop_idle st :
  table_ok (device st) ->
  Forall (fun s => readStatus_ s = true) (attached (device st)) ->
  for_acc 0 (handleCount_ (device st)) rearm_channel FREESPACE_SUCCESS st
  = Done (inl FREESPACE_SUCCESS) st.
Proof.
  intros Hok Hall.
  destruct (for_acc_inv (X := rc)
              (fun _ a s => a = FREESPACE_SUCCESS /\ s = st)
              rearm_channel (handleCount_ (device st)) 0%nat FREESPACE_SUCCESS st)
    as (a' & st' & E & -> & ->).
  - split; reflexivity.
  - intros i a s Hi (-> & ->).
    destruct (lookup_attached _ i Hok ltac:(lia)) as (x & Hx & Hax).
    exists FREESPACE_SUCCESS, st. split; [|split; reflexivity].
    unfold rearm_channel. run. rewrite (sub_at_lookup _ _ _ Hx).
    rewrite (proj1 (Forall_lookup _ _) Hall i x Hax). reflexivity.
  - exact E.
Qed.

(** The rearm pass has nothing to do, and does nothing, on a device that is
    not opened, on a device without receive callback, and on a device whose
    attached channels all have a read pending: it returns SUCCESS and the
    state is as before.  A channel never gets a second read while one is
    pending. *)
Theorem rearm_pass_idempotent st :
  isOpened_ (device st) = false \/
  receiveCallback_ (device st) = None \/
  (table_ok (device st) /\
   Forall (fun s => readStatus_ s = true) (attached (device st))) ->
  initiateAsyncReceives st = Done FREESPACE_SUCCESS st.
Proof.
  intros H. unfold initiateAsyncReceives. unfold bind at 1, gets at 1.
  destruct (isOpened_ (device st)) eqn:Hop; [|reflexivity].
  destruct (receiveCallback_ (device st)) as [cb|] eqn:Hcb; [|reflexivity].
  simpl.
  destruct H as [H|[H|[Hok Hall]]]; [discriminate.. |].
  unfold bind. rewrite (rearm_loop_idle st Hok Hall). reflexivity.
Qed.

(** One round of the rearm pass when the read goes in flight. *)
Lemma rearm_channel_in_flight i x a s :
  handles_ (device s) !! i = Some x ->
  reads_go_in_flight s ->
  exists s',
    rearm_channel i a s = Done (inl a) s' /\
    device s' = set_handles_ (<[i := set_readStatus_ true x]> (handles_ (device s)))
                             (device s) /\
    trace s' = trace s ++ read_if_idle x /\
    freespace_instance_ s' = freespace_instance_ s /\
    reads_go_in_flight s'.
Proof.
  intros Hx Hq. unfold rearm_channel. run. rewrite (sub_at_lookup _ _ _ Hx).
  unfold read_if_idle.
  destruct (readStatus_ x) eqn:Hp; simpl.
  - exists s. split; [reflexivity|].
    rewrite set_readStatus_pending by exact Hp.
    rewrite list_insert_id by exact Hx. rewrite app_nil_r, device_eta.
    repeat split; assumption.
  - unfold ReadFile. run. rewrite ?(sub_at_lookup _ _ _ Hx).
    assert (Hr : default (IoFalse ERROR_IO_PENDING) (head (q_ReadFile s))
                 = IoFalse ERROR_IO_PENDING).
    { unfold reads_go_in_flight in Hq.
      destruct (q_ReadFile s) as [|r q]; [reflexivity|].
      inversion Hq; subst. reflexivity. }
    rewrite Hr. simpl. rewrite ?(sub_at_lookup _ _ _ Hx).
    eexists. split; [reflexivity|]. simpl.
    repeat split.
    unfold reads_go_in_flight in *. simpl.
    destruct (q_ReadFile s) as [|r q]; [constructor|].
    inversion Hq; subst. assumption.
Qed.

Lemma attached_after_map_first (f : FreespaceSubStruct -> FreespaceSubStruct) d :
  table_ok d ->
  take (handleCount_ d) (map_first f (handleCount_ d) (handles_ d))
  = map f (attached d).
Proof.
  intros Hok. unfold map_first, attached, table_ok in *.
  rewrite take_app_le by (rewrite length_map, length_take; lia).
  apply take_ge. rewrite length_map, length_take. lia.
Qed.

(** The loop of the rearm pass when the OS leaves every read in flight. *)
Lemma rearm_loop_arms st :
  table_ok (device st) ->
  reads_go_in_flight st ->
  exists st',
    for_acc 0 (handleCount_ (device st)) rearm_channel FREESPACE_SUCCESS st
      = Done (inl FREESPACE_SUCCESS) st' /\
    device st' = set_handles_ (all_armed (device st)) (device st) /\
    trace st' = trace st ++ flat_map read_if_idle (attached (device st)) /\
    freespace_instance_ st' = freespace_instance_ st.
Proof.
  intros Hok Hq.
  pose proof Hok as Hok'. unfold table_ok in Hok'.
  destruct (for_acc_inv (X := rc)
              (fun i a s =>
                 a = FREESPACE_SUCCESS /\
                 device s = set_handles_
                              (map_first (set_readStatus_ true) i (handles_ (device st)))
                              (device st) /\
                 trace s = trace st ++ flat_map read_if_idle (take i (handles_ (device st))) /\
                 freespace_instance_ s = freespace_instance_ st /\
                 reads_go_in_flight s)
              rearm_channel (handleCount_ (device st)) 0%nat FREESPACE_SUCCESS st)
    as (a' & st' & E & -> & Hdev & Htr & Hinst & _).
  - split; [reflexivity|]. rewrite map_first_0, take_0. simpl.
    rewrite app_nil_r, device_eta. repeat split; assumption.
  - intros i a s Hi (-> & Hd & Ht & Hin & Hqs).
    destruct (lookup_lt_is_Some_2 (handles_ (device st)) i ltac:(lia)) as [x Hx].
    assert (Hsx : handles_ (device s) !! i = Some x).
    { rewrite Hd. simpl. rewrite map_first_lookup_ge by lia. exact Hx. }
    destruct (rearm_channel_in_flight i x FREESPACE_SUCCESS s Hsx Hqs)
      as (s' & E & Hd' & Ht' & Hin' & Hq').
    exists FREESPACE_SUCCESS, s'. split; [exact E|].
    split; [reflexivity|]. split; [|split; [|split; [congruence | exact Hq']]].
    + rewrite Hd', Hd. simpl. rewrite (map_first_step _ i _ x Hx). reflexivity.
    + rewrite Ht', Ht, (take_S_r _ i x Hx), flat_map_app. simpl.
      rewrite app_nil_r, <- app_assoc. reflexivity.
  - simpl in *. exists st'. repeat split; assumption.
Qed.

Lemma all_armed_pending d :
  table_ok d ->
  Forall (fun s => readStatus_ s = true) (take (handleCount_ d) (all_armed d)).
Proof.
  intros Hok. unfold all_armed. rewrite attached_after_map_first by exact Hok.
  apply List.Forall_forall. intros s Hs.
  apply List.in_map_iff in Hs as (x & <- & _). reflexivity.
Qed.

(** The rearm pass on an opened device with a receive callback, when the OS
    leaves every read in flight: exactly one [ReadFile] is issued on every
    attached channel without a pending read, in table order, none on the
    others; afterwards every attached channel has a read pending; the
    callback is not called and SUCCESS is returned. *)
Theorem rearm_pass_arms_every_channel st cb :
  isOpened_ (device st) = true ->
  receiveCallback_ (device st) = Some cb ->
  table_ok (device st) ->
  reads_go_in_flight st ->
  exists st',
    initiateAsyncReceives st = Done FREESPACE_SUCCESS st' /\
    device st' = set_handles_ (all_armed (device st)) (device st) /\
    trace st' = trace st ++ flat_map read_if_idle (attached (device st)) /\
    freespace_instance_ st' = freespace_instance_ st /\
    Forall (fun s => readStatus_ s = true) (attached (device st')).
Proof.
  intros Hop Hcb Hok Hq. unfold initiateAsyncReceives. unfold bind at 1, gets at 1.
  rewrite Hop, Hcb. simpl.
  destruct (rearm_loop_arms st Hok Hq) as (st' & E & Hdev & Htr & Hinst).
  exists st'. unfold bind. rewrite E.
  split; [reflexivity|]. split; [exact Hdev|]. split; [exact Htr|].
  split; [exact Hinst|].
  rewrite Hdev. exact (all_armed_pending (device st) Hok).
Qed.

Lemma addFilter_round hook i x s :
  fdAddedCallback_ (freespace_instance_ s) = Some hook ->
  handles_ (device s) !! i = Some x ->
  (s0 <- getSub i ;; call_fdAddedCallback (readOverlapped_hEvent s0)) s
  = Done tt (with_trace (trace s ++ addition_of x)
               (with_handles (<[i := x]> (handles_ (device s))) s)).
Proof.
  intros Hhook Hx. unfold call_fdAddedCallback. run.
  rewrite Hhook, (sub_at_lookup _ _ _ Hx). simpl.
  rewrite list_insert_id by exact Hx.
  f_equal. unfold with_trace, with_handles, add_event, addition_of. simpl.
  destruct s as [[] ? ? ? ? ? ? ? ? ?]. reflexivity.
Qed.

Lemma fdSyncAddFilter_runs hook cb st :
  isOpened_ (device st) = true ->
  receiveCallback_ (device st) = Some cb ->
  fdAddedCallback_ (freespace_instance_ st) = Some hook ->
  table_ok (device st) ->
  freespace_private_fdSyncAddFilter st
  = Done false (with_trace (trace st ++ flat_map addition_of (attached (device st))) st).
Proof.
  intros Hop Hcb Hhook Hok. unfold freespace_private_fdSyncAddFilter.
  unfold bind at 1, gets at 1. rewrite Hop, Hcb. simpl. unfold bind at 1.
  rewrite (sweep (fun x => x) addition_of); [|exact Hok|].
  - simpl. rewrite map_first_id. f_equal.
    destruct st as [[] ? ? ? ? ? ? ? ? ?]. reflexivity.
  - intros i x tr hs Hx.
    exact (addFilter_round hook i x (with_trace tr (with_handles hs st)) Hhook Hx).
Qed.

(** Registering a receive callback on an opened device that has none, with
    the added hook of the bridge installed and an OS that leaves every read
    in flight: the callback and the cookie are stored, the read event of
    every attached channel is reported to the bridge, then one read is
    issued on every attached channel that has none pending; afterwards every
    attached channel has a read pending, and SUCCESS is returned. *)
Theorem register_arms_every_channel st cb hook cookie :
  isOpened_ (device st) = true ->
  receiveCallback_ (device st) = None ->
  fdAddedCallback_ (freespace_instance_ st) = Some hook ->
  table_ok (device st) ->
  reads_go_in_flight st ->
  exists st',
    freespace_setReceiveCallback (id_ (device st)) (Some cb) cookie st
      = Done FREESPACE_SUCCESS st' /\
    device st' = set_handles_ (all_armed (device st))
                   (set_receive (Some cb) cookie (device st)) /\
    trace st' = trace st ++ flat_map addition_of (attached (device st))
                         ++ flat_map read_if_idle (attached (device st)) /\
    Forall (fun s => readStatus_ s = true) (attached (device st')).
Proof.
  intros Hop Hcb Hhook Hok Hq.
  unfold freespace_setReceiveCallback, setReceiveCallback_body.
  unfold bind at 1. unfold freespace_private_getDeviceById, gets at 1.
  rewrite bool_decide_eq_true_2 by reflexivity. simpl.
  unfold bind at 1, gets at 1. rewrite Hop, Hcb. simpl.
  unfold bind at 1, modifyDevice at 1.
  set (st1 := set_device (set_receive (Some cb) cookie (device st)) st).
  unfold bind at 1.
  rewrite (fdSyncAddFilter_runs hook cb st1 Hop eq_refl Hhook Hok).
  set (st2 := with_trace _ st1).
  unfold initiateAsyncReceives. unfold bind at 1, gets at 1.
  change (isOpened_ (device st2)) with (isOpened_ (device st)).
  rewrite Hop. simpl.
  destruct (rearm_loop_arms st2 Hok Hq) as (st' & E & Hdev & Htr & _).
  exists st'. unfold bind.
  change (handleCount_ (device st2)) with (handleCount_ (device st)) in E.
  rewrite E.
  split; [reflexivity|]. split; [exact Hdev|]. split.
  - rewrite Htr. simpl. rewrite <- app_assoc. reflexivity.
  - rewrite Hdev. exact (all_armed_pending (device st) Hok).
Qed.

(** ** Delivery of reads that complete at once *)

Lemma payload_of_readData p x : payload_of (set_readData p x) = p.
Proof.
  unfold payload_of. simpl. rewrite Nat2Z.id. apply take_app_length.
Qed.

Lemma received_keeps ps : forall x,
  handle_ (received ps x) = handle_ x /\
  info_ (received ps x) = info_ x /\
  readStatus_ (received ps x) = readStatus_ x.
Proof.
  induction ps as [|p ps IH]; intros x; simpl; [auto|].
  destruct (IH (set_readData p x)) as (H1 & H2 & H3). auto.
Qed.

Lemma drain_delivers cb i e rest ps : forall x s fuel,
  handles_ (device s) !! i = Some x ->
  receiveCallback_ (device s) = Some cb ->
  stays_registered cb ->
  q_ReadFile s = map IoTrue ps ++ IoFalse e :: rest ->
  (length ps < fuel)%nat ->
  exists s',
    drain_reads fuel i s = Done None s' /\
    device s' = set_handles_ (<[i := received ps x]> (handles_ (device s))) (device s) /\
    trace s' = trace s ++ flat_map (delivery (device s) cb x) ps
                       ++ [EvReadFile (handle_ x) (inputReportByteLength_ (info_ x))
                                      (IoFalse e)] /\
    q_ReadFile s' = rest /\
    lastError s' = e.
Proof.
  induction ps as [|p ps IH]; intros x s fuel Hx Hcb Hquiet Hq Hfuel;
    (destruct fuel as [|fuel]; [simpl in Hfuel; lia|]); simpl;
    unfold ReadFile; run; rewrite (sub_at_lookup _ _ _ Hx), Hq; simpl.
  - eexists. split; [reflexivity|]. simpl.
    rewrite list_insert_id by exact Hx. rewrite device_eta. auto.
  - rewrite Hcb. simpl. unfold call_receiveCallback. run. rewrite Hcb. simpl.
    rewrite Hquiet. simpl.
    rewrite (sub_at_lookup _ _ _ Hx).
    rewrite !sub_at_insert by (eapply lookup_lt_Some; exact Hx).
    rewrite payload_of_readData. simpl.
    match goal with
    | |- context [drain_reads fuel i ?s1] =>
        destruct (IH (set_readData p x) s1 fuel) as (s' & E & Hd & Ht & Hq' & He)
    end.
    + simpl. apply (lookup_insert_same _ _ _ _ Hx).
    + exact Hcb.
    + exact Hquiet.
    + reflexivity.
    + simpl in Hfuel. lia.
    + exists s'. split; [exact E|].
      split; [|split; [|split; assumption]].
      * rewrite Hd. simpl. rewrite list_insert_insert_eq. reflexivity.
      * rewrite Ht. simpl. rewrite <- !app_assoc. reflexivity.
Qed.

(** The rearm pass on a channel without a pending read, with a callback
    that stays registered: every read that completes at once is delivered
    to the callback before the next read is issued, so the payloads reach
    the callback once each and in the order in which the OS gave them; the
    first read that stays in flight ends the round with the channel marked
    pending and the result of the pass so far unchanged. *)
Theorem rearm_delivers_in_order st cb i x a ps rest :
  handles_ (device st) !! i = Some x ->
  readStatus_ x = false ->
  receiveCallback_ (device st) = Some cb ->
  stays_registered cb ->
  q_ReadFile st = map IoTrue ps ++ IoFalse ERROR_IO_PENDING :: rest ->
  exists st',
    rearm_channel i a st = Done (inl a) st' /\
    device st' = set_handles_
                   (<[i := set_readStatus_ true (received ps x)]> (handles_ (device st)))
                   (device st) /\
    trace st' = trace st ++ flat_map (delivery (device st) cb x) ps
                         ++ [EvReadFile (handle_ x) (inputReportByteLength_ (info_ x))
                                        (IoFalse ERROR_IO_PENDING)] /\
    q_ReadFile st' = rest.
Proof.
  intros Hx Hidle Hcb Hquiet Hq.
  destruct (drain_delivers cb i ERROR_IO_PENDING rest ps x st
              (S (length (q_ReadFile st))) Hx Hcb Hquiet Hq)
    as (s1 & E & Hd & Ht & Hq1 & He).
  { rewrite Hq, length_app, length_map. lia. }
  unfold rearm_channel. unfold bind at 1, getSub at 1, gets at 1.
  rewrite (sub_at_lookup _ _ _ Hx), Hidle.
  unfold bind at 1, gets at 1. unfold bind at 1. rewrite E.
  run. rewrite He. simpl.
  eexists. split; [reflexivity|]. simpl.
  split; [|split; assumption].
  rewrite Hd. simpl. unfold sub_at. simpl.
  rewrite (lookup_insert_same _ _ _ _ Hx). simpl.
  rewrite list_insert_insert_eq. reflexivity.
Qed.

(** ** A perform pass that finds nothing complete *)





(** ** Sends and the occupancy of the pool *)

#[local] Instance only_slot_preorder send : PreOrder (only_slot send).
Proof.
  split.
  - intros st j _. reflexivity.
  - intros a b c Hab Hbc j Hj. rewrite (Hbc j Hj). apply Hab, Hj.
Qed.

Lemma only_modifySend send f : respects (only_slot send) (modifySend send f).
Proof.
  intros st a st' H. unfold modifySend in H.
  destruct (send_ (device st) !! send); [|discriminate].
  injection H as _ <-. intros j Hj. simpl.
  apply list_lookup_insert_ne. congruence.
Qed.

Lemma only_getSend send i : respects (only_slot send) (getSend i).
Proof.
  intros st a st' H. unfold getSend in H.
  destruct (send_ (device st) !! i); [|discriminate].
  injection H as _ <-. reflexivity.
Qed.

Ltac only_prim :=
  first
    [ apply only_modifySend | apply only_getSend
    | intros ? ? ? E; injection E as _ <-; intros ? ?; reflexivity ].

Lemma only_activate send : respects (only_slot send) (freespace_send_activate send).
Proof.
  unfold freespace_send_activate, finalizeSendStruct, getInterface.
  respects_with only_prim.
Qed.

Lemma only_await_send send : respects (only_slot send) (await_send send).
Proof.
  unfold await_send, finalizeSendStruct, getInterface.
  respects_with only_prim.
Qed.

(** Two pools of the same size that agree on every slot but one, which is
    free in both, are occupied alike. *)
Lemma same_occupancy send (l l' : list FreespaceSendStruct) s s' :
  length l' = length l ->
  (forall j, j <> send -> l' !! j = l !! j) ->
  l !! send = Some s -> l' !! send = Some s' ->
  interface_ s = None -> interface_ s' = None ->
  map in_use l' = map in_use l.
Proof.
  intros Hlen Hother Hs Hs' Hf Hf'.
  apply list_eq. intros j. rewrite !list_lookup_fmap.
  destruct (decide (j = send)) as [->|Hj].
  - rewrite Hs, Hs'. simpl. unfold in_use. rewrite Hf, Hf'. reflexivity.
  - rewrite (Hother j Hj). reflexivity.
Qed.

Section SendOccupancy.

Variable MAX : Z.

(** An accepted synchronous send always gives its slot back: whatever
    the write, the wait and the completion query answer, [freespace_send]
    returns, and in the state it returns in the pool is occupied exactly as
    before the call and every other slot is untouched. *)
Theorem sync_send_returns_its_slot st id send sl report len :
  send_ready st id send sl ->
  let out := out_len (device st) (select_output (device st)) in
  0 <= len <= out -> out <= MAX ->
  len <= Z.of_nat (length report) ->
  MAX <= Z.of_nat (length (report_ sl)) ->
  exists code st',
    freespace_send MAX id report len st = Done code st' /\
    map in_use (send_ (device st')) = map in_use (send_ (device st)) /\
    only_slot send st st'.
Proof.
  intros Hready out Hlen Hmax Hrep Hbuf.
  pose proof Hready as (_ & _ & Hnext & Hsl & _).
  assert (Hfree : interface_ sl = None).
  { unfold getNextSendBuffer in Hnext.
    destruct (list_find _ (send_ (device st))) as [[i s]|] eqn:Hf; [|discriminate].
    simpl in Hnext. injection Hnext as ->.
    apply list_find_Some in Hf as (Hi & Hs & _). congruence. }
  destruct (prepareSend_accept MAX st id send sl report len Hready Hlen Hmax Hrep Hbuf)
    as (padded & Hprep & _).
  unfold freespace_send. unfold bind at 1. rewrite Hprep. simpl.
  set (s1 := set_rc_ FREESPACE_SUCCESS
               (set_report_ padded (chosen (select_output (device st)) sl))).
  set (st1 := with_slot send s1 st).
  assert (Hs1 : send_ (device st1) !! send = Some s1)
    by apply (lookup_insert_same _ _ _ _ Hsl).
  assert (H01 : only_slot send st st1).
  { intros j Hj. simpl. apply list_lookup_insert_ne. congruence. }
  assert (Hlen1 : length (send_ (device st1)) = length (send_ (device st)))
    by apply length_insert.
  destruct (activate_writes st1 send s1 (select_output (device st)) Hs1 eq_refl)
    as (code & st2 & Hact & _ & Hlen2 & HIO & HnIO & _).
  pose proof (only_activate send st1 code st2 Hact) as H12.
  unfold bind. rewrite Hact.
  destruct (decide (code = FREESPACE_ERROR_IO)) as [->|Hcode].
  - rewrite bool_decide_eq_false_2 by (intros H; apply H; reflexivity).
    destruct (HIO eq_refl) as (Hdev & _).
    assert (Hs2 : send_ (device st2) !! send = Some s1) by (rewrite Hdev; exact Hs1).
    destruct (await_send_runs st2 send s1 (select_output (device st)) Hs2 eq_refl)
      as (code3 & st3 & Haw & _ & Hlen3 & (s3 & Hs3 & Hf3) & _).
    pose proof (only_await_send send st2 code3 st3 Haw) as H23.
    exists code3, st3. split; [exact Haw|].
    assert (H03 : only_slot send st st3)
      by (etransitivity; [exact H01|]; etransitivity; [exact H12|exact H23]).
    split; [|exact H03].
    apply (same_occupancy send _ _ sl s3); try assumption. congruence.
  - rewrite bool_decide_eq_true_2 by exact Hcode.
    destruct (HnIO Hcode) as (s2 & Hs2 & Hf2).
    exists code, st2. split; [reflexivity|].
    assert (H02 : only_slot send st st2) by (etransitivity; [exact H01|exact H12]).
    split; [|exact H02].
    apply (same_occupancy send _ _ sl s2); try assumption. congruence.
Qed.

(** An accepted asynchronous send keeps its slot exactly while the
    write is in flight: [freespace_sendAsync] returns SUCCESS when the write
    completed or was left pending and UNEXPECTED when it failed, the slot is
    in use afterwards exactly when the write was left pending, and then it
    holds the caller's callback, cookie and timeout; every other slot is
    untouched. *)
Theorem async_send_holds_slot_while_in_flight
    st id send sl report len timeoutMs callback cookie :
  send_ready st id send sl ->
  let out := out_len (device st) (select_output (device st)) in
  0 <= len <= out -> out <= MAX ->
  len <= Z.of_nat (length report) ->
  MAX <= Z.of_nat (length (report_ sl)) ->
  exists st' s',
    freespace_sendAsync MAX id report len timeoutMs callback cookie st
      = Done (async_code (next_write st)) st' /\
    send_ (device st') !! send = Some s' /\
    (in_use s' = true <-> next_write st = IoFalse ERROR_IO_PENDING) /\
    (next_write st = IoFalse ERROR_IO_PENDING ->
       callback_ s' = callback /\ cookie_ s' = cookie /\
       timeoutMs_ s' = timeoutMs) /\
    only_slot send st st'.
Proof.
  intros Hready out Hlen Hmax Hrep Hbuf.
  pose proof Hready as (_ & _ & _ & Hsl & _).
  destruct (prepareSend_accept MAX st id send sl report len Hready Hlen Hmax Hrep Hbuf)
    as (padded & Hprep & _).
  unfold freespace_sendAsync. unfold bind at 1. rewrite Hprep. simpl.
  set (s0 := set_rc_ FREESPACE_SUCCESS
               (set_report_ padded (chosen (select_output (device st)) sl))).
  set (s1 := set_async callback cookie timeoutMs s0).
  set (st1 := with_slot send s1 st).
  assert (Hmod : modifySend send (set_async callback cookie timeoutMs)
                   (with_slot send s0 st) = Done tt st1).
  { unfold modifySend. simpl. rewrite (lookup_insert_same _ _ _ _ Hsl).
    unfold st1, with_slot. simpl. rewrite list_insert_insert_eq. reflexivity. }
  unfold bind at 1. rewrite Hmod.
  assert (Hs1 : send_ (device st1) !! send = Some s1)
    by apply (lookup_insert_same _ _ _ _ Hsl).
  assert (H01 : only_slot send st st1).
  { intros j Hj. simpl. apply list_lookup_insert_ne. congruence. }
  destruct (activate_writes st1 send s1 (select_output (device st)) Hs1 eq_refl)
    as (code & st2 & Hact & _ & _ & HIO & HnIO & Hcode).
  pose proof (only_activate send st1 code st2 Hact) as H12.
  assert (H02 : only_slot send st st2) by (etransitivity; [exact H01|exact H12]).
  change (next_write st1) with (next_write st) in *.
  unfold bind. rewrite Hact.
  destruct (next_write st) as [n|e] eqn:Hw.
  - subst code. simpl. destruct (HnIO ltac:(discriminate)) as (s2 & Hs2 & Hf2).
    exists st2, s2. split; [reflexivity|]. split; [exact Hs2|].
    split; [|split; [discriminate|exact H02]].
    unfold in_use. rewrite Hf2. split; discriminate.
  - unfold async_code. destruct (decide (e = ERROR_IO_PENDING)) as [->|He].
    + rewrite bool_decide_eq_false_2 in Hcode by (intros H; apply H; reflexivity).
      subst code. simpl. destruct (HIO eq_refl) as (Hdev & _).
      exists st2, s1. split; [reflexivity|].
      split; [rewrite Hdev; exact Hs1|].
      split; [split; reflexivity|]. split; [|exact H02].
      intros _. repeat split.
    + rewrite bool_decide_eq_true_2 in Hcode by exact He.
      rewrite (bool_decide_eq_false_2 _ He).
      subst code. simpl. destruct (HnIO ltac:(discriminate)) as (s2 & Hs2 & Hf2).
      exists st2, s2. split; [reflexivity|]. split; [exact Hs2|].
      split; [|split; [congruence|exact H02]].
      unfold in_use. rewrite Hf2. split; [discriminate|congruence].
Qed.

End SendOccupancy.

(** A write that fails outright during activation takes the channel's
    pending read with it: [freespace_send_activate] returns UNEXPECTED, the
    write is followed by one [CancelIo] on the channel and by nothing else,
    the pending-read flag of the channel is cleared, the slot is released
    with UNEXPECTED recorded in it, and no send callback is called. *)
Theorem failed_write_cancels_the_channel st send s1 idx x e :
  send_ (device st) !! send = Some s1 ->
  interface_ s1 = Some idx ->
  handles_ (device st) !! idx = Some x ->
  next_write st = IoFalse e ->
  e <> ERROR_IO_PENDING ->
  let out := outputReportByteLength_ (info_ x) in
  exists st',
    freespace_send_activate send st = Done FREESPACE_ERROR_UNEXPECTED st' /\
    trace st' = trace st ++
      [EvWriteFile (handle_ x) (take (Z.to_nat out) (report_ s1)) out (IoFalse e);
       EvCancelIo (handle_ x)] /\
    handles_ (device st') = <[idx := set_readStatus_ false x]> (handles_ (device st)) /\
    send_ (device st') =
      <[send := set_interface_ None (set_rc_ FREESPACE_ERROR_UNEXPECTED s1)]>
        (send_ (device st)).
Proof.
  intros Hs1 Hi Hx Hw He out.
  unfold freespace_send_activate, WriteFile. run.
  rewrite Hs1. simpl. rewrite Hi. simpl. rewrite Hs1.
  fold (next_write st). rewrite Hw. simpl.
  rewrite (bool_decide_eq_true_2 _ He). simpl.
  unfold finalizeSendStruct. run. look Hs1.
  unfold sub_at. rewrite Hx. simpl.
  eexists. split; [reflexivity|]. simpl.
  rewrite <- app_assoc. simpl. repeat split.
Qed.

(** ** Closing a device *)

Lemma with_same_pool st :
  with_trace (trace st) (with_pool (send_ (device st)) st) = st.
Proof. destruct st as [[] ? ? ? ? ? ? ? ? ?]. reflexivity. Qed.

(** The sweep over the whole slot pool, as [sweep] over the channels. *)
Lemma sweep_pool (f : FreespaceSendStruct -> FreespaceSendStruct)
    (ev : FreespaceSendStruct -> list Event) (body : nat -> M unit) st :
  (forall i x tr ss, ss !! i = Some x ->
     body i (with_trace tr (with_pool ss st))
     = Done tt (with_trace (tr ++ ev x) (with_pool (<[i := f x]> ss) st))) ->
  for_each 0 (length (send_ (device st))) body st
  = Done tt (with_trace (trace st ++ flat_map ev (send_ (device st)))
               (with_pool (map f (send_ (device st))) st)).
Proof.
  intros Hbody.
  set (ss := send_ (device st)) in *.
  destruct (for_each_inv
              (fun i s => s = with_trace (trace st ++ flat_map ev (take i ss))
                                (with_pool (map_first f i ss) st))
              body (length ss) 0%nat st) as (st' & E & H').
  - rewrite take_0, map_first_0. simpl. rewrite app_nil_r.
    symmetry. apply with_same_pool.
  - intros i s Hi ->.
    destruct (lookup_lt_is_Some_2 ss i ltac:(lia)) as [x Hx].
    eexists. split.
    + apply (Hbody i x). rewrite map_first_lookup_ge by lia. exact Hx.
    + rewrite (map_first_step f i ss x Hx).
      rewrite (take_S_r ss i x Hx), flat_map_app. simpl.
      rewrite app_nil_r, <- app_assoc. reflexivity.
  - rewrite E, H'. simpl.
    rewrite firstn_all, map_first_all by lia. reflexivity.
Qed.

Lemma bind_run {A B} (m : M A) (k : A -> M B) st a st' :
  m st = Done a st' -> bind m k st = k a st'.
Proof. intros H. unfold bind. rewrite H. reflexivity. Qed.

Lemma getSend_pool i x tr ss st :
  ss !! i = Some x ->
  getSend i (with_trace tr (with_pool ss st))
  = Done x (with_trace tr (with_pool ss st)).
Proof. intros Hx. unfold getSend. simpl. rewrite Hx. reflexivity. Qed.

Lemma modifySend_pool i f x tr ss st :
  ss !! i = Some x ->
  modifySend i f (with_trace tr (with_pool ss st))
  = Done tt (with_trace tr (with_pool (<[i := f x]> ss) st)).
Proof. intros Hx. unfold modifySend. simpl. rewrite Hx. reflexivity. Qed.

Lemma CloseHandle_pool h tr ss st :
  CloseHandle h (with_trace tr (with_pool ss st))
  = Done tt (with_trace (tr ++ [EvCloseHandle h]) (with_pool ss st)).
Proof. reflexivity. Qed.

Lemma fdRemoved_pool ev tr ss st :
  fdRemoved_if_set ev (with_trace tr (with_pool ss st))
  = Done tt (with_trace (tr ++ if removed_hook st then [EvFdRemoved ev] else [])
               (with_pool ss st)).
Proof.
  unfold fdRemoved_if_set, removed_hook, bind, gets, emit, ret. simpl.
  destruct (is_Some_bool (fdRemovedCallback_ (freespace_instance_ st))).
  - reflexivity.
  - rewrite app_nil_r. reflexivity.
Qed.

Lemma finalize_close_pool i x tr ss st :
  ss !! i = Some x ->
  finalizeSendStruct i true (with_trace tr (with_pool ss st))
  = Done (rc_ x)
      (with_trace (tr ++ [EvCloseHandle (overlapped_hEvent x)])
         (with_pool (<[i := released x]> ss) st)).
Proof.
  intros Hx. unfold finalizeSendStruct.
  rewrite (bind_run _ _ _ _ _ (modifySend_pool i _ x tr ss st Hx)).
  rewrite (bind_run _ _ _ tt
             (with_trace (tr ++ [EvCloseHandle (overlapped_hEvent x)])
                (with_pool (<[i := released x]> ss) st))).
  - rewrite (bind_run _ _ _ _ _
               (getSend_pool i _ _ _ st (lookup_insert_same _ _ _ _ Hx))).
    reflexivity.
  - rewrite (bind_run _ _ _ _ _
               (getSend_pool i _ _ _ st (lookup_insert_same _ _ _ _ Hx))).
    rewrite (bind_run _ _ _ _ _ (CloseHandle_pool _ _ _ _)).
    rewrite (modifySend_pool i _ _ _ _ st (lookup_insert_same _ _ _ _ Hx)).
    rewrite list_insert_insert_eq. reflexivity.
Qed.

Lemma close_slot_round st i x tr ss :
  ss !! i = Some x ->
  close_slot i (with_trace tr (with_pool ss st))
  = Done tt (with_trace (tr ++ release_of (removed_hook st) x)
               (with_pool (<[i := released x]> ss) st)).
Proof.
  intros Hx. unfold close_slot, release_of.
  rewrite (bind_run _ _ _ _ _ (getSend_pool i x tr ss st Hx)).
  rewrite (bind_run _ _ _ _ _ (fdRemoved_pool _ _ _ _)).
  rewrite (bind_run _ _ _ _ _ (finalize_close_pool i x _ ss st Hx)).
  unfold ret. rewrite <- app_assoc. reflexivity.
Qed.

Lemma set_handle_none x : handle_ x = None -> set_handle_ None x = x.
Proof. destruct x. simpl. intros ->. reflexivity. Qed.

Lemma getSub_swept i x tr hs st :
  hs !! i = Some x ->
  getSub i (with_trace tr (with_handles hs st))
  = Done x (with_trace tr (with_handles hs st)).
Proof. intros Hx. unfold getSub, gets, sub_at. simpl. rewrite Hx. reflexivity. Qed.

Lemma CloseHandle_swept h tr hs st :
  CloseHandle h (with_trace tr (with_handles hs st))
  = Done tt (with_trace (tr ++ [EvCloseHandle h]) (with_handles hs st)).
Proof. reflexivity. Qed.

Lemma modifySub_swept i f x tr hs st :
  hs !! i = Some x ->
  modifySub i f (with_trace tr (with_handles hs st))
  = Done tt (with_trace tr (with_handles (<[i := f x]> hs) st)).
Proof. intros Hx. unfold modifySub, sub_at. simpl. rewrite Hx. reflexivity. Qed.

Lemma fdRemoved_swept ev tr hs st :
  fdRemoved_if_set ev (with_trace tr (with_handles hs st))
  = Done tt (with_trace (tr ++ if removed_hook st then [EvFdRemoved ev] else [])
               (with_handles hs st)).
Proof.
  unfold fdRemoved_if_set, removed_hook, bind, gets, emit, ret. simpl.
  destruct (is_Some_bool (fdRemovedCallback_ (freespace_instance_ st))).
  - reflexivity.
  - rewrite app_nil_r. reflexivity.
Qed.

Lemma close_channel_round st i x tr hs :
  hs !! i = Some x ->
  close_channel i (with_trace tr (with_handles hs st))
  = Done tt (with_trace (tr ++ detach_of (removed_hook st) x)
               (with_handles (<[i := detached x]> hs) st)).
Proof.
  intros Hx. unfold close_channel, detach_of, detached.
  rewrite (bind_run _ _ _ _ _ (getSub_swept i x tr hs st Hx)).
  destruct (is_Some_bool (handle_ x)) eqn:Hh.
  - rewrite (bind_run _ _ _ tt
               (with_trace (tr ++ [EvCloseHandle (handle_ x)])
                  (with_handles (<[i := set_handle_ None x]> hs) st))).
    2: { rewrite (bind_run _ _ _ _ _ (CloseHandle_swept _ _ _ _)).
         apply modifySub_swept, Hx. }
    rewrite (bind_run _ _ _ _ _ (fdRemoved_swept _ _ _ _)).
    destruct (is_Some_bool (readOverlapped_hEvent x)) eqn:He.
    + rewrite (bind_run _ _ _ _ _
                 (modifySub_swept i _ _ _ _ st (lookup_insert_same _ _ _ _ Hx))).
      rewrite (bind_run _ _ _ _ _ (CloseHandle_swept _ _ _ _)).
      rewrite list_insert_insert_eq.
      rewrite (modifySub_swept i _ _ _ _ st (lookup_insert_same _ _ _ _ Hx)).
      rewrite !list_insert_insert_eq, <- !app_assoc. reflexivity.
    + unfold ret. rewrite <- !app_assoc, app_nil_r. reflexivity.
  - rewrite (bind_run _ _ _ tt (with_trace tr (with_handles hs st))) by reflexivity.
    assert (Hnone : set_handle_ None x = x).
    { destruct x as [[h|] ? ? ? ? ?]; [discriminate|reflexivity]. }
    rewrite (bind_run _ _ _ _ _ (fdRemoved_swept _ _ _ _)).
    destruct (is_Some_bool (readOverlapped_hEvent x)) eqn:He.
    + rewrite (bind_run _ _ _ _ _ (modifySub_swept i _ _ _ _ st Hx)).
      rewrite (bind_run _ _ _ _ _ (CloseHandle_swept _ _ _ _)).
      rewrite (modifySub_swept i _ _ _ _ st (lookup_insert_same _ _ _ _ Hx)).
      rewrite !list_insert_insert_eq, Hnone. simpl. rewrite <- !app_assoc. reflexivity.
    + unfold ret. rewrite Hnone, app_nil_r, (list_insert_id _ _ _ Hx). simpl.
      reflexivity.
Qed.

(** The whole of [freespace_closeDevice] on an opened device. *)
Lemma close_runs st :
  isOpened_ (device st) = true ->
  table_ok (device st) ->
  freespace_closeDevice (id_ (device st)) st
  = Done tt
      (with_trace
         (trace st ++ flat_map (release_of (removed_hook st)) (send_ (device st))
                   ++ flat_map (detach_of (removed_hook st)) (attached (device st)))
         (set_device (closed (device st)) st)).
Proof.
  intros Hop Hok.
  unfold freespace_closeDevice. run.
  rewrite bool_decide_eq_true_2 by reflexivity. simpl. rewrite Hop. simpl.
  rewrite (sweep_pool released (release_of (removed_hook st)) close_slot st)
    by (intros; apply close_slot_round; assumption).
  set (s1 := with_trace _ (with_pool _ st)).
  change (handleCount_ (device st)) with (handleCount_ (device s1)) at 1.
  rewrite (sweep detached (detach_of (removed_hook st)) close_channel s1
                 (handleCount_ (device s1))).
  - unfold s1, with_trace, with_pool, with_handles, closed, attached. simpl.
    rewrite <- app_assoc. reflexivity.
  - exact Hok.
  - intros i x tr hs Hx.
    exact (close_channel_round s1 i x tr hs Hx).
Qed.

(** [freespace_closeDevice] on an opened device: every slot is released and
    its completion event closed, whether a send is in flight on it or not,
    and no send callback is called; the handle and the read event of every
    attached channel are closed and cleared and its pending-read flag
    dropped, without any [CancelIo]; the device is marked not opened; the
    receive callback and its cookie stay as they were.  The bridge is told
    of every event removed when it has installed its hook, the slots first,
    in table order. *)
Theorem close_releases_slots_and_channels st :
  isOpened_ (device st) = true ->
  table_ok (device st) ->
  exists st',
    freespace_closeDevice (id_ (device st)) st = Done tt st' /\
    st' = with_trace
            (trace st ++ flat_map (release_of (removed_hook st)) (send_ (device st))
                      ++ flat_map (detach_of (removed_hook st)) (attached (device st)))
            (set_device (closed (device st)) st) /\
    Forall (fun x => handle_ x = None /\ readOverlapped_hEvent x = None)
           (attached (device st')) /\
    Forall (fun s => interface_ s = None /\ overlapped_hEvent s = None)
           (send_ (device st')).
Proof.
  intros Hop Hok.
  eexists. split; [apply close_runs; assumption|]. split; [reflexivity|]. split.
  - unfold table_ok in Hok. unfold attached. simpl. unfold map_first.
    rewrite take_app_le by (rewrite length_map, length_take; lia).
    rewrite take_ge by (rewrite length_map, length_take; lia).
    apply List.Forall_forall. intros y Hy.
    apply List.in_map_iff in Hy as (x & <- & _).
    unfold detached. destruct (is_Some_bool (readOverlapped_hEvent x)) eqn:He.
    + split; reflexivity.
    + split; [reflexivity|]. simpl.
      destruct (readOverlapped_hEvent x); [discriminate|reflexivity].
  - simpl. apply List.Forall_forall. intros y Hy.
    apply List.in_map_iff in Hy as (x & <- & _). split; reflexivity.
Qed.

(** ** Opening a device *)

Lemma open_finds_held_handle st hasPath script x :
  isOpened_ (device st) = false ->
  (1 <= handleCount_ (device st))%nat ->
  handles_ (device st) !! 0%nat = Some x ->
  is_Some_bool (handle_ x) = true ->
  freespace_openDevice hasPath script (id_ (device st)) st
  = Done FREESPACE_ERROR_BUSY st.
Proof.
  intros Hop Hn Hx Hh. unfold freespace_openDevice. run.
  rewrite bool_decide_eq_true_2 by reflexivity. simpl. rewrite Hop. simpl.
  destruct (handleCount_ (device st)) as [|n]; [lia|]. simpl.
  unfold open_channel. run. rewrite (sub_at_lookup _ _ _ Hx), Hh. reflexivity.
Qed.

Lemma close_ignores_unopened st id :
  isOpened_ (device st) = false -> freespace_closeDevice id st = Done tt st.
Proof.
  intros Hop. unfold freespace_closeDevice. run.
  destruct (bool_decide (id_ (device st) = id)); simpl; [|reflexivity].
  rewrite Hop. reflexivity.
Qed.

(** A device that is not marked opened while its first channel holds a
    handle can be neither opened nor closed: [freespace_openDevice] returns
    BUSY whatever the paths and the OS answer, [freespace_closeDevice]
    returns at once, and neither changes anything. *)
Theorem held_handle_blocks_open_and_close st hasPath script x :
  isOpened_ (device st) = false ->
  (1 <= handleCount_ (device st))%nat ->
  handles_ (device st) !! 0%nat = Some x ->
  is_Some_bool (handle_ x) = true ->
  freespace_openDevice hasPath script (id_ (device st)) st
    = Done FREESPACE_ERROR_BUSY st /\
  freespace_closeDevice (id_ (device st)) st = Done tt st.
Proof.
  intros Hop Hn Hx Hh. split.
  - exact (open_finds_held_handle st hasPath script x Hop Hn Hx Hh).
  - exact (close_ignores_unopened st _ Hop).
Qed.

(** A failed [CreateFile] on the first channel leaves the device stuck:
    [freespace_openDevice] returns NO_DEVICE with INVALID_HANDLE_VALUE, which
    is not NULL, stored as the handle of the channel and nothing else
    changed; from then on every open returns BUSY and every close returns at
    once, both without changing anything, so no function of this file
    resets the handle. *)
Theorem failed_CreateFile_leaves_device_stuck st hasPath script x :
  isOpened_ (device st) = false ->
  (1 <= handleCount_ (device st))%nat ->
  handles_ (device st) !! 0%nat = Some x ->
  handle_ x = None ->
  hasPath 0%nat = true ->
  default INVALID_HANDLE_VALUE (head script.1) = INVALID_HANDLE_VALUE ->
  let st' := with_handles
               (<[0%nat := set_handle_ (Some INVALID_HANDLE_VALUE) x]>
                  (handles_ (device st))) st in
  freespace_openDevice hasPath script (id_ (device st)) st
    = Done FREESPACE_ERROR_NO_DEVICE st' /\
  (forall hasPath' script',
     freespace_openDevice hasPath' script' (id_ (device st)) st'
       = Done FREESPACE_ERROR_BUSY st') /\
  freespace_closeDevice (id_ (device st)) st' = Done tt st'.
Proof.
  intros Hop Hn Hx Hh Hpath Hcf st'.
  assert (Hx' : handles_ (device st') !! 0%nat
                = Some (set_handle_ (Some INVALID_HANDLE_VALUE) x))
    by apply (lookup_insert_same _ _ _ _ Hx).
  split; [|split].
  - unfold freespace_openDevice. run.
    rewrite bool_decide_eq_true_2 by reflexivity. simpl. rewrite Hop. simpl.
    destruct (handleCount_ (device st)) as [|n] eqn:Hcount; [lia|]. simpl.
    unfold open_channel. run. rewrite (sub_at_lookup _ _ _ Hx), Hh. simpl.
    rewrite Hpath. simpl. rewrite Hcf. simpl.
    rewrite (sub_at_lookup _ _ _ Hx). reflexivity.
  - intros hasPath' script'.
    exact (open_finds_held_handle st' hasPath' script' _ Hop Hn Hx' eq_refl).
  - exact (close_ignores_unopened st' _ Hop).
Qed.

Lemma open_channel_round hasPath st i x h e hs' bs' rq :
  handles_ (device st) !! i = Some x ->
  handle_ x = None ->
  hasPath i = true ->
  h <> INVALID_HANDLE_VALUE ->
  q_CreateEvent st = Some e :: rq ->
  open_channel hasPath i (h :: hs', true :: bs') st
  = Done (inl (hs', bs'))
      (after_events
         (set_handles_ (<[i := opened_channel h e x]> (handles_ (device st)))
                       (device st))
         rq (announce (added_hook st) e) st).
Proof.
  intros Hx Hh Hpath Hv Hq. pose proof (lookup_lt_Some _ _ _ Hx) as Hlt.
  unfold open_channel, fdAdded_if_set, CreateEvent, announce, added_hook.
  run. rewrite (sub_at_lookup _ _ _ Hx), Hh. simpl. rewrite Hpath. simpl.
  rewrite (bool_decide_eq_false_2 _ Hv). simpl. rewrite Hq. simpl.
  unfold sub_at. simpl.
  repeat progress
    (rewrite ?list_insert_insert_eq, ?Hx,
             ?list_lookup_insert_eq by (rewrite ?length_insert; exact Hlt);
     simpl).
  destruct (is_Some_bool (fdAddedCallback_ (freespace_instance_ st))); simpl;
    unfold after_events, add_event, set_device, set_handles_; simpl;
    rewrite <- ?app_assoc; reflexivity.
Qed.

(** The channel loop of a successful open, from any index on: the channels
    before the index are kept, the ones from it on are opened with the
    handles and the events the OS gives. *)
Lemma open_channels_run hasPath n :
  forall lo done todo hs evs r1 r2 rq st,
    length done = lo -> length hs = n -> length evs = n ->
    (n <= length todo)%nat ->
    Forall (fun x => handle_ x = None) (take n todo) ->
    Forall (fun h => h <> INVALID_HANDLE_VALUE) hs ->
    (forall i, (lo <= i < lo + n)%nat -> hasPath i = true) ->
    handles_ (device st) = done ++ todo ->
    q_CreateEvent st = map Some evs ++ rq ->
    for_acc lo n (open_channel hasPath) (hs ++ r1, replicate n true ++ r2) st
    = Done (inl (r1, r2))
        (after_events (set_handles_ (done ++ open_table hs evs todo) (device st))
                      rq (flat_map (announce (added_hook st)) evs) st).
Proof.
  induction n as [|n IH];
    intros lo done todo hs evs r1 r2 rq st Hlo Hhs Hevs Hn Hnull Hvalid Hpath Htab Hq.
  - destruct hs; [|discriminate]. destruct evs; [|discriminate]. simpl in *.
    unfold ret, after_events. rewrite app_nil_r.
    destruct todo; simpl; rewrite <- Htab, <- Hq;
      destruct st as [[] ? ? ? ? ? ? ? ? ?]; reflexivity.
  - destruct hs as [|h hs]; [discriminate|]. destruct evs as [|e evs]; [discriminate|].
    destruct todo as [|x todo]; [simpl in Hn; lia|].
    simpl in Hhs, Hevs, Hn, Hnull, Hq.
    apply Forall_cons_1 in Hnull as [Hx0 Hnull].
    apply Forall_cons_1 in Hvalid as [Hh Hvalid].
    assert (Hx : handles_ (device st) !! lo = Some x).
    { rewrite Htab, lookup_app_r by lia.
      replace (lo - length done)%nat with 0%nat by lia. reflexivity. }
    simpl. unfold bind.
    rewrite (open_channel_round hasPath st lo x h e (hs ++ r1)
               (replicate n true ++ r2) (map Some evs ++ rq) Hx Hx0
               (Hpath lo ltac:(lia)) Hh Hq).
    set (st1 := after_events _ _ _ st).
    rewrite (IH (S lo) (done ++ [opened_channel h e x]) todo hs evs r1 r2 rq st1).
    + unfold st1, after_events, added_hook. simpl.
      rewrite <- !app_assoc. simpl. reflexivity.
    + rewrite length_app. simpl. lia.
    + lia.
    + lia.
    + lia.
    + exact Hnull.
    + exact Hvalid.
    + intros i Hi. apply Hpath. lia.
    + unfold st1. simpl. rewrite Htab.
      replace lo with (length done + 0)%nat at 1 by lia.
      rewrite insert_app_r. simpl. rewrite <- app_assoc. reflexivity.
    + reflexivity.
Qed.

Lemma open_slot_round st i s e rq :
  send_ (device st) !! i = Some s ->
  q_CreateEvent st = Some e :: rq ->
  open_slot i st
  = Done None
      (after_events
         (set_send_ (<[i := opened_slot e s]> (send_ (device st))) (device st))
         rq (announce (added_hook st) e) st).
Proof.
  intros Hs Hq.
  unfold open_slot, initializeSendStruct, fdAdded_if_set, CreateEvent, announce,
    added_hook.
  run. look Hs. rewrite Hq. simpl. look Hs.
  destruct (is_Some_bool (fdAddedCallback_ (freespace_instance_ st))); simpl;
    unfold after_events, add_event, set_device, set_send_; simpl;
    rewrite <- ?app_assoc; reflexivity.
Qed.

Lemma open_slots_run n :
  forall lo done todo evs rq st,
    length done = lo -> length evs = n -> length todo = n ->
    send_ (device st) = done ++ todo ->
    q_CreateEvent st = map Some evs ++ rq ->
    for_loop lo n open_slot st
    = Done None
        (after_events (set_send_ (done ++ open_pool evs todo) (device st))
                      rq (flat_map (announce (added_hook st)) evs) st).
Proof.
  induction n as [|n IH]; intros lo done todo evs rq st Hlo Hevs Hn Htab Hq.
  - destruct evs; [|discriminate]. destruct todo; [|discriminate]. simpl in *.
    unfold ret, after_events. rewrite <- Htab, <- Hq, app_nil_r.
    destruct st as [[] ? ? ? ? ? ? ? ? ?]; reflexivity.
  - destruct evs as [|e evs]; [discriminate|].
    destruct todo as [|s todo]; [discriminate|].
    simpl in Hevs, Hn, Hq.
    assert (Hs : send_ (device st) !! lo = Some s).
    { rewrite Htab, lookup_app_r by lia.
      replace (lo - length done)%nat with 0%nat by lia. reflexivity. }
    simpl. unfold bind.
    rewrite (open_slot_round st lo s e (map Some evs ++ rq) Hs Hq).
    set (st1 := after_events _ _ _ st).
    rewrite (IH (S lo) (done ++ [opened_slot e s]) todo evs rq st1).
    + unfold st1, after_events, added_hook. simpl.
      rewrite <- !app_assoc. simpl. reflexivity.
    + rewrite length_app. simpl. lia.
    + lia.
    + lia.
    + unfold st1. simpl. rewrite Htab.
      replace lo with (length done + 0)%nat at 1 by lia.
      rewrite insert_app_r. simpl. rewrite <- app_assoc. reflexivity.
    + reflexivity.
Qed.

(** [freespace_openDevice] when every call of the OS succeeds, on a device
    with no receive callback or under a bridge without added hook. *)
Lemma open_runs st hasPath hs chEvs slEvs r1 r2 rq :
  isOpened_ (device st) = false ->
  table_ok (device st) ->
  Forall (fun x => handle_ x = None) (attached (device st)) ->
  (forall i, (i < handleCount_ (device st))%nat -> hasPath i = true) ->
  length hs = handleCount_ (device st) ->
  length chEvs = handleCount_ (device st) ->
  length slEvs = length (send_ (device st)) ->
  Forall (fun h => h <> INVALID_HANDLE_VALUE) hs ->
  q_CreateEvent st = map Some (chEvs ++ slEvs) ++ rq ->
  added_hook st = false \/ receiveCallback_ (device st) = None ->
  freespace_openDevice hasPath
    (hs ++ r1, replicate (handleCount_ (device st)) true ++ r2)
    (id_ (device st)) st
  = Done FREESPACE_SUCCESS
      (after_events (opened hs chEvs slEvs (device st)) rq
                    (flat_map (announce (added_hook st)) (chEvs ++ slEvs)) st).
Proof.
  intros Hop Hok Hnull Hpath Hhs Hch Hsl Hvalid Hq Hquiet.
  unfold freespace_openDevice. unfold bind at 1, freespace_private_getDeviceById, gets.
  rewrite bool_decide_eq_true_2 by reflexivity. simpl.
  unfold bind at 1. rewrite Hop. simpl.
  unfold bind at 1.
  rewrite map_app, <- app_assoc in Hq.
  rewrite (open_channels_run hasPath (handleCount_ (device st)) 0%nat []
             (handles_ (device st)) hs chEvs r1 r2 (map Some slEvs ++ rq) st);
    try assumption; try reflexivity.
  2: { intros i Hi. apply Hpath. lia. }
  simpl.
  set (st1 := after_events _ _ _ st).
  unfold bind at 1, modifyDevice.
  set (st2 := set_device (set_isOpened_ true (device st1)) st1).
  unfold bind at 1, gets.
  unfold bind at 1.
  rewrite (open_slots_run (length (send_ (device st2))) 0%nat []
             (send_ (device st2)) slEvs rq st2);
    try reflexivity; try assumption.
  simpl.
  set (st3 := after_events _ _ _ st2).
  assert (Hfinal : st3 = after_events (opened hs chEvs slEvs (device st)) rq
                    (flat_map (announce (added_hook st)) (chEvs ++ slEvs)) st).
  { unfold st3, st2, st1, after_events, opened, added_hook. simpl.
    rewrite flat_map_app, <- app_assoc. reflexivity. }
  unfold bind, gets.
  change (fdAddedCallback_ (freespace_instance_ st3))
    with (fdAddedCallback_ (freespace_instance_ st)).
  destruct Hquiet as [Hhook|Hcb].
  - unfold added_hook in Hhook. rewrite Hhook. simpl. unfold ret.
    rewrite Hfinal. reflexivity.
  - destruct (is_Some_bool (fdAddedCallback_ (freespace_instance_ st))); simpl.
    + unfold initiateAsyncReceives. unfold bind, gets.
      change (receiveCallback_ (device st3)) with (receiveCallback_ (device st)).
      rewrite Hcb. simpl. rewrite ?orb_true_r. unfold ret.
      rewrite Hfinal. reflexivity.
    + unfold ret. rewrite Hfinal. reflexivity.
Qed.


Lemma open_pool_free evs l :
  length evs = length l ->
  Forall (fun s => interface_ s = None /\ is_Some_bool (overlapped_hEvent s) = true)
         (open_pool evs l).
Proof.
  revert l. induction evs as [|e evs IH]; intros [|s l] Hlen; simpl;
    try discriminate; constructor.
  - split; reflexivity.
  - apply IH. simpl in Hlen. lia.
Qed.

Lemma open_table_idle hs evs l :
  (length hs <= length l)%nat -> length evs = length hs ->
  Forall (fun x => is_Some_bool (handle_ x) = true /\
                   is_Some_bool (readOverlapped_hEvent x) = true /\
                   readStatus_ x = false)
         (take (length hs) (open_table hs evs l)).
Proof.
  revert evs l. induction hs as [|h hs IH]; intros [|e evs] [|x l] Hlen Hev; simpl in *;
    try discriminate; try lia; constructor.
  - repeat split.
  - apply IH; lia.
Qed.

(** A successful [freespace_openDevice], on a device that is not opened and
    whose attached channels hold no handle, when every channel has a path
    and the OS grants every handle and every event: it returns SUCCESS with
    the device marked opened; every attached channel holds the handle and
    the read event the OS gave it, in call order, and has no read pending;
    every slot is free and owns the event the OS gave it; the events of the
    call are one [CreateEvent] for every channel and then for every slot,
    each reported to the bridge when its added hook is installed; no read is
    issued when the device has no receive callback or the bridge no hook. *)
Theorem open_attaches_channels_and_slots st hasPath hs chEvs slEvs r1 r2 rq :
  isOpened_ (device st) = false ->
  table_ok (device st) ->
  Forall (fun x => handle_ x = None) (attached (device st)) ->
  (forall i, (i < handleCount_ (device st))%nat -> hasPath i = true) ->
  length hs = handleCount_ (device st) ->
  length chEvs = handleCount_ (device st) ->
  length slEvs = length (send_ (device st)) ->
  Forall (fun h => h <> INVALID_HANDLE_VALUE) hs ->
  q_CreateEvent st = map Some (chEvs ++ slEvs) ++ rq ->
  added_hook st = false \/ receiveCallback_ (device st) = None ->
  exists st',
    freespace_openDevice hasPath
      (hs ++ r1, replicate (handleCount_ (device st)) true ++ r2)
      (id_ (device st)) st = Done FREESPACE_SUCCESS st' /\
    st' = after_events (opened hs chEvs slEvs (device st)) rq
            (flat_map (announce (added_hook st)) (chEvs ++ slEvs)) st /\
    Forall (fun x => is_Some_bool (handle_ x) = true /\
                     is_Some_bool (readOverlapped_hEvent x) = true /\
                     readStatus_ x = false)
           (attached (device st')) /\
    Forall (fun s => interface_ s = None /\ is_Some_bool (overlapped_hEvent s) = true)
           (send_ (device st')).
Proof.
  intros Hop Hok Hnull Hpath Hhs Hch Hsl Hvalid Hq Hquiet.
  eexists. split; [|split; [reflexivity|split]].
  - apply open_runs; assumption.
  - unfold attached. simpl. rewrite <- Hhs.
    apply open_table_idle; [|lia]. unfold table_ok in Hok. lia.
  - simpl. apply open_pool_free. exact Hsl.
Qed.




(** ** A synchronous read that gets no data *)

Lemma for_loop_inv {X} (I : nat -> State -> Prop) (body : nat -> M (option X)) n :
  forall lo st,
    I lo st ->
    (forall i s, (lo <= i < lo + n)%nat -> I i s ->
                 exists s', body i s = Done None s' /\ I (S i) s') ->
    exists st', for_loop lo n body st = Done None st' /\ I (lo + n)%nat st'.
Proof.
  induction n as [|n IH]; intros lo st HI Hb; simpl.
  - exists st. split; [reflexivity|]. rewrite Nat.add_0_r. exact HI.
  - destruct (Hb lo st ltac:(lia) HI) as (s1 & E & H1).
    unfold bind. rewrite E.
    destruct (IH (S lo) s1 H1) as (st' & E' & H').
    { intros i s Hi. apply Hb. lia. }
    exists st'. split; [exact E'|].
    replace (lo + S n)%nat with (S lo + n)%nat by lia. exact H'.
Qed.






(** ** The poll of a pending read in a perform pass *)

(** The poll pass of [freespace_private_devicePerform] on a channel with a
    pending read, under a receive callback that stays registered: a read
    reported complete is handed to the callback, once, with its payload and
    length, and the pending flag is dropped; a read reported failed is
    reported to the callback as NO_DATA with no payload, whatever the error
    of the OS, followed by [Sleep(0)], and the pending flag is dropped; a
    read not complete yet leaves everything as it is. *)
Theorem poll_round_reports_to_the_callback st i x cb :
  handles_ (device st) !! i = Some x ->
  readStatus_ x = true ->
  receiveCallback_ (device st) = Some cb ->
  stays_registered cb ->
  exists st',
    perform_receive i st = Done tt st' /\
    match next_read_result st with
    | IoTrue data =>
        trace st' = trace st ++
          [poll_of st x;
           EvReceiveCallback (rcb_addr cb) (id_ (device st)) (Some data)
             (Z.of_nat (length data)) (receiveCookie_ (device st)) FREESPACE_SUCCESS] /\
        device st' = set_handles_
          (<[i := set_readStatus_ false (set_readData data x)]> (handles_ (device st)))
          (device st)
    | IoFalse e =>
        if bool_decide (e = ERROR_IO_INCOMPLETE)
        then trace st' = trace st ++ [poll_of st x] /\ device st' = device st
        else
          trace st' = trace st ++
            [poll_of st x;
             EvReceiveCallback (rcb_addr cb) (id_ (device st)) None 0
               (receiveCookie_ (device st)) FREESPACE_ERROR_NO_DATA;
             EvSleep] /\
          device st' = set_handles_
            (<[i := set_readStatus_ false x]> (handles_ (device st))) (device st)
    end.
Proof.
  intros Hx Hp Hcb Hquiet. pose proof (lookup_lt_Some _ _ _ Hx) as Hlt.
  unfold perform_receive.
  rewrite (bind_run _ _ st x st)
    by (unfold getSub, gets; rewrite (sub_at_lookup _ _ _ Hx); reflexivity).
  rewrite Hp. unfold poll_of.
  unfold GetOverlappedResult_read. unfold bind at 1. fold (next_read_result st).
  destruct (next_read_result st) as [data|e] eqn:Hr.
  - unfold call_receiveCallback. run. rewrite Hcb. simpl. rewrite Hcb. simpl.
    rewrite Hquiet. simpl.
    rewrite (sub_at_lookup _ _ _ Hx).
    rewrite !sub_at_insert by exact Hlt.
    rewrite payload_of_readData. simpl.
    eexists. split; [reflexivity|]. simpl.
    rewrite list_insert_insert_eq, <- app_assoc. split; reflexivity.
  - unfold GetLastError. unfold bind at 1, gets at 1. simpl.
    destruct (decide (e = ERROR_IO_INCOMPLETE)) as [He|He].
    + rewrite (bool_decide_eq_false_2 (e <> ERROR_IO_INCOMPLETE)) by tauto.
      rewrite (bool_decide_eq_true_2 _ He).
      eexists. split; [reflexivity|]. split; reflexivity.
    + rewrite (bool_decide_eq_true_2 (e <> ERROR_IO_INCOMPLETE)) by exact He.
      rewrite (bool_decide_eq_false_2 _ He).
      unfold call_receiveCallback. run. rewrite Hcb. simpl.
      rewrite Hquiet. simpl. rewrite (sub_at_lookup _ _ _ Hx).
      eexists. split; [reflexivity|]. simpl.
      rewrite <- !app_assoc. split; reflexivity.
Qed.

(** The same poll on a device without receive callback, as a synchronous
    [freespace_read] that timed out leaves it: a read reported complete is
    dropped, with its data in the channel buffer and the pending flag
    dropped; a read not complete yet leaves everything as it is; a read
    reported failed makes the pass call the receive callback without
    testing it, through NULL. *)
Theorem poll_round_without_callback st i x :
  handles_ (device st) !! i = Some x ->
  readStatus_ x = true ->
  receiveCallback_ (device st) = None ->
  match next_read_result st with
  | IoTrue data =>
      exists st',
        perform_receive i st = Done tt st' /\
        trace st' = trace st ++ [poll_of st x] /\
        device st' = set_handles_
          (<[i := set_readStatus_ false (set_readData data x)]> (handles_ (device st)))
          (device st)
  | IoFalse e =>
      if bool_decide (e = ERROR_IO_INCOMPLETE)
      then exists st',
             perform_receive i st = Done tt st' /\
             trace st' = trace st ++ [poll_of st x] /\ device st' = device st
      else perform_receive i st = Fault
  end.
Proof.
  intros Hx Hp Hcb. pose proof (lookup_lt_Some _ _ _ Hx) as Hlt.
  unfold poll_of, next_read_result.
  destruct (q_ReadResult st) as [|[data|e] q] eqn:Hq; simpl.
  - unfold perform_receive, GetOverlappedResult_read. run.
    rewrite (sub_at_lookup _ _ _ Hx), Hp, Hq. simpl.
    eexists. split; [reflexivity|]. split; reflexivity.
  - unfold perform_receive, GetOverlappedResult_read. run.
    rewrite (sub_at_lookup _ _ _ Hx), Hp, Hq. simpl. rewrite Hcb. simpl.
    rewrite (sub_at_lookup _ _ _ Hx).
    rewrite ?sub_at_insert by exact Hlt.
    eexists. split; [reflexivity|]. simpl.
    rewrite list_insert_insert_eq. split; reflexivity.
  - destruct (decide (e = ERROR_IO_INCOMPLETE)) as [He|He].
    + rewrite (bool_decide_eq_true_2 _ He).
      unfold perform_receive, GetOverlappedResult_read. run.
      rewrite (sub_at_lookup _ _ _ Hx), Hp, Hq. simpl.
      rewrite (bool_decide_eq_false_2 (e <> ERROR_IO_INCOMPLETE)) by tauto.
      eexists. split; [reflexivity|]. split; reflexivity.
    + rewrite (bool_decide_eq_false_2 _ He).
      unfold perform_receive, GetOverlappedResult_read, call_receiveCallback. run.
      rewrite (sub_at_lookup _ _ _ Hx), Hp, Hq. simpl.
      rewrite (bool_decide_eq_true_2 (e <> ERROR_IO_INCOMPLETE)) by exact He.
      simpl. rewrite Hcb. reflexivity.
Qed.

(** ** The further properties at concrete inputs *)

(** Flush of the two-channel device with both reads pending. *)
Lemma flush_cancels_every_channel_witness :
  table_ok (device (quiet_os (all_pending device_7_31))) /\
  freespace_flush 1 (quiet_os (all_pending device_7_31))
  = Done FREESPACE_SUCCESS
      (with_trace [EvCancelIo (Some 10); EvCancelIo (Some 11)]
                  (quiet_os device_7_31)).
Proof.
  assert (Hok : table_ok (device (quiet_os (all_pending device_7_31))))
    by (unfold table_ok; simpl; lia).
  split; [exact Hok|].
  exact (proj1 (flush_cancels_every_channel (quiet_os (all_pending device_7_31)) Hok)).
Defined.

(** Unregistering the listener while both reads are pending. *)
Lemma unregister_stops_receiving_witness :
  table_ok (device (receive_world listener [] [] (all_pending device_7_31))) /\
  freespace_setReceiveCallback 1 None 9
    (receive_world listener [] [] (all_pending device_7_31))
  = Done FREESPACE_SUCCESS
      (with_trace [EvFdRemoved (Some 110); EvFdRemoved (Some 111);
                   EvCancelIo (Some 10); EvCancelIo (Some 11)]
                  (quiet_os device_7_31)).
Proof.
  assert (Hok : table_ok (device (receive_world listener [] []
                                    (all_pending device_7_31))))
    by (unfold table_ok; simpl; lia).
  split; [exact Hok|].
  exact (unregister_stops_receiving
           (receive_world listener [] [] (all_pending device_7_31))
           listener 901 9 eq_refl eq_refl eq_refl Hok).
Defined.

(** Both transitions on the two-channel device without a bridge. *)
Lemma callback_transitions_need_the_hooks_witness :
  freespace_setReceiveCallback 1 None 0
    (no_bridge (receive_world listener [] [] device_7_31)) = Fault /\
  freespace_setReceiveCallback 1 (Some listener) 9
    (no_bridge (quiet_os device_7_31)) = Fault.
Proof.
  split.
  - exact (proj1 (callback_transitions_need_the_hooks
                    (no_bridge (receive_world listener [] [] device_7_31))
                    eq_refl ltac:(simpl; lia))
             listener 0 eq_refl eq_refl).
  - exact (proj2 (callback_transitions_need_the_hooks
                    (no_bridge (quiet_os device_7_31))
                    eq_refl ltac:(simpl; lia))
             listener 9 eq_refl eq_refl).
Defined.

(** Registering the listener on a device that was never opened. *)
Lemma setReceiveCallback_only_stores_witness :
  isOpened_ (device (quiet_os closed_device)) = false /\
  freespace_setReceiveCallback 1 (Some listener) 9 (quiet_os closed_device)
  = Done FREESPACE_SUCCESS (quiet_os (with_receiver listener 9 closed_device)).
Proof.
  split; [reflexivity|].
  exact (setReceiveCallback_only_stores (quiet_os closed_device) (Some listener) 9
           (or_introl eq_refl)).
Defined.

(** A rearm pass while both reads are pending. *)
Lemma rearm_pass_idempotent_witness :
  table_ok (device (receive_world listener [] [] (all_pending device_7_31))) /\
  Forall (fun s => readStatus_ s = true)
         (attached (device (receive_world listener [] [] (all_pending device_7_31)))) /\
  initiateAsyncReceives (receive_world listener [] [] (all_pending device_7_31))
  = Done FREESPACE_SUCCESS (receive_world listener [] [] (all_pending device_7_31)).
Proof.
  assert (Hok : table_ok (device (receive_world listener [] []
                                    (all_pending device_7_31))))
    by (unfold table_ok; simpl; lia).
  assert (Hall : Forall (fun s => readStatus_ s = true)
                   (attached (device (receive_world listener [] []
                                        (all_pending device_7_31)))))
    by (repeat constructor).
  split; [exact Hok|]. split; [exact Hall|].
  exact (rearm_pass_idempotent
           (receive_world listener [] [] (all_pending device_7_31))
           (or_intror (or_intror (conj Hok Hall)))).
Defined.

(** A rearm pass on the two-channel device with a listener and no read
    pending. *)
Lemma rearm_pass_arms_every_channel_witness :
  table_ok (device (receive_world listener [] [] device_7_31)) /\
  reads_go_in_flight (receive_world listener [] [] device_7_31) /\
  exists st',
    initiateAsyncReceives (receive_world listener [] [] device_7_31)
      = Done FREESPACE_SUCCESS st' /\
    trace st' = [EvReadFile (Some 10) 8 (IoFalse ERROR_IO_PENDING);
                 EvReadFile (Some 11) 8 (IoFalse ERROR_IO_PENDING)] /\
    Forall (fun s => readStatus_ s = true) (attached (device st')).
Proof.
  assert (Hok : table_ok (device (receive_world listener [] [] device_7_31)))
    by (unfold table_ok; simpl; lia).
  assert (Hq : reads_go_in_flight (receive_world listener [] [] device_7_31))
    by constructor.
  split; [exact Hok|]. split; [exact Hq|].
  destruct (rearm_pass_arms_every_channel
              (receive_world listener [] [] device_7_31) listener
              eq_refl eq_refl Hok Hq)
    as (st' & E & _ & Ht & _ & Hall).
  exists st'. split; [exact E|]. split; [exact Ht | exact Hall].
Defined.

(** Registering the listener on the opened two-channel device. *)
Lemma register_arms_every_channel_witness :
  table_ok (device (quiet_os device_7_31)) /\
  reads_go_in_flight (quiet_os device_7_31) /\
  exists st',
    freespace_setReceiveCallback 1 (Some listener) 9 (quiet_os device_7_31)
      = Done FREESPACE_SUCCESS st' /\
    trace st' = [EvFdAdded (Some 110); EvFdAdded (Some 111);
                 EvReadFile (Some 10) 8 (IoFalse ERROR_IO_PENDING);
                 EvReadFile (Some 11) 8 (IoFalse ERROR_IO_PENDING)] /\
    Forall (fun s => readStatus_ s = true) (attached (device st')).
Proof.
  assert (Hok : table_ok (device (quiet_os device_7_31)))
    by (unfold table_ok; simpl; lia).
  assert (Hq : reads_go_in_flight (quiet_os device_7_31)) by constructor.
  split; [exact Hok|]. split; [exact Hq|].
  destruct (register_arms_every_channel (quiet_os device_7_31) listener 900 9
              eq_refl eq_refl eq_refl Hok Hq)
    as (st' & E & _ & Ht & Hall).
  exists st'. split; [exact E|]. split; [exact Ht | exact Hall].
Defined.

(** One payload that completes at once, then a read left in flight. *)
Lemma rearm_delivers_in_order_witness :
  stays_registered listener /\
  exists st',
    rearm_channel 0 FREESPACE_SUCCESS
      (receive_world listener [IoTrue five_bytes; IoFalse ERROR_IO_PENDING] []
                     device_7_31)
      = Done (inl FREESPACE_SUCCESS) st' /\
    trace st' = [EvReadFile (Some 10) 8 (IoTrue five_bytes);
                 EvReceiveCallback 701 1 (Some five_bytes) 5 9 FREESPACE_SUCCESS;
                 EvReadFile (Some 10) 8 (IoFalse ERROR_IO_PENDING)] /\
    q_ReadFile st' = [].
Proof.
  assert (Hquiet : stays_registered listener) by (intros payload code; reflexivity).
  split; [exact Hquiet|].
  destruct (rearm_delivers_in_order
              (receive_world listener [IoTrue five_bytes; IoFalse ERROR_IO_PENDING] []
                             device_7_31)
              listener 0%nat (channel 10 7) FREESPACE_SUCCESS [five_bytes] []
              eq_refl eq_refl eq_refl Hquiet eq_refl)
    as (st' & E & _ & Ht & Hrest).
  exists st'. split; [exact E|]. split; [exact Ht | exact Hrest].
Defined.


(** A ten-byte synchronous send whose write is left in flight and whose
    wait times out. *)
Lemma sync_send_returns_its_slot_witness :
  send_ready (quiet_os device_7_31) 1 0 (free_slot 50) /\
  exists code st',
    freespace_send 40 1 ten_bytes 10 (quiet_os device_7_31) = Done code st' /\
    map in_use (send_ (device st')) = [false; false].
Proof.
  assert (H : send_ready (quiet_os device_7_31) 1 0 (free_slot 50))
    by (repeat split; reflexivity).
  split; [exact H|].
  destruct (sync_send_returns_its_slot 40 (quiet_os device_7_31) 1 0%nat
              (free_slot 50) ten_bytes 10 H
              ltac:(unfold out_len; simpl; lia) ltac:(unfold out_len; simpl; lia)
              ltac:(simpl; lia) ltac:(simpl; lia))
    as (code & st' & E & Hocc & _).
  exists code, st'. split; [exact E | exact Hocc].
Defined.

(** A ten-byte asynchronous send whose write is left in flight. *)
Lemma async_send_holds_slot_while_in_flight_witness :
  send_ready (quiet_os device_7_31) 1 0 (free_slot 50) /\
  exists st' s',
    freespace_sendAsync 40 1 ten_bytes 10 1000 (Some 77) 5 (quiet_os device_7_31)
      = Done FREESPACE_SUCCESS st' /\
    send_ (device st') !! 0%nat = Some s' /\
    in_use s' = true /\
    callback_ s' = Some 77 /\ cookie_ s' = 5 /\ timeoutMs_ s' = 1000.
Proof.
  assert (H : send_ready (quiet_os device_7_31) 1 0 (free_slot 50))
    by (repeat split; reflexivity).
  split; [exact H|].
  destruct (async_send_holds_slot_while_in_flight 40 (quiet_os device_7_31) 1 0%nat
              (free_slot 50) ten_bytes 10 1000 (Some 77) 5 H
              ltac:(unfold out_len; simpl; lia) ltac:(unfold out_len; simpl; lia)
              ltac:(simpl; lia) ltac:(simpl; lia))
    as (st' & s' & E & Hs & Huse & Hcb & _).
  exists st', s'. split; [exact E|]. split; [exact Hs|].
  split; [exact (proj2 Huse eq_refl) | exact (Hcb eq_refl)].
Defined.

(** A write that fails because the device is gone, on a slot that targets
    the second channel. *)
Lemma failed_write_cancels_the_channel_witness :
  ERROR_DEVICE_NOT_CONNECTED <> ERROR_IO_PENDING /\
  exists st',
    freespace_send_activate 0
      (scripted [IoFalse ERROR_DEVICE_NOT_CONNECTED] [] [] [] []
                (quiet_os (all_pending device_busy)))
      = Done FREESPACE_ERROR_UNEXPECTED st' /\
    trace st' =
      [EvWriteFile (Some 11) (replicate 31 x00) 31 (IoFalse ERROR_DEVICE_NOT_CONNECTED);
       EvCancelIo (Some 11)] /\
    map readStatus_ (handles_ (device st')) = [true; false] /\
    map in_use (send_ (device st')) = [false; true].
Proof.
  assert (Hne : ERROR_DEVICE_NOT_CONNECTED <> ERROR_IO_PENDING)
    by (vm_compute; discriminate).
  split; [exact Hne|].
  destruct (failed_write_cancels_the_channel
              (scripted [IoFalse ERROR_DEVICE_NOT_CONNECTED] [] [] [] []
                        (quiet_os (all_pending device_busy)))
              0%nat (busy_slot 1 50) 1%nat (set_readStatus_ true (channel 11 31))
              ERROR_DEVICE_NOT_CONNECTED eq_refl eq_refl eq_refl eq_refl Hne)
    as (st' & E & Ht & Hh & Hs).
  exists st'. split; [exact E|]. split; [exact Ht|].
  rewrite Hh, Hs. split; reflexivity.
Defined.

(** Closing the two-channel device while both slots are in flight. *)
Lemma close_releases_slots_and_channels_witness :
  table_ok (device (quiet_os device_busy)) /\
  exists st',
    freespace_closeDevice 1 (quiet_os device_busy) = Done tt st' /\
    trace st' =
      [EvFdRemoved (Some 50); EvCloseHandle (Some 50);
       EvFdRemoved (Some 51); EvCloseHandle (Some 51);
       EvCloseHandle (Some 10); EvFdRemoved (Some 110); EvCloseHandle (Some 110);
       EvCloseHandle (Some 11); EvFdRemoved (Some 111); EvCloseHandle (Some 111)] /\
    isOpened_ (device st') = false /\
    map in_use (send_ (device st')) = [false; false].
Proof.
  assert (Hok : table_ok (device (quiet_os device_busy)))
    by (unfold table_ok; simpl; lia).
  split; [exact Hok|].
  destruct (close_releases_slots_and_channels (quiet_os device_busy) eq_refl Hok)
    as (st' & E & Hst & _).
  exists st'. split; [exact E|]. rewrite Hst. repeat split.
Defined.

(** A device that is not opened and whose channel holds handle 10. *)
Lemma held_handle_blocks_open_and_close_witness :
  freespace_openDevice (fun _ => true) ([11], [true]) 1
    (with_handles [channel 10 31] (quiet_os closed_device))
    = Done FREESPACE_ERROR_BUSY
        (with_handles [channel 10 31] (quiet_os closed_device)) /\
  freespace_closeDevice 1 (with_handles [channel 10 31] (quiet_os closed_device))
    = Done tt (with_handles [channel 10 31] (quiet_os closed_device)).
Proof.
  exact (held_handle_blocks_open_and_close
           (with_handles [channel 10 31] (quiet_os closed_device))
           (fun _ => true) ([11], [true]) (channel 10 31)
           eq_refl ltac:(simpl; lia) eq_refl eq_refl).
Defined.

(** An open of the device that was never opened, when [CreateFile] fails,
    and a second open when it would succeed. *)
Lemma failed_CreateFile_leaves_device_stuck_witness :
  freespace_openDevice (fun _ => true) ([], []) 1 (quiet_os closed_device)
    = Done FREESPACE_ERROR_NO_DEVICE
        (with_handles [set_handle_ (Some INVALID_HANDLE_VALUE) (closed_channel 31)]
                      (quiet_os closed_device)) /\
  freespace_openDevice (fun _ => true) ([10], [true]) 1
    (with_handles [set_handle_ (Some INVALID_HANDLE_VALUE) (closed_channel 31)]
                  (quiet_os closed_device))
    = Done FREESPACE_ERROR_BUSY
        (with_handles [set_handle_ (Some INVALID_HANDLE_VALUE) (closed_channel 31)]
                      (quiet_os closed_device)).
Proof.
  pose proof (failed_CreateFile_leaves_device_stuck (quiet_os closed_device)
                (fun _ => true) ([], []) (closed_channel 31)
                eq_refl ltac:(simpl; lia) eq_refl eq_refl eq_refl eq_refl)
    as (Hopen & Hagain & _).
  split; [exact Hopen|].
  exact (Hagain (fun _ => true) ([10], [true])).
Defined.

(** The open of the device that was never opened, given handle 10 and the
    events 110, 50 and 51. *)
Lemma open_attaches_channels_and_slots_witness :
  table_ok (device (granting [110; 50; 51] (quiet_os closed_device))) /\
  Forall (fun h => h <> INVALID_HANDLE_VALUE) [10] /\
  exists st',
    freespace_openDevice (fun _ => true) ([10], [true]) 1
      (granting [110; 50; 51] (quiet_os closed_device))
      = Done FREESPACE_SUCCESS st' /\
    device st' = device_31 /\
    trace st' = [EvCreateEvent (Some 110); EvFdAdded (Some 110);
                 EvCreateEvent (Some 50); EvFdAdded (Some 50);
                 EvCreateEvent (Some 51); EvFdAdded (Some 51)].
Proof.
  assert (Hok : table_ok (device (granting [110; 50; 51] (quiet_os closed_device))))
    by (unfold table_ok; simpl; lia).
  assert (Hvalid : Forall (fun h => h <> INVALID_HANDLE_VALUE) [10])
    by (repeat constructor; unfold INVALID_HANDLE_VALUE; lia).
  split; [exact Hok|]. split; [exact Hvalid|].
  destruct (open_attaches_channels_and_slots
              (granting [110; 50; 51] (quiet_os closed_device))
              (fun _ => true) [10] [110] [50; 51] [] [] []
              eq_refl Hok ltac:(repeat constructor) ltac:(reflexivity)
              eq_refl eq_refl eq_refl Hvalid eq_refl (or_intror eq_refl))
    as (st' & E & Hst & _).
  exists st'. split; [exact E|]. rewrite Hst. split; reflexivity.
Defined.



(** A poll that finds the read of the first channel complete with five
    bytes, under the listener. *)
Lemma poll_round_reports_to_the_callback_witness :
  stays_registered listener /\
  exists st',
    perform_receive 0
      (receive_world listener [] [IoTrue five_bytes] (all_pending device_7_31))
      = Done tt st' /\
    trace st' = [EvReadResult (Some 10) (Some 110) false (IoTrue five_bytes);
                 EvReceiveCallback 701 1 (Some five_bytes) 5 9 FREESPACE_SUCCESS] /\
    map readStatus_ (handles_ (device st')) = [false; true].
Proof.
  assert (Hquiet : stays_registered listener) by (intros payload code; reflexivity).
  split; [exact Hquiet|].
  destruct (poll_round_reports_to_the_callback
              (receive_world listener [] [IoTrue five_bytes] (all_pending device_7_31))
              0%nat (set_readStatus_ true (channel 10 7)) listener
              eq_refl eq_refl eq_refl Hquiet)
    as (st' & E & Ht & Hd).
  exists st'. split; [exact E|]. split; [exact Ht|]. rewrite Hd. reflexivity.
Defined.

(** A poll that finds the read of the first channel failed, on a device
    without receive callback. *)
Lemma poll_round_without_callback_witness :
  receiveCallback_ (device (quiet_os (all_pending device_7_31))) = None /\
  perform_receive 0
    (scripted [] [] [] [IoFalse ERROR_DEVICE_NOT_CONNECTED] []
              (quiet_os (all_pending device_7_31)))
  = Fault.
Proof.
  split; [reflexivity|].
  exact (poll_round_without_callback
           (scripted [] [] [] [IoFalse ERROR_DEVICE_NOT_CONNECTED] []
                     (quiet_os (all_pending device_7_31)))
           0%nat (set_readStatus_ true (channel 10 7)) eq_refl eq_refl eq_refl).
Defined.

(** * The truncating read and the error mapping, by the answers of the OS *)

(** ** The loops of the synchronous read *)

Lemma for_loop_app {X} (body : nat -> M (option X)) a b : forall lo st,
  for_loop lo (a + b) body st
  = match for_loop lo a body st with
    | Done None s' => for_loop (lo + a) b body s'
    | Done (Some x) s' => Done (Some x) s'
    | Fault => Fault
    end.
Proof.
  induction a as [|a IH]; intros lo st; simpl.
  - rewrite Nat.add_0_r. reflexivity.
  - unfold bind. destruct (body lo st) as [[x|] s1|]; try reflexivity.
    rewrite IH. replace (S lo + a)%nat with (lo + S a)%nat by lia. reflexivity.
Qed.

(** A round of the first loop whose read, if one is issued, stays in
    flight. *)
Lemma read_start_scripted message maxLength actual0 i x s q :
  handles_ (device s) !! i = Some x ->
  q_ReadFile s = answer_of x ++ q ->
  exists s',
    read_start message maxLength actual0 i s = Done None s' /\
    device s' = set_handles_ (<[i := set_readStatus_ true x]> (handles_ (device s)))
                             (device s) /\
    q_ReadFile s' = q /\
    q_ReadResult s' = q_ReadResult s /\
    q_Wait s' = q_Wait s.
Proof.
  intros Hx Hq. unfold read_start.
  rewrite (bind_run _ _ s x s)
    by (unfold getSub, gets; rewrite (sub_at_lookup _ _ _ Hx); reflexivity).
  unfold answer_of in Hq.
  destruct (readStatus_ x) eqn:Hp.
  - exists s. split; [reflexivity|].
    rewrite set_readStatus_pending by exact Hp.
    rewrite list_insert_id by exact Hx. rewrite device_eta.
    repeat split. exact Hq.
  - unfold ReadFile. unfold bind at 1. rewrite Hq. simpl.
    unfold GetLastError. unfold bind at 1, gets at 1. simpl.
    unfold bind, modifySub, ret. simpl. rewrite (sub_at_lookup _ _ _ Hx).
    eexists. split; [reflexivity|]. simpl. repeat split.
Qed.

(** The first loop over the first [k] channels when the OS leaves every
    read it is asked for in flight. *)
Lemma read_starts_in_flight message maxLength actual0 k st q :
  (k <= length (handles_ (device st)))%nat ->
  q_ReadFile st = in_flight_answers (take k (handles_ (device st))) ++ q ->
  exists s',
    for_loop 0 k (read_start message maxLength actual0) st = Done None s' /\
    device s' = set_handles_
                  (map_first (set_readStatus_ true) k (handles_ (device st)))
                  (device st) /\
    q_ReadFile s' = q /\
    q_ReadResult s' = q_ReadResult st /\
    q_Wait s' = q_Wait st.
Proof.
  intros Hk Hq. set (hs := handles_ (device st)) in *.
  destruct (for_loop_inv
              (fun i s =>
                 device s = set_handles_ (map_first (set_readStatus_ true) i hs)
                                         (device st) /\
                 q_ReadFile s = in_flight_answers (drop i (take k hs)) ++ q /\
                 q_ReadResult s = q_ReadResult st /\
                 q_Wait s = q_Wait st)
              (read_start message maxLength actual0) k 0%nat st)
    as (s' & E & Hd & Hr & Hrr & Hw).
  - rewrite map_first_0, drop_0. unfold hs. rewrite device_eta. auto.
  - intros i s Hi (Hd & Hr & Hrr & Hw).
    destruct (lookup_lt_is_Some_2 hs i ltac:(lia)) as [x Hx].
    assert (Hsx : handles_ (device s) !! i = Some x).
    { rewrite Hd. simpl. rewrite map_first_lookup_ge by lia. exact Hx. }
    assert (Htx : take k hs !! i = Some x)
      by (rewrite lookup_take_lt by lia; exact Hx).
    rewrite (drop_S _ _ _ Htx) in Hr. unfold in_flight_answers in Hr.
    simpl in Hr. rewrite <- app_assoc in Hr.
    destruct (read_start_scripted message maxLength actual0 i x s _ Hsx Hr)
      as (s' & E & Hd' & Hr' & Hrr' & Hw').
    exists s'. split; [exact E|].
    split; [|split; [exact Hr' | split; congruence]].
    rewrite Hd', Hd. simpl. rewrite (map_first_step _ i _ x Hx). reflexivity.
  - exists s'. split; [exact E|]. simpl in *.
    split; [exact Hd|]. split; [|split; assumption].
    rewrite Hr, drop_ge by (rewrite length_take; lia). reflexivity.
Qed.

(** What the caller gets for a payload longer than [maxLength]. *)
Lemma copy_of_oversize message maxLength p :
  maxLength < Z.of_nat (length p) ->
  copy_of message maxLength p
  = (take (Z.to_nat maxLength) p ++ drop (Z.to_nat maxLength) message, maxLength).
Proof. intros H. unfold copy_of. rewrite Z.min_r by lia. reflexivity. Qed.

(** A round of the first loop whose read completes at once. *)
Lemma read_start_completes message maxLength actual0 i x s p rest :
  0 <= maxLength < 2 ^ 31 -> maxLength <= Z.of_nat (length message) ->
  handles_ (device s) !! i = Some x ->
  readStatus_ x = false ->
  q_ReadFile s = IoTrue p :: rest ->
  exists s',
    read_start message maxLength actual0 i s
    = Done (Some (FREESPACE_SUCCESS, copy_of message maxLength p)) s'.
Proof.
  intros Hmax Hmsg Hx Hidle Hq. pose proof (lookup_lt_Some _ _ _ Hx) as Hlt.
  unfold read_start.
  rewrite (bind_run _ _ s x s)
    by (unfold getSub, gets; rewrite (sub_at_lookup _ _ _ Hx); reflexivity).
  rewrite Hidle. unfold ReadFile. unfold bind at 1. rewrite Hq. simpl.
  unfold bind, modifySub, getSub, gets, ret. simpl.
  rewrite (sub_at_lookup _ _ _ Hx).
  unfold sub_at. simpl. rewrite list_lookup_insert_eq by exact Hlt. simpl.
  rewrite read_out_copy by assumption.
  eexists. reflexivity.
Qed.

(** A round of the second loop whose read is not complete yet, and one
    whose read is complete. *)
Lemma read_check_scripted message maxLength actual0 i s q :
  q_ReadResult s = IoFalse ERROR_IO_INCOMPLETE :: q ->
  exists s',
    read_check message maxLength actual0 i s = Done None s' /\
    device s' = device s /\
    q_ReadResult s' = q.
Proof.
  intros Hq. unfold read_check, getSub.
  unfold bind at 1, gets at 1.
  unfold GetOverlappedResult_read. unfold bind at 1. rewrite Hq. simpl.
  unfold GetLastError. unfold bind at 1, gets at 1. simpl.
  eexists. split; [reflexivity|]. split; reflexivity.
Qed.

Lemma read_check_completes message maxLength actual0 i x s p rest :
  0 <= maxLength < 2 ^ 31 -> maxLength <= Z.of_nat (length message) ->
  handles_ (device s) !! i = Some x ->
  q_ReadResult s = IoTrue p :: rest ->
  exists s',
    read_check message maxLength actual0 i s
    = Done (Some (FREESPACE_SUCCESS, copy_of message maxLength p)) s'.
Proof.
  intros Hmax Hmsg Hx Hq. pose proof (lookup_lt_Some _ _ _ Hx) as Hlt.
  unfold read_check.
  rewrite (bind_run _ _ s x s)
    by (unfold getSub, gets; rewrite (sub_at_lookup _ _ _ Hx); reflexivity).
  unfold GetOverlappedResult_read. unfold bind at 1. rewrite Hq. simpl.
  unfold bind, modifySub, getSub, gets, ret. simpl.
  rewrite (sub_at_lookup _ _ _ Hx).
  unfold sub_at. simpl. rewrite list_lookup_insert_eq by exact Hlt. simpl.
  rewrite read_out_copy by assumption.
  eexists. reflexivity.
Qed.

Lemma read_checks_incomplete message maxLength actual0 k st q :
  q_ReadResult st = replicate k (IoFalse ERROR_IO_INCOMPLETE) ++ q ->
  exists s',
    for_loop 0 k (read_check message maxLength actual0) st = Done None s' /\
    device s' = device st /\
    q_ReadResult s' = q.
Proof.
  intros Hq.
  destruct (for_loop_inv
              (fun i s =>
                 device s = device st /\
                 q_ReadResult s
                 = replicate (k - i) (IoFalse ERROR_IO_INCOMPLETE) ++ q)
              (read_check message maxLength actual0) k 0%nat st)
    as (s' & E & Hd & Hr).
  - rewrite Nat.sub_0_r. auto.
  - intros i s Hi (Hd & Hr).
    replace (k - i)%nat with (S (k - S i)) in Hr by lia. simpl in Hr.
    destruct (read_check_scripted message maxLength actual0 i s _ Hr)
      as (s' & E & Hd' & Hr').
    exists s'. split; [exact E|]. split; [congruence | exact Hr'].
  - exists s'. split; [exact E|]. split; [exact Hd|].
    simpl in Hr. rewrite Nat.sub_diag in Hr. exact Hr.
Qed.

(** ** The claim on oversize payloads *)

(** C10.  A synchronous read on a known device that completes with a payload
    [p] longer than [maxLength] (the caller's buffer holds at least
    [maxLength] bytes) returns SUCCESS, sets [*actualLength] to [maxLength],
    and copies exactly the first [maxLength] bytes of [p] to the front of
    the caller's buffer, the bytes behind them being left as they were.  A
    read completes in one of two ways, told here by what the OS answers:
    - at once: the reads issued on the channels before channel [k] all stay
      in flight, and the read issued on channel [k], which has none
      pending, completes with [p];
    - after the wait: every read issued stays in flight, the wait neither
      fails nor times out, the completion queries on the channels before
      channel [k] find the read incomplete, and the query on channel [k]
      finds it complete with [p]. *)
Theorem C10_oversize_read_is_truncated st message maxLength timeoutMs actual0 p :
  table_ok (device st) ->
  0 <= maxLength < 2 ^ 31 ->
  maxLength <= Z.of_nat (length message) ->
  maxLength < Z.of_nat (length p) ->
  let truncated :=
    take (Z.to_nat maxLength) p ++ drop (Z.to_nat maxLength) message in
  (forall k x rest,
     (k < handleCount_ (device st))%nat ->
     handles_ (device st) !! k = Some x ->
     readStatus_ x = false ->
     q_ReadFile st
       = in_flight_answers (take k (handles_ (device st))) ++ IoTrue p :: rest ->
     exists st',
       freespace_read (id_ (device st)) message maxLength timeoutMs actual0 st
       = Done (FREESPACE_SUCCESS, (truncated, maxLength)) st') /\
  (forall k rest results,
     (k < handleCount_ (device st))%nat ->
     q_ReadFile st = in_flight_answers (attached (device st)) ++ rest ->
     woken (next_wait_result st) = true ->
     q_ReadResult st
       = replicate k (IoFalse ERROR_IO_INCOMPLETE) ++ IoTrue p :: results ->
     exists st',
       freespace_read (id_ (device st)) message maxLength timeoutMs actual0 st
       = Done (FREESPACE_SUCCESS, (truncated, maxLength)) st').
Proof.
  intros Hok Hmax Hmsg Hbig truncated.
  pose proof Hok as Hroom. unfold table_ok in Hroom.
  set (n := handleCount_ (device st)) in *.
  set (hs := handles_ (device st)) in *.
  assert (Hentry :
            freespace_read (id_ (device st)) message maxLength timeoutMs actual0 st
            = (r <- for_loop 0 n (read_start message maxLength actual0) ;;
               match r with
               | Some x => ret x
               | None =>
                   d <- gets device ;;
                   bResult <- WaitForMultipleObjects
                     (map (fun idx => readOverlapped_hEvent (sub_at d idx))
                          (seq 0 (handleCount_ d))) timeoutMs ;;
                   if bool_decide (bResult = WAIT_FAILED)
                   then ret (FREESPACE_ERROR_INTERRUPTED, (message, actual0))
                   else if bool_decide (bResult = WAIT_TIMEOUT)
                   then ret (FREESPACE_ERROR_TIMEOUT, (message, actual0))
                   else
                     r <- for_loop 0 (handleCount_ d)
                            (read_check message maxLength actual0) ;;
                     match r with
                     | Some x => ret x
                     | None => ret (FREESPACE_ERROR_INTERRUPTED, (message, actual0))
                     end
               end) st).
  { unfold freespace_read.
    unfold bind at 1, freespace_private_getDeviceById, gets at 1.
    rewrite bool_decide_eq_true_2 by reflexivity.
    change (negb true) with false. cbv beta iota.
    unfold bind at 1, gets at 1. reflexivity. }
  rewrite Hentry. clear Hentry.
  split.
  - intros k x rest Hk Hx Hidle Hq.
    destruct (read_starts_in_flight message maxLength actual0 k st _
                ltac:(fold hs; lia) Hq) as (s1 & E1 & Hd1 & Hq1 & _).
    assert (Hx1 : handles_ (device s1) !! k = Some x).
    { rewrite Hd1. simpl. rewrite map_first_lookup_ge by lia. exact Hx. }
    destruct (read_start_completes message maxLength actual0 k x s1 p rest
                Hmax Hmsg Hx1 Hidle Hq1) as (s2 & E2).
    exists s2. unfold bind at 1.
    replace n with (k + S (n - S k))%nat by lia.
    rewrite for_loop_app, E1. simpl. unfold bind at 1. rewrite E2.
    unfold ret. rewrite copy_of_oversize by exact Hbig. reflexivity.
  - intros k rest results Hk Hq Hw Hr.
    destruct (read_starts_in_flight message maxLength actual0 n st _
                ltac:(fold hs; lia) Hq) as (s1 & E1 & Hd1 & _ & Hr1 & Hw1).
    unfold bind at 1. rewrite E1.
    unfold bind at 1, gets at 1.
    unfold bind at 1, WaitForMultipleObjects.
    assert (Hwait : default WAIT_TIMEOUT (head (q_Wait s1)) = next_wait_result st)
      by (rewrite Hw1; reflexivity).
    rewrite Hwait.
    unfold woken in Hw. apply andb_true_iff in Hw as (Hf & Ht).
    apply negb_true_iff in Hf, Ht. rewrite Hf, Ht.
    set (s2 := add_event _ (next_wait s1)).
    assert (Hn1 : handleCount_ (device s1) = n) by (rewrite Hd1; reflexivity).
    rewrite Hn1.
    assert (Hr2 : q_ReadResult s2
                  = replicate k (IoFalse ERROR_IO_INCOMPLETE) ++ IoTrue p :: results)
      by (simpl; rewrite Hr1; exact Hr).
    destruct (read_checks_incomplete message maxLength actual0 k s2 _ Hr2)
      as (s3 & E3 & Hd3 & Hr3).
    destruct (lookup_lt_is_Some_2 (handles_ (device s3)) k) as [x Hx].
    { rewrite Hd3. simpl. rewrite Hd1. simpl. rewrite length_map_first.
      fold hs. lia. }
    destruct (read_check_completes message maxLength actual0 k x s3 p results
                Hmax Hmsg Hx Hr3) as (s4 & E4).
    exists s4. unfold bind at 1.
    replace n with (k + S (n - S k))%nat by lia.
    rewrite for_loop_app, E3. simpl. unfold bind at 1. rewrite E4.
    unfold ret. rewrite copy_of_oversize by exact Hbig. reflexivity.
Qed.

(** C10 at a five-byte payload read into a three-byte buffer: when the read
    on the first channel completes at once, and when both reads stay in
    flight and the query on the second channel finds its read complete. *)
Lemma C10_witness :
  table_ok device_7_31 /\
  (exists st',
     freespace_read 1 (replicate 3 x00) 3 10 0 world_five_bytes
     = Done (FREESPACE_SUCCESS, (map byte_of [1; 2; 3], 3)) st') /\
  (exists st',
     freespace_read 1 (replicate 3 x00) 3 10 0
       (scripted [] [IoFalse ERROR_IO_PENDING; IoFalse ERROR_IO_PENDING] []
                 [IoFalse ERROR_IO_INCOMPLETE; IoTrue five_bytes]
                 [WAIT_OBJECT_0 + 1] (quiet_os device_7_31))
     = Done (FREESPACE_SUCCESS, (map byte_of [1; 2; 3], 3)) st').
Proof.
  assert (Hok : table_ok device_7_31) by (unfold table_ok; simpl; lia).
  split; [exact Hok|]. split.
  - exact (proj1 (C10_oversize_read_is_truncated world_five_bytes
                    (replicate 3 x00) 3 10 0 five_bytes Hok
                    ltac:(lia) ltac:(simpl; lia) ltac:(simpl; lia))
             0%nat (channel 10 7) [] ltac:(simpl; lia) eq_refl eq_refl eq_refl).
  - exact (proj2 (C10_oversize_read_is_truncated
                    (scripted [] [IoFalse ERROR_IO_PENDING; IoFalse ERROR_IO_PENDING] []
                              [IoFalse ERROR_IO_INCOMPLETE; IoTrue five_bytes]
                              [WAIT_OBJECT_0 + 1] (quiet_os device_7_31))
                    (replicate 3 x00) 3 10 0 five_bytes Hok
                    ltac:(lia) ltac:(simpl; lia) ltac:(simpl; lia))
             1%nat [] [] ltac:(simpl; lia) eq_refl eq_refl eq_refl).
Defined.

(** ** The rearm round, by the answers of the OS *)

Lemma unregister_from_callback_runs st cb :
  receiveCallback_ (device st) = Some cb ->
  can_unregister st ->
  unregister_from_callback (id_ (device st)) st
  = Done FREESPACE_SUCCESS
      (with_trace (trace st ++ unregistration (device st))
         (with_handles (all_idle (device st))
            (set_device (set_receive None 0 (device st)) st))).
Proof.
  intros Hcb (Hop & Hok & Hhook).
  destruct (fdRemovedCallback_ (freespace_instance_ st)) as [hook|] eqn:Hh;
    [|discriminate].
  unfold unregister_from_callback, setReceiveCallback_body.
  unfold bind at 1. unfold freespace_private_getDeviceById, gets at 1.
  rewrite bool_decide_eq_true_2 by reflexivity. simpl.
  unfold bind at 1, gets at 1. rewrite Hop, Hcb. simpl.
  unfold bind at 1, modifyDevice at 1.
  set (st1 := set_device (set_receive None 0 (device st)) st).
  unfold bind at 1.
  rewrite (fdSyncRemoveFilter_runs hook st1 Hh Hok).
  rewrite terminate_cancels_pending by exact Hok.
  simpl. unfold unregistration. rewrite <- app_assoc. reflexivity.
Qed.

(** A call of the receive callback, whether it unregisters or not. *)
Lemma call_receiveCallback_runs s cb payload len code :
  receiveCallback_ (device s) = Some cb ->
  (rcb_unregisters cb payload code = true -> can_unregister s) ->
  exists s',
    call_receiveCallback payload len code s = Done tt s' /\
    trace s' = trace s ++
      EvReceiveCallback (rcb_addr cb) (id_ (device s)) payload len
                        (receiveCookie_ (device s)) code
      :: (if rcb_unregisters cb payload code then unregistration (device s) else []) /\
    device s' = (if rcb_unregisters cb payload code
                 then unregistered (device s) else device s) /\
    q_ReadFile s' = q_ReadFile s /\
    lastError s' = lastError s /\
    freespace_instance_ s' = freespace_instance_ s.
Proof.
  intros Hcb Hcan. unfold call_receiveCallback.
  unfold bind at 1, gets at 1. rewrite Hcb.
  unfold bind at 1, emit.
  set (ev := EvReceiveCallback _ _ _ _ _ _).
  destruct (rcb_unregisters cb payload code) eqn:Hu.
  - assert (Hcan' : can_unregister (add_event ev s)) by (apply Hcan; reflexivity).
    unfold bind at 1.
    change (id_ (device s)) with (id_ (device (add_event ev s))).
    rewrite (unregister_from_callback_runs (add_event ev s) cb Hcb Hcan').
    eexists. split; [reflexivity|]. simpl.
    rewrite <- app_assoc. repeat split.
  - eexists. split; [reflexivity|]. simpl. repeat split.
Qed.

Lemma received_event ps : forall x,
  readOverlapped_hEvent (received ps x) = readOverlapped_hEvent x.
Proof.
  induction ps as [|p ps IH]; intros x; simpl; [reflexivity|].
  rewrite IH. reflexivity.
Qed.

(** The reads of a round that complete at once, while the callback stays
    registered: the round goes on after them. *)
Lemma drain_through cb i ps : forall x s f q,
  handles_ (device s) !! i = Some x ->
  receiveCallback_ (device s) = Some cb ->
  stays_through cb ps ->
  q_ReadFile s = map IoTrue ps ++ q ->
  exists s1,
    drain_reads (length ps + f) i s = drain_reads f i s1 /\
    device s1 = set_handles_ (<[i := received ps x]> (handles_ (device s))) (device s) /\
    trace s1 = trace s ++ flat_map (delivery (device s) cb x) ps /\
    q_ReadFile s1 = q /\
    freespace_instance_ s1 = freespace_instance_ s.
Proof.
  induction ps as [|p ps IH]; intros x s f q Hx Hcb Hstay Hq.
  - exists s. split; [reflexivity|]. simpl.
    rewrite list_insert_id by exact Hx. rewrite device_eta, app_nil_r. auto.
  - apply Forall_cons_1 in Hstay as [Hp Hstay].
    simpl. unfold ReadFile. run. rewrite (sub_at_lookup _ _ _ Hx), Hq. simpl.
    rewrite Hcb. simpl. unfold call_receiveCallback. run. rewrite Hcb. simpl.
    rewrite (sub_at_lookup _ _ _ Hx).
    rewrite !sub_at_insert by (eapply lookup_lt_Some; exact Hx).
    rewrite payload_of_readData. simpl. rewrite Hp. simpl.
    match goal with
    | |- context [drain_reads (length ps + f) i ?s1] =>
        destruct (IH (set_readData p x) s1 f q) as (s' & E & Hd & Ht & Hq' & Hin)
    end.
    + simpl. apply (lookup_insert_same _ _ _ _ Hx).
    + exact Hcb.
    + exact Hstay.
    + reflexivity.
    + exists s'. split; [exact E|].
      split; [|split; [|split; assumption]].
      * rewrite Hd. simpl. rewrite list_insert_insert_eq. reflexivity.
      * rewrite Ht. simpl. rewrite <- !app_assoc. reflexivity.
Qed.

(** The read of a round that does not complete ends the loop of the
    round. *)
Lemma drain_stops i f s e rest :
  q_ReadFile s = IoFalse e :: rest ->
  exists s',
    drain_reads (S f) i s = Done None s' /\
    device s' = device s /\
    trace s' = trace s ++
      [EvReadFile (handle_ (sub_at (device s) i))
                  (inputReportByteLength_ (info_ (sub_at (device s) i)))
                  (IoFalse e)] /\
    lastError s' = e /\
    q_ReadFile s' = rest /\
    freespace_instance_ s' = freespace_instance_ s.
Proof.
  intros Hq. simpl. unfold ReadFile. run. rewrite Hq. simpl.
  eexists. split; [reflexivity|]. simpl. repeat split.
Qed.

(** What a round does once its loop has ended on a failed read. *)
Lemma rearm_after_failure i funcRc x s :
  handles_ (device s) !! i = Some x ->
  readStatus_ x = false ->
  rearm_channel i funcRc s
  = match drain_reads (S (length (q_ReadFile s))) i s with
    | Done (Some r) s1 => Done (inr r) s1
    | Done None s1 =>
        if bool_decide (lastError s1 = ERROR_IO_PENDING)
        then (modifySub i (set_readStatus_ true) ;;; ret (inl funcRc)) s1
        else (call_receiveCallback None 0 (mapped (lastError s1)) ;;;
              Sleep0 ;;; ret (inl FREESPACE_ERROR_INTERRUPTED)) s1
    | Fault => Fault
    end.
Proof.
  intros Hx Hidle. unfold rearm_channel.
  rewrite (bind_run _ _ s x s)
    by (unfold getSub, gets; rewrite (sub_at_lookup _ _ _ Hx); reflexivity).
  rewrite Hidle. unfold bind at 1, gets at 1. unfold bind at 1.
  destruct (drain_reads (S (length (q_ReadFile s))) i s) as [[r|] s1|];
    try reflexivity.
  unfold GetLastError. unfold bind at 1, gets at 1.
  destruct (bool_decide (lastError s1 = ERROR_IO_PENDING)); [reflexivity|].
  unfold convertGetLastError, GetLastError.
  unfold bind at 1. unfold bind at 1, gets at 1. reflexivity.
Qed.

Lemma flat_map_insert_same {A B} (f : A -> list B) n i (l : list A) x x' :
  l !! i = Some x -> f x' = f x ->
  flat_map f (take n (<[i := x']> l)) = flat_map f (take n l).
Proof.
  intros Hx Hf. rewrite !flat_map_concat_map. f_equal.
  change (map f) with (fmap (M := list) f).
  rewrite !fmap_take. f_equal.
  rewrite list_fmap_insert, Hf.
  apply list_insert_id. rewrite list_lookup_fmap, Hx. reflexivity.
Qed.

Lemma unregistration_received d i x ps :
  handles_ d !! i = Some x ->
  unregistration (set_handles_ (<[i := received ps x]> (handles_ d)) d)
  = unregistration d.
Proof.
  intros Hx. unfold unregistration, attached. simpl.
  destruct (received_keeps ps x) as (Hh & _ & Hr).
  rewrite (flat_map_insert_same removal_of _ i _ x) by
    (try exact Hx; unfold removal_of; rewrite received_event; reflexivity).
  rewrite (flat_map_insert_same cancel_if_pending _ i _ x) by
    (try exact Hx; unfold cancel_if_pending; rewrite Hh, Hr; reflexivity).
  reflexivity.
Qed.

(** The last read of a round that completes at once, given to a callback
    that unregisters on it: the round goes on without a callback. *)
Lemma drain_unregistering cb i x s f p q :
  handles_ (device s) !! i = Some x ->
  receiveCallback_ (device s) = Some cb ->
  rcb_unregisters cb (Some p) FREESPACE_SUCCESS = true ->
  can_unregister s ->
  q_ReadFile s = IoTrue p :: q ->
  exists s',
    drain_reads (S f) i s = drain_reads f i s' /\
    receiveCallback_ (device s') = None /\
    q_ReadFile s' = q.
Proof.
  intros Hx Hcb Hu (Hop & Hok & Hhook) Hq.
  pose proof (lookup_lt_Some _ _ _ Hx) as Hlt.
  simpl.
  rewrite (bind_run _ _ s x s)
    by (unfold getSub, gets; rewrite (sub_at_lookup _ _ _ Hx); reflexivity).
  unfold ReadFile. unfold bind at 1. rewrite Hq. simpl.
  set (s0 := mkState _ _ _ _ _ _ _ _ _ _).
  unfold bind at 1, modifySub.
  change (device s0) with (device s). rewrite (sub_at_lookup _ _ _ Hx).
  set (s1 := set_device _ s0).
  unfold bind at 1, gets at 1.
  change (receiveCallback_ (device s1)) with (receiveCallback_ (device s)).
  rewrite Hcb. change (is_Some_bool (Some cb)) with true. cbv iota.
  assert (Hs1 : sub_at (device s1) i = set_readData p x).
  { unfold s1, sub_at. simpl. rewrite list_lookup_insert_eq by exact Hlt.
    reflexivity. }
  rewrite (bind_run _ _ s1 (set_readData p x) s1)
    by (unfold getSub, gets; rewrite Hs1; reflexivity).
  rewrite payload_of_readData.
  destruct (call_receiveCallback_runs s1 cb (Some p)
              (readBufferSize (set_readData p x)) FREESPACE_SUCCESS Hcb)
    as (s2 & E & _ & Hd & Hq2 & _).
  { intros _. split; [exact Hop|]. split; [|exact Hhook].
    unfold table_ok in *. simpl. rewrite length_insert. exact Hok. }
  rewrite (bind_run _ _ _ _ _ E).
  exists s2. split; [reflexivity|]. split.
  - rewrite Hd, Hu. reflexivity.
  - rewrite Hq2. reflexivity.
Qed.

(** ** The claim on the error mapping *)

(** C9, as the code has it.  [convertGetLastError] maps the disconnect error
    to NOT_FOUND and every other OS error to UNEXPECTED.  The mapped code is
    reported on one path only, the rearm round of a channel:
    - when a read of the round fails (any error but "in flight"), after any
      number of reads that completed at once and were delivered to a
      callback that stayed registered, the round delivers exactly the
      mapped code to the receive callback, once, with a NULL payload and
      length 0, whether the callback unregisters on that call or not, then
      calls [Sleep(0)] and answers INTERRUPTED;
    - when the device has no receive callback at that point, because the
      callback was cleared before the round or cleared itself on the last
      payload of the round, the round calls through the NULL callback.
    A write whose activation fails hard returns UNEXPECTED whatever the OS
    error is, a disconnect included. *)
Theorem C9_os_error_mapping :
  (forall st, convertGetLastError st = Done (mapped (lastError st)) st) /\
  (forall st idx x funcRc cb ps e rest,
     handles_ (device st) !! idx = Some x ->
     readStatus_ x = false ->
     receiveCallback_ (device st) = Some cb ->
     stays_through cb ps ->
     q_ReadFile st = map IoTrue ps ++ IoFalse e :: rest ->
     e <> ERROR_IO_PENDING ->
     (rcb_unregisters cb None (mapped e) = true -> can_unregister st) ->
     exists st',
       rearm_channel idx funcRc st = Done (inl FREESPACE_ERROR_INTERRUPTED) st' /\
       trace st' = trace st ++ flat_map (delivery (device st) cb x) ps ++
         [EvReadFile (handle_ x) (inputReportByteLength_ (info_ x)) (IoFalse e);
          EvReceiveCallback (rcb_addr cb) (id_ (device st)) None 0
                            (receiveCookie_ (device st)) (mapped e)] ++
         (if rcb_unregisters cb None (mapped e)
          then unregistration (device st) else []) ++
         [EvSleep]) /\
  (forall st idx x funcRc e rest,
     handles_ (device st) !! idx = Some x ->
     readStatus_ x = false ->
     receiveCallback_ (device st) = None ->
     q_ReadFile st = IoFalse e :: rest ->
     e <> ERROR_IO_PENDING ->
     rearm_channel idx funcRc st = Fault) /\
  (forall st idx x funcRc cb ps p e rest,
     handles_ (device st) !! idx = Some x ->
     readStatus_ x = false ->
     receiveCallback_ (device st) = Some cb ->
     stays_through cb ps ->
     rcb_unregisters cb (Some p) FREESPACE_SUCCESS = true ->
     can_unregister st ->
     q_ReadFile st = map IoTrue ps ++ IoTrue p :: IoFalse e :: rest ->
     e <> ERROR_IO_PENDING ->
     rearm_channel idx funcRc st = Fault) /\
  (forall st send s1 idx e rest,
     send_ (device st) !! send = Some s1 ->
     interface_ s1 = Some idx ->
     q_WriteFile st = IoFalse e :: rest ->
     e <> ERROR_IO_PENDING ->
     exists st',
       freespace_send_activate send st = Done FREESPACE_ERROR_UNEXPECTED st').
Proof.
  split; [|split; [|split; [|split]]].
  - intros st. reflexivity.
  - intros st idx x funcRc cb ps e rest Hx Hidle Hcb Hstay Hq He Hcan.
    pose proof (lookup_lt_Some _ _ _ Hx) as Hlt.
    rewrite (rearm_after_failure idx funcRc x st Hx Hidle).
    assert (Hfuel : S (length (q_ReadFile st))
                    = (length ps + S (S (length rest)))%nat)
      by (rewrite Hq, length_app, length_map; simpl; lia).
    rewrite Hfuel.
    destruct (drain_through cb idx ps x st (S (S (length rest))) _ Hx Hcb Hstay Hq)
      as (s1 & E1 & Hd1 & Ht1 & Hq1 & Hin1).
    rewrite E1.
    destruct (drain_stops idx (S (length rest)) s1 e rest Hq1)
      as (s2 & E2 & Hd2 & Ht2 & He2 & _ & Hin2).
    rewrite E2, He2. rewrite (bool_decide_eq_false_2 _ He).
    assert (Hdev2 : device s2
                    = set_handles_ (<[idx := received ps x]> (handles_ (device st)))
                                   (device st))
      by (rewrite Hd2; exact Hd1).
    assert (Hcb2 : receiveCallback_ (device s2) = Some cb)
      by (rewrite Hdev2; exact Hcb).
    destruct (call_receiveCallback_runs s2 cb None 0 (mapped e) Hcb2)
      as (s3 & E3 & Ht3 & _).
    { intros Hu. destruct (Hcan Hu) as (Hop & Hok & Hhook).
      split; [rewrite Hdev2; exact Hop|]. split.
      - unfold table_ok in *. rewrite Hdev2. simpl. rewrite length_insert. exact Hok.
      - rewrite Hin2, Hin1. exact Hhook. }
    rewrite (bind_run _ _ _ _ _ E3).
    eexists. split; [reflexivity|]. simpl.
    rewrite Ht3, Ht2, Ht1, Hdev2, Hd1.
    rewrite (unregistration_received _ _ _ _ Hx).
    rewrite sub_at_insert by exact Hlt.
    destruct (received_keeps ps x) as (-> & -> & _).
    simpl. rewrite <- !app_assoc. simpl. reflexivity.
  - intros st idx x funcRc e rest Hx Hidle Hcb Hq He.
    rewrite (rearm_after_failure idx funcRc x st Hx Hidle).
    assert (Hfuel : S (length (q_ReadFile st)) = S (S (length rest)))
      by (rewrite Hq; reflexivity).
    rewrite Hfuel.
    destruct (drain_stops idx (S (length rest)) st e rest Hq)
      as (s2 & E2 & Hd2 & _ & He2 & _).
    rewrite E2, He2. rewrite (bool_decide_eq_false_2 _ He).
    unfold bind at 1, call_receiveCallback.
    unfold bind at 1, gets at 1. rewrite Hd2, Hcb. reflexivity.
  - intros st idx x funcRc cb ps p e rest Hx Hidle Hcb Hstay Hu Hcan Hq He.
    pose proof (lookup_lt_Some _ _ _ Hx) as Hlt.
    rewrite (rearm_after_failure idx funcRc x st Hx Hidle).
    assert (Hfuel : S (length (q_ReadFile st))
                    = (length ps + S (S (S (length rest))))%nat)
      by (rewrite Hq, length_app, length_map; simpl; lia).
    rewrite Hfuel.
    destruct (drain_through cb idx ps x st (S (S (S (length rest)))) _
                Hx Hcb Hstay Hq)
      as (s1 & E1 & Hd1 & _ & Hq1 & Hin1).
    rewrite E1.
    assert (Hx1 : handles_ (device s1) !! idx = Some (received ps x)).
    { rewrite Hd1. simpl. apply list_lookup_insert_eq. exact Hlt. }
    assert (Hcb1 : receiveCallback_ (device s1) = Some cb)
      by (rewrite Hd1; exact Hcb).
    assert (Hcan1 : can_unregister s1).
    { destruct Hcan as (Hop & Hok & Hhook).
      split; [rewrite Hd1; exact Hop|]. split.
      - unfold table_ok in *. rewrite Hd1. simpl. rewrite length_insert. exact Hok.
      - rewrite Hin1. exact Hhook. }
    destruct (drain_unregistering cb idx (received ps x) s1 (S (S (length rest)))
                p (IoFalse e :: rest) Hx1 Hcb1 Hu Hcan1 Hq1)
      as (s2 & E2 & Hcb2 & Hq2).
    rewrite E2.
    destruct (drain_stops idx (S (length rest)) s2 e rest Hq2)
      as (s3 & E3 & Hd3 & _ & He3 & _).
    rewrite E3, He3. rewrite (bool_decide_eq_false_2 _ He).
    unfold bind at 1, call_receiveCallback.
    unfold bind at 1, gets at 1. rewrite Hd3, Hcb2. reflexivity.
  - intros st send s1 idx e rest Hs1 Hi Hq He.
    destruct (activate_writes st send s1 idx Hs1 Hi)
      as (code & st' & Hact & _ & _ & _ & _ & Hcode).
    unfold next_write in Hcode. rewrite Hq in Hcode. simpl in Hcode.
    rewrite bool_decide_eq_true_2 in Hcode by exact He.
    exists st'. rewrite Hact, Hcode. reflexivity.
Qed.

(** C9 at a disconnect: after a five-byte payload that was delivered to the
    listener; on the second channel of a device without callback; and after
    the payload on which the callback [once] cleared itself. *)
Lemma C9_witness :
  ERROR_DEVICE_NOT_CONNECTED <> ERROR_IO_PENDING /\
  stays_through listener [five_bytes] /\
  (exists st',
     rearm_channel 0 FREESPACE_SUCCESS
       (receive_world listener
          [IoTrue five_bytes; IoFalse ERROR_DEVICE_NOT_CONNECTED] [] device_7_31)
       = Done (inl FREESPACE_ERROR_INTERRUPTED) st' /\
     trace st' =
       [EvReadFile (Some 10) 8 (IoTrue five_bytes);
        EvReceiveCallback 701 1 (Some five_bytes) 5 9 FREESPACE_SUCCESS;
        EvReadFile (Some 10) 8 (IoFalse ERROR_DEVICE_NOT_CONNECTED);
        EvReceiveCallback 701 1 None 0 9 FREESPACE_ERROR_NOT_FOUND;
        EvSleep]) /\
  rearm_channel 1 FREESPACE_SUCCESS
    (scripted [] [IoFalse ERROR_DEVICE_NOT_CONNECTED] [] [] []
              (quiet_os device_7_31)) = Fault /\
  rearm_channel 0 FREESPACE_SUCCESS
    (receive_world once
       [IoTrue five_bytes; IoFalse ERROR_DEVICE_NOT_CONNECTED] [] device_7_31)
    = Fault.
Proof.
  assert (Hne : ERROR_DEVICE_NOT_CONNECTED <> ERROR_IO_PENDING)
    by (vm_compute; discriminate).
  assert (Hstay : stays_through listener [five_bytes])
    by (repeat constructor).
  split; [exact Hne|]. split; [exact Hstay|]. split; [|split].
  - exact (proj1 (proj2 C9_os_error_mapping)
             (receive_world listener
                [IoTrue five_bytes; IoFalse ERROR_DEVICE_NOT_CONNECTED] []
                device_7_31)
             0%nat (channel 10 7) FREESPACE_SUCCESS listener [five_bytes]
             ERROR_DEVICE_NOT_CONNECTED []
             eq_refl eq_refl eq_refl Hstay eq_refl Hne
             ltac:(intros H; vm_compute in H; discriminate H)).
  - exact (proj1 (proj2 (proj2 C9_os_error_mapping))
             (scripted [] [IoFalse ERROR_DEVICE_NOT_CONNECTED] [] [] []
                       (quiet_os device_7_31))
             1%nat (channel 11 31) FREESPACE_SUCCESS
             ERROR_DEVICE_NOT_CONNECTED []
             eq_refl eq_refl eq_refl eq_refl Hne).
  - exact (proj1 (proj2 (proj2 (proj2 C9_os_error_mapping)))
             (receive_world once
                [IoTrue five_bytes; IoFalse ERROR_DEVICE_NOT_CONNECTED] []
                device_7_31)
             0%nat (channel 10 7) FREESPACE_SUCCESS once [] five_bytes
             ERROR_DEVICE_NOT_CONNECTED []
             eq_refl eq_refl eq_refl ltac:(constructor) eq_refl
             ltac:(repeat split; try reflexivity; unfold table_ok; simpl; lia)
             eq_refl Hne).
Defined.
